(** * pioniq: the OBD-II telemetry reader [obdii_data.py]

    A shallow embedding of the CAN frame reassembler [can_response], the
    retrying [query_command], the telemetry decoders and the per-group
    orchestration of the main script, together with the properties the
    specification states about them.

    Conventions of the embedding.
    - A Python [str] is a list of 8-bit characters (code points 0..255).
    - A Python [bytes]/[bytearray] is a list of integers; [fromhex] only
      produces values in 0..255.
    - A Python [int] is a [Z].  A Python [float] is written as a rational
      ([Q], kept in lowest terms) and is the binary64 number nearest to
      it: the quotient of two integers is kept as it is, since the
      division of the script rounds it once; a product is rounded as
      binary64 multiplication rounds it ([F64], [fmul]).
    - Exceptions are values of [exn]; a computation that may raise returns
      a [result]. *)

From Stdlib Require Import ZArith List String Ascii Bool Lia QArith.
From Stdlib Require DecimalString SpecFloat.
Import ListNotations.
Local Open Scope Z_scope.

(** ** Commands

    An [OBDCommand(name, desc, command, 0, decoder, ECU.ALL, False)] of the
    script.  The three constant arguments are left out. *)

Inductive decoder : Type :=
| raw_string            (* obd.decoders.raw_string *)
| can_response_decoder. (* the script's own can_response *)

Record OBDCommand : Type := mkCommand {
  name : string;
  desc : string;
  command : string;
  decode : decoder
}.

(** ** Exceptions and results *)

(** Which [ValueError] was raised (the payload of its message). *)
Inductive value_error : Type :=
| InvalidLineLength (line : list ascii) (len : Z)
    (* 'Error parsing CAN response: {}. Invalid line length {}!=19. ' *)
| UnexpectedFrame                      (* 'Unexpected frame' *)
| InvalidLiteral (s : list ascii)      (* raised by int(s, 16) *)
| NonHexadecimal (s : list ascii)      (* raised by bytes.fromhex(s) *)
| NoValidResponse (command : OBDCommand) (max_attempts : Z)
    (* "No valid response for {}. Max attempts ({}) exceeded." *)
| InconsistentSoh (soh : Q)
    (* "Got inconsistent data for battery Status Of Health: {}%" *)
| NoOdometer                           (* "Could not get odometer value" *)
| NoTpms                               (* "Could not get TPMS information" *)
| NoExternalTemperature.               (* "Could not get external temperature value" *)

Inductive exn : Type :=
| ValueError (what : value_error)
| CanError (last_idx idx : Z)  (* "Bad frame order: last_idx({}) idx({})" *)
| ConnectionError
| TypeError
| IndexError
| AttributeError
| OtherException.

Inductive result (A : Type) : Type :=
| Ok (a : A)
| Raise (e : exn).
Arguments Ok {A} a.
Arguments Raise {A} e.

Definition rbind {A B} (r : result A) (k : A -> result B) : result B :=
  match r with
  | Ok a => k a
  | Raise e => Raise e
  end.

Declare Scope result_scope.
Delimit Scope result_scope with result.
Notation "'let?' x ':=' r 'in' k" := (rbind r (fun x => k))
  (at level 10, x name, r at level 100, k at level 200) : result_scope.

(** ** Python built-ins used by the script *)

Module Py.

Definition code (c : ascii) : Z := Z.of_nat (nat_of_ascii c).

Definition between (lo hi : Z) (c : ascii) : bool :=
  (lo <=? code c) && (code c <=? hi).

(** ASCII white space, as skipped by [bytes.fromhex]. *)
Definition is_space (c : ascii) : bool :=
  between 9 13 c || (code c =? 32).

(** White space for [int(str, base)]: ASCII white space and the two
    further white-space code points below 256 (NEL and NBSP). *)
Definition is_int_space (c : ascii) : bool :=
  is_space c || (code c =? 133) || (code c =? 160).

(** Value of a hexadecimal digit. *)
Definition hexval (c : ascii) : option Z :=
  if between 48 57 c then Some (code c - 48)
  else if between 65 70 c then Some (code c - 55)
  else if between 97 102 c then Some (code c - 87)
  else None.

Definition is_hex (c : ascii) : bool :=
  match hexval c with Some _ => true | None => false end.

Fixpoint lstrip (s : list ascii) : list ascii :=
  match s with
  | [] => []
  | c :: s' => if is_int_space c then lstrip s' else s
  end.

Definition strip (s : list ascii) : list ascii :=
  rev (lstrip (rev (lstrip s))).

(** Hexadecimal digits with single underscores between them.  [us] tells
    that the previous position may not be followed by an underscore or
    by the end (start of the digits, or just after an underscore). *)
Fixpoint digits16 (acc : Z) (us : bool) (s : list ascii) : option Z :=
  match s with
  | [] => if us then None else Some acc
  | c :: s' =>
      if (code c =? 95) then
        if us then None else digits16 acc true s'
      else
        match hexval c with
        | Some d => digits16 (16 * acc + d) false s'
        | None => None
        end
  end.

(** [int(s, 16)]; [None] stands for the [ValueError] it raises. *)
Definition int16 (s : list ascii) : option Z :=
  let s1 := strip s in
  let '(sign, s2) :=
    match s1 with
    | c :: r => if code c =? 43 then (1, r)
                else if code c =? 45 then (-1, r)
                else (1, s1)
    | [] => (1, s1)
    end in
  let s3 :=
    match s2 with
    | z :: x :: r =>
        if (code z =? 48) && ((code x =? 120) || (code x =? 88)) then
          match r with
          | u :: r' => if code u =? 95 then r' else r
          | [] => r
          end
        else s2
    | _ => s2
    end in
  option_map (Z.mul sign) (digits16 0 true s3).

(** [bytes.fromhex(s)] and [bytearray.fromhex(s)]; [None] stands for the
    [ValueError] they raise. *)
Fixpoint fromhex (s : list ascii) : option (list Z) :=
  match s with
  | [] => Some []
  | c :: s' =>
      if is_space c then fromhex s'
      else
        match hexval c, s' with
        | Some hi, d :: s'' =>
            match hexval d with
            | Some lo => option_map (cons (16 * hi + lo)) (fromhex s'')
            | None => None
            end
        | _, _ => None
        end
  end.

(** Normalisation of a slice bound for a sequence of length [len]. *)
Definition clamp (len i : Z) : Z :=
  if i <? 0 then Z.max 0 (i + len) else Z.min i len.

Definition len {A} (l : list A) : Z := Z.of_nat (List.length l).

(** [l[lo:hi]] *)
Definition slice {A} (l : list A) (lo hi : Z) : list A :=
  let lo' := clamp (len l) lo in
  let hi' := clamp (len l) hi in
  firstn (Z.to_nat (hi' - lo')) (skipn (Z.to_nat lo') l).

(** [l[lo:]] *)
Definition slice_from {A} (l : list A) (lo : Z) : list A :=
  skipn (Z.to_nat (clamp (len l) lo)) l.

(** [l[i]] for a non-negative literal index [i]. *)
Definition index {A} (l : list A) (i : nat) : result A :=
  match nth_error l i with
  | Some a => Ok a
  | None => Raise IndexError
  end.

(** [s.split('\n')] *)
Fixpoint split_nl (s : list ascii) : list (list ascii) :=
  match s with
  | [] => [[]]
  | c :: s' =>
      if code c =? 10 then [] :: split_nl s'
      else
        match split_nl s' with
        | h :: t => (c :: h) :: t
        | [] => [[c]]
        end
  end.

Definition int16_or_raise (s : list ascii) : result Z :=
  match int16 s with
  | Some z => Ok z
  | None => Raise (ValueError (InvalidLiteral s))
  end.

Definition fromhex_or_raise (s : list ascii) : result (list Z) :=
  match fromhex s with
  | Some b => Ok b
  | None => Raise (ValueError (NonHexadecimal s))
  end.

End Py.

(** ** The CAN response decoder [can_response] *)

(** The local variables of [can_response] that live across loop
    iterations. *)
Record can_state : Type := mkCan {
  data : option (list Z);     (* None, bytes or bytearray *)
  data_len : Z;
  last_idx : Z
}.

Definition can_init : can_state :=
  {| data := None; data_len := 0; last_idx := 0 |}.

Inductive flow : Type := Next | Break.

Local Open Scope result_scope.

(** One iteration of the [for line in raw] loop. *)
Definition can_line (st : can_state) (line : list ascii)
  : result (flow * can_state) :=
  if negb (Py.len line =? 19) then
    Raise (ValueError (InvalidLineLength line (Py.len line)))
  else
    let offset := 3 in
    let? identifier := Py.int16_or_raise (Py.slice line 0 offset) in
    let? frame_type :=
      Py.int16_or_raise (Py.slice line offset (offset + 1)) in
    if frame_type =? 0 then
      let? dl := Py.int16_or_raise (Py.slice line (offset + 1) (offset + 2)) in
      let? d :=
        Py.fromhex_or_raise (Py.slice line (offset + 2) (dl * 2 + offset + 2)) in
      Ok (Break, {| data := Some d; data_len := dl; last_idx := last_idx st |})
    else if frame_type =? 1 then
      let? dl := Py.int16_or_raise (Py.slice line (offset + 1) (offset + 4)) in
      let? d := Py.fromhex_or_raise (Py.slice_from line (offset + 4)) in
      Ok (Next, {| data := Some d; data_len := dl; last_idx := 0 |})
    else if frame_type =? 2 then
      let? idx := Py.int16_or_raise (Py.slice line (offset + 1) (offset + 2)) in
      if negb ((last_idx st + 1) mod 16 =? idx) then
        Raise (CanError (last_idx st) idx)
      else
        match data st with
        | None => Raise TypeError       (* len(None) *)
        | Some d0 =>
            let frame_len := Z.min 7 (data_len st - Py.len d0) in
            let? chunk :=
              Py.fromhex_or_raise
                (Py.slice line (offset + 2) (frame_len * 2 + offset + 2)) in
            let d1 := d0 ++ chunk in
            let st' := {| data := Some d1; data_len := data_len st;
                          last_idx := idx |} in
            if data_len st =? Py.len d1 then Ok (Break, st')
            else Ok (Next, st')
        end
    else
      Raise (ValueError UnexpectedFrame).

(** The [for] loop: it ends at a [break], at an exception, or when the
    lines are used up. *)
Fixpoint can_lines (st : can_state) (raw : list (list ascii))
  : result (flow * can_state) :=
  match raw with
  | [] => Ok (Next, st)
  | line :: rest =>
      match can_line st line with
      | Raise e => Raise e
      | Ok (Break, st') => Ok (Break, st')
      | Ok (Next, st') => can_lines st' rest
      end
  end.

(** [can_response(can_message)], where [can_message] is the list of the
    raw texts of the messages ([can_message[i].raw()]). *)
Definition can_response (can_message : list (list ascii))
  : result (option (list Z)) :=
  match can_message with
  | [] => Raise IndexError
  | m :: _ =>
      let? r := can_lines can_init (Py.split_nl m) in
      Ok (data (snd r))
  end.

(** ** Responses, the observable world and the script's effects *)

(** The [value] of a response: [None], a [str] (decoder [raw_string]) or
    a byte sequence (decoder [can_response]). *)
Inductive pyvalue : Type :=
| VNone
| VStr (s : string)
| VBytes (b : list Z).

Record OBDResponse : Type := mkResponse { value : pyvalue }.

(** What one call of [connection.query(command)] does. *)
Inductive outcome : Type :=
| Raises                                (* any Exception *)
| Returns (r : option OBDResponse).

Inductive OBDStatus : Type :=
| NOT_CONNECTED | ELM_CONNECTED | OBD_CONNECTED | CAR_CONNECTED.

Definition status_eqb (a b : OBDStatus) : bool :=
  match a, b with
  | NOT_CONNECTED, NOT_CONNECTED | ELM_CONNECTED, ELM_CONNECTED
  | OBD_CONNECTED, OBD_CONNECTED | CAR_CONNECTED, CAR_CONNECTED => true
  | _, _ => false
  end.

(** A value stored in a telemetry record. *)
Inductive pyval : Type :=
| PInt (z : Z)
| PFloat (q : Q)
| PStr (s : string).

(** A Python [dict] with [str] keys, in insertion order. *)
Definition dict : Type := list (string * pyval).

Fixpoint dict_set (d : dict) (k : string) (v : pyval) : dict :=
  match d with
  | [] => [(k, v)]
  | (k', v') :: d' =>
      if String.eqb k' k then (k, v) :: d' else (k', v') :: dict_set d' k v
  end.

Fixpoint dict_get (d : dict) (k : string) : option pyval :=
  match d with
  | [] => None
  | (k', v') :: d' => if String.eqb k' k then Some v' else dict_get d' k
  end.

(** [d.update({...})] with the items of the literal in order. *)
Definition dict_update (d : dict) (items : list (string * pyval)) : dict :=
  fold_left (fun acc kv => dict_set acc (fst kv) (snd kv)) items d.

(** The payload of an MQTT message: a text, or [json.dumps] of a record
    (kept as the record). *)
Inductive mqtt_payload : Type :=
| PayloadText (s : string)
| PayloadJson (d : dict).

Record mqtt_msg : Type := mkMsg {
  topic : string;
  payload : mqtt_payload;
  qos : Z;
  retain : bool
}.

(** Messages of the warnings and errors the script logs.  Logging at the
    levels INFO and DEBUG has no influence on the control flow and is not
    recorded. *)
Inductive log_message : Type :=
| RetryingQuery (c : OBDCommand) (seconds : Z)
    (* "No valid response for {}. Retrying in {} second(s)..." *)
| RetryingConnect (s : OBDStatus) (seconds : Z)
    (* "{}. Retrying in {} second(s)..." *)
| ErrorQuerying (what : string) (e : exn)
    (* "**** Error querying {what}: {} ****" *)
| ErrorFound (prefix : string) (e : exn).
    (* "OBDII connection error: {0}", "Error found: {0}", ... *)

Inductive log_level : Type := WARNING | ERROR.

(** The world is the chronological list of what the script has done to
    its surroundings so far (newest last). *)
Inductive event : Type :=
| Opened (s : OBDStatus)                  (* obd.OBD(...) gave a connection *)
| Queried (c : OBDCommand) (o : outcome)  (* connection.query(c) *)
| Slept (seconds : Z)                     (* time.sleep(seconds) *)
| Logged (l : log_level) (m : log_message)
| Published (msgs : list mqtt_msg)        (* publish.multiple(msgs, ...) *)
| Closed.                                 (* connection.close() *)

Definition World : Type := list event.

(** State-and-exception monad of the script's functions. *)
Definition M (A : Type) : Type := World -> result A * World.

Definition ret {A} (a : A) : M A := fun w => (Ok a, w).

Definition raise {A} (e : exn) : M A := fun w => (Raise e, w).

Definition bind {A B} (m : M A) (k : A -> M B) : M B :=
  fun w =>
    match m w with
    | (Ok a, w') => k a w'
    | (Raise e, w') => (Raise e, w')
    end.

Definition lift {A} (r : result A) : M A := fun w => (r, w).

Declare Scope monad_scope.
Delimit Scope monad_scope with monad.
Notation "x <- m ;; k" := (bind m (fun x => k))
  (at level 61, m at next level, right associativity) : monad_scope.
Notation "m ;; k" := (bind m (fun _ => k))
  (at level 61, right associativity) : monad_scope.

Definition MAX_ATTEMPTS : Z := 3.

(** ** The commands defined by the script *)

Local Open Scope string_scope.

Definition cmd_can_header_7e4 : OBDCommand :=
  mkCommand "ATSH7E4" "Set CAN module ID to 7E4 - BMS battery information"
            "ATSH7E4" raw_string.
Definition cmd_can_header_7c6 : OBDCommand :=
  mkCommand "ATSH7C6" "Set CAN module ID to 7C6 - Odometer information"
            "ATSH7C6" raw_string.
Definition cmd_can_header_7e2 : OBDCommand :=
  mkCommand "ATSH7E2" "Set CAN module ID to 7E2 - VMCU information"
            "ATSH7E2" raw_string.
Definition cmd_can_header_7a0 : OBDCommand :=
  mkCommand "ATSH7A0" "Set CAN module ID to 7A0 - TPMS information"
            "ATSH7A0" raw_string.
Definition cmd_can_header_7e6 : OBDCommand :=
  mkCommand "ATSH7E6" "Set CAN module ID to 7E6 - External temp information"
            "ATSH7E6" raw_string.
Definition cmd_can_receive_address_7ec : OBDCommand :=
  mkCommand "ATCRA7EC" "Set the CAN receive address to 7EC" "ATCRA7EC"
            raw_string.
Definition cmd_can_receive_address_7ea : OBDCommand :=
  mkCommand "ATCRA7EA" "Set the CAN receive address to 7EA" "ATCRA7EA"
            raw_string.
Definition cmd_can_receive_address_7a8 : OBDCommand :=
  mkCommand "ATCRA7A8" "Set the CAN receive address to 7A8" "ATCRA7A8"
            raw_string.
Definition cmd_can_receive_address_7ee : OBDCommand :=
  mkCommand "ATCRA7EE" "Set the CAN receive address to 7EE" "ATCRA7EE"
            raw_string.
Definition cmd_can_filter_7ce : OBDCommand :=
  mkCommand "ATCF7CE" "Set the CAN filter to 7CE" "ATCF7CE" raw_string.
Definition cmd_bms_2101 : OBDCommand :=
  mkCommand "2101" "Extended command - BMS Battery information" "2101"
            can_response_decoder.
Definition cmd_bms_2102 : OBDCommand :=
  mkCommand "2102" "Extended command - BMS Battery information" "2102"
            can_response_decoder.
Definition cmd_bms_2103 : OBDCommand :=
  mkCommand "2103" "Extended command - BMS Battery information" "2103"
            can_response_decoder.
Definition cmd_bms_2104 : OBDCommand :=
  mkCommand "2104" "Extended command - BMS Battery information" "2104"
            can_response_decoder.
Definition cmd_bms_2105 : OBDCommand :=
  mkCommand "2105" "Extended command - BMS Battery information" "2105"
            can_response_decoder.
Definition cmd_odometer : OBDCommand :=
  mkCommand "ODOMETER" "Extended command - Odometer information" "22b002"
            can_response_decoder.
Definition cmd_vin : OBDCommand :=
  mkCommand "VIN" "Extended command - Vehicle Identification Number" "1A80"
            can_response_decoder.
Definition cmd_vmcu_2101 : OBDCommand :=
  mkCommand "2101" "Extended command - VMCU information" "2101"
            can_response_decoder.
Definition cmd_tpms_22c00b : OBDCommand :=
  mkCommand "22C00B" "Extended command - TPMS information" "22C00B"
            can_response_decoder.
Definition cmd_ext_temp : OBDCommand :=
  mkCommand "2180" "Extended command - External temperature" "2180"
            can_response_decoder.

Local Close Scope string_scope.

(** ** Pure helpers of the decoders *)

(** Modelled from the spec: [obd.utils.bytes_to_int] belongs to the OBD
    library, not to the script; it composes a big-endian byte sequence
    into one integer (section 4.3), summing [b * 2**p] from the last byte
    on with [p] growing by 8. *)
Fixpoint bytes_to_int_from (reversed : list Z) (p : Z) : Z :=
  match reversed with
  | [] => 0
  | b :: rest => b * 2 ^ p + bytes_to_int_from rest (p + 8)
  end.

Definition bytes_to_int (bs : list Z) : Z := bytes_to_int_from (rev bs) 0.

(** [a / b] with a float result. *)
Definition truediv (a b : Q) : Q := Qred (a / b).

(** Binary64 arithmetic (53 bits of precision, round to nearest even), as
    the Standard Library specifies it. *)
Module F64.

Definition prec : Z := 53.
Definition emax : Z := 1024.

(** [float(n)] *)
Definition of_Z (n : Z) : SpecFloat.spec_float :=
  SpecFloat.binary_normalize prec emax n 0 false.

Definition mul (x y : SpecFloat.spec_float) : SpecFloat.spec_float :=
  SpecFloat.SFmul prec emax x y.

Definition div (x y : SpecFloat.spec_float) : SpecFloat.spec_float :=
  SpecFloat.SFdiv prec emax x y.

(** The binary64 number nearest to [q]: the correctly rounded quotient of
    its numerator by its denominator (both are converted exactly, being
    far below 2^53 for the quantities of the script). *)
Definition of_Q (q : Q) : SpecFloat.spec_float :=
  div (of_Z (Qnum q)) (of_Z (Zpos (Qden q))).

(** The rational that a finite binary64 number is (the products of the
    script are finite). *)
Definition to_Q (x : SpecFloat.spec_float) : Q :=
  match x with
  | SpecFloat.S754_finite s m e =>
      let n := if s then Zneg m else Zpos m in
      match e with
      | Zneg p => Qred (n # (2 ^ p)%positive)
      | _ => inject_Z (n * 2 ^ e)
      end
  | _ => 0
  end.

End F64.

(** [a * b] on floats: the binary64 product of the binary64 numbers
    nearest to [a] and [b], so that [3 * 0.2] is 0.6000000000000001. *)
Definition fmul (a b : Q) : Q :=
  F64.to_Q (F64.mul (F64.of_Q a) (F64.of_Q b)).

Definition of_int (z : Z) : Q := inject_Z z.

(** [x & mask] used as a condition. *)
Definition bit_set (x mask : Z) : bool := negb (Z.land x mask =? 0).

(** [r.value] followed by a subscript: [r] must be a response
    (else AttributeError) whose value is subscriptable (None is not).
    The data commands are decoded by [can_response], so their value is a
    byte sequence or None; a [str] value is treated like None here. *)
Definition value_of (r : option OBDResponse) : result (list Z) :=
  match r with
  | None => Raise AttributeError
  | Some r' =>
      match value r' with
      | VBytes b => Ok b
      | VNone | VStr _ => Raise TypeError
      end
  end.

(** ["{:02d}".format(n)] *)
Definition format_02d (n : nat) : string :=
  let s := DecimalString.NilEmpty.string_of_uint (Nat.to_uint n) in
  if (String.length s <? 2)%nat then String "0"%char s else s.

(** [extract_vin]: the characters with codes [value[16]], ..., [value[32]];
    a missing byte gives an empty slice, hence code 0. *)
Definition extract_vin (raw_can_response : option OBDResponse)
  : result string :=
  let? v := value_of raw_can_response in
  Ok (string_of_list_ascii
        (map (fun i => ascii_of_nat
                         (Z.to_nat (bytes_to_int (Py.slice v i (i + 1)))))
             (map Z.of_nat (seq 16 17)))).

(** [extract_gear] *)
Definition extract_gear (raw_can_response : option OBDResponse)
  : result string :=
  let? v := value_of raw_can_response in
  let? gear_bits := Py.index v 7 in
  let gear_str := EmptyString in
  let gear_str := if bit_set gear_bits 1 then (gear_str ++ "P")%string
                  else gear_str in
  let gear_str := if bit_set gear_bits 2 then (gear_str ++ "R")%string
                  else gear_str in
  let gear_str := if bit_set gear_bits 4 then (gear_str ++ "N")%string
                  else gear_str in
  let gear_str := if bit_set gear_bits 8 then (gear_str ++ "D")%string
                  else gear_str in
  let gear_str := if bit_set gear_bits 16 then (gear_str ++ "B")%string
                  else gear_str in
  Ok gear_str.

(** The first exception of a list of evaluations made in order. *)
Fixpoint collect {A} (rs : list (result A)) : result (list A) :=
  match rs with
  | [] => Ok []
  | r :: rest =>
      let? a := r in
      let? l := collect rest in
      Ok (a :: l)
  end.

(** An item [k: e] of a dict literal: its key and the evaluation of [e]. *)
Definition item_int (k : string) (r : result Z) : string * result pyval :=
  (k, let? z := r in Ok (PInt z)).

Definition item_float (k : string) (r : result Q) : string * result pyval :=
  (k, let? q := r in Ok (PFloat q)).

(** Evaluation of a dict literal, item by item in order. *)
Fixpoint collect_items (l : list (string * result pyval))
  : result (list (string * pyval)) :=
  match l with
  | [] => Ok []
  | (k, r) :: rest =>
      let? v := r in
      let? l' := collect_items rest in
      Ok ((k, v) :: l')
  end.

Definition flag (x mask : Z) : Z := if bit_set x mask then 1 else 0.

(** [for i, x in enumerate(xs): d[prefix + "{:02d}".format(i+1)] = float(x)] *)
Fixpoint set_numbered (d : dict) (prefix : string) (i : nat) (xs : list Q)
  : dict :=
  match xs with
  | [] => d
  | x :: rest =>
      set_numbered (dict_set d (prefix ++ format_02d (i + 1))%string (PFloat x))
                   prefix (S i) rest
  end.

(** The dict literal of [battery_info.update({...})]. *)
Definition battery_items (timestamp : Z) (v1 v5 : list Z) (chargingBits : Z)
    (soh dcBatteryCurrent dcBatteryVoltage : Q) (cellTemps : list Z)
  : list (string * result pyval) :=
  let byte1 i := Py.index v1 i in
  let byte5 i := Py.index v5 i in
  let int1 lo hi := bytes_to_int (Py.slice v1 lo hi) in
  let int5 lo hi := bytes_to_int (Py.slice v5 lo hi) in
  [ item_int "timestamp" (Ok timestamp);
    item_float "socBms"
      (let? b := byte1 6%nat in Ok (truediv (of_int b) 2));
    item_int "socDisplay"
      (let? b := byte5 33%nat in Ok (Z.quot b 2));
    item_float "soh" (Ok soh);
    item_int "bmsIgnition"
      (let? b := byte1 52%nat in Ok (flag b 4));
    item_int "bmsMainRelay" (Ok (flag chargingBits 1));
    item_float "auxBatteryVoltage"
      (let? b := byte1 31%nat in Ok (truediv (of_int b) 10));
    item_int "charging" (Ok (flag chargingBits 128));
    item_int "normalChargePort" (Ok (flag chargingBits 32));
    item_int "rapidChargePort" (Ok (flag chargingBits 64));
    item_int "fanStatus" (byte1 29%nat);
    item_int "fanFeedback" (byte1 30%nat);
    item_float "cumulativeEnergyCharged"
      (Ok (truediv (of_int (int1 40 44)) 10));
    item_float "cumulativeEnergyDischarged"
      (Ok (truediv (of_int (int1 44 48)) 10));
    item_float "cumulativeChargeCurrent"
      (Ok (truediv (of_int (int1 32 36)) 10));
    item_float "cumulativeDischargeCurrent"
      (Ok (truediv (of_int (int1 36 40)) 10));
    item_int "cumulativeOperatingTime" (Ok (int1 48 52));
    item_float "availableChargePower"
      (Ok (truediv (of_int (int1 7 9)) 100));
    item_float "availableDischargePower"
      (Ok (truediv (of_int (int1 9 11)) 100));
    item_float "dcBatteryCellVoltageDeviation"
      (let? b := byte5 22%nat in Ok (truediv (of_int b) 50));
    item_float "dcBatteryHeater1Temperature"
      (let? b := byte5 25%nat in Ok (of_int b));
    item_float "dcBatteryHeater2Temperature"
      (let? b := byte5 26%nat in Ok (of_int b));
    item_int "dcBatteryInletTemperature" (Ok (int1 22 23));
    item_int "dcBatteryMaxTemperature" (Ok (int1 16 17));
    item_int "dcBatteryMinTemperature" (Ok (int1 17 18));
    item_int "dcBatteryCellNoMaxDeterioration" (byte5 29%nat);
    item_float "dcBatteryCellMinDeterioration"
      (Ok (truediv (of_int (int5 30 32)) 10));
    item_int "dcBatteryCellNoMinDeterioration" (byte5 32%nat);
    item_float "dcBatteryCurrent" (Ok dcBatteryCurrent);
    item_float "dcBatteryPower"
      (Ok (truediv (fmul dcBatteryCurrent dcBatteryVoltage) 1000));
    item_float "dcBatteryVoltage" (Ok dcBatteryVoltage);
    item_float "dcBatteryAvgTemperature"
      (Ok (truediv (of_int (fold_left Z.add cellTemps 0))
                   (of_int (Py.len cellTemps))));
    item_int "driveMotorSpeed" (Ok (int1 55 57))].

(** ** The battery decoder: the part of [query_battery_information] that
    follows the queries ([timestamp] is [int(round(time.time()))]). *)
Definition battery_information (timestamp : Z)
    (raw_2101 raw_2102 raw_2103 raw_2104 raw_2105 : option OBDResponse)
  : result dict :=
  let? v5 := value_of raw_2105 in
  let soh := truediv (of_int (bytes_to_int (Py.slice v5 27 29))) 10 in
  let battery_info : dict := [] in
  if Qle_bool soh 100 then
    let? v1 := value_of raw_2101 in
    let? chargingBits := Py.index v1 11 in
    let dcBatteryCurrent :=
      truediv (of_int (bytes_to_int (Py.slice v1 12 14))) 10 in
    let dcBatteryVoltage :=
      truediv (of_int (bytes_to_int (Py.slice v1 14 16))) 10 in
    let cellTemps :=
      [ bytes_to_int (Py.slice v1 18 19); bytes_to_int (Py.slice v1 19 20);
        bytes_to_int (Py.slice v1 20 21); bytes_to_int (Py.slice v1 21 22);
        bytes_to_int (Py.slice v1 22 23); bytes_to_int (Py.slice v5 11 12);
        bytes_to_int (Py.slice v5 12 13); bytes_to_int (Py.slice v5 13 14);
        bytes_to_int (Py.slice v5 14 15); bytes_to_int (Py.slice v5 15 16);
        bytes_to_int (Py.slice v5 16 17); bytes_to_int (Py.slice v5 17 18) ] in
    let? cellVoltages :=
      collect
        (flat_map
           (fun cmd =>
              map (fun byte =>
                     let? v := value_of cmd in
                     let? b := Py.index v byte in
                     Ok (truediv (of_int b) 50))
                  (seq 6 32))
           [raw_2102; raw_2103; raw_2104]) in
    let? items :=
      collect_items
        (battery_items timestamp v1 v5 chargingBits soh dcBatteryCurrent
                       dcBatteryVoltage cellTemps) in
    let battery_info := dict_update battery_info items in
    let battery_info :=
      set_numbered battery_info "dcBatteryModuleTemp" 0 (map of_int cellTemps) in
    let battery_info :=
      set_numbered battery_info "dcBatteryCellVoltage" 0 cellVoltages in
    Ok battery_info
  else
    Raise (ValueError (InconsistentSoh soh)).

(** ** The session: querying, the telemetry groups and the main script *)

Local Open Scope monad_scope.

Definition is_invalid (v : pyvalue) : bool :=
  match v with
  | VNone => true
  | VStr s => String.eqb s "?" || String.eqb s "NO DATA" || String.eqb s EmptyString
  | VBytes _ => false    (* a byte sequence never equals a str *)
  end.

(** The local variables of [query_command]. *)
Record query_state : Type := mkQuery {
  command_count : Z;
  cmd_response : option OBDResponse;
  exception : bool;
  valid_response : bool
}.

Definition query_init : query_state :=
  {| command_count := 0; cmd_response := None; exception := false;
     valid_response := false |}.

(** The local variables of [obd_connect]. *)
Record connect_state : Type := mkConnect {
  connection_count : Z;
  obd_connection : option OBDStatus   (* the status of the connection *)
}.

Definition car_connected (c : option OBDStatus) : bool :=
  match c with
  | Some s => status_eqb s CAR_CONNECTED
  | None => false
  end.

Definition caught_by_group (e : exn) : bool :=
  match e with
  | ValueError _ | CanError _ _ => true
  | _ => false
  end.

(** A telemetry group of the main script: the topic suffix of its record,
    the words of its warning and the function that produces the record. *)
Record group : Type := mkGroup {
  suffix : string;
  what : string;
  run : M dict
}.

(** [{'topic': topic_prefix + suffix, 'payload': json.dumps(d), 'qos': 0,
     'retain': True}] *)
Definition record_msg (topic_prefix suffix : string) (d : dict) : mqtt_msg :=
  {| topic := (topic_prefix ++ suffix)%string; payload := PayloadJson d;
     qos := 0; retain := true |}.

Definition state_msg (topic_prefix : string) : mqtt_msg :=
  {| topic := (topic_prefix ++ "state")%string; payload := PayloadText "ON";
     qos := 0; retain := true |}.

(** The [except] clause of the outer [try] that handles [e]. *)
Definition outer_handler (e : exn) : string :=
  match e with
  | ConnectionError => "OBDII connection error"
  | ValueError _ => "Error found"
  | CanError _ _ => "Error found reading CAN response"
  | _ => "Unexpected error"
  end.

Section Session.

(** The surroundings: what the adapter answers, given everything that
    happened before; the status of a freshly opened connection; the
    clock ([int(round(time.time()))]); the configured topic prefix. *)
Variable connection_query : World -> OBDCommand -> outcome.
Variable obd_open : World -> OBDStatus.
Variable clock : World -> Z.
Variable topic_prefix : string.

Definition now : M Z := fun w => (Ok (clock w), w).

(** *** [obd_connect] *)

Definition connect_attempt (st : connect_state) (w : World)
  : connect_state * World :=
  let count := connection_count st + 1 in
  let s := obd_open w in
  let w1 := w ++ [Opened s] in
  let w2 :=
    if negb (status_eqb s CAR_CONNECTED) && (count <? MAX_ATTEMPTS) then
      w1 ++ [Logged WARNING (RetryingConnect s count); Slept count]
    else w1 in
  ({| connection_count := count; obd_connection := Some s |}, w2).

Fixpoint connect_loop (fuel : nat) (st : connect_state) (w : World)
  : connect_state * World :=
  match fuel with
  | O => (st, w)
  | S fuel' =>
      if negb (car_connected (obd_connection st))
         && (connection_count st <? MAX_ATTEMPTS) then
        let '(st', w') := connect_attempt st w in
        connect_loop fuel' st' w'
      else (st, w)
  end.

Definition obd_connect : M unit := fun w =>
  let '(st, w') :=
    connect_loop (Z.to_nat MAX_ATTEMPTS)
                 {| connection_count := 0; obd_connection := None |} w in
  if car_connected (obd_connection st) then (Ok tt, w')
  else (Raise ConnectionError, w').

(** *** [query_command] *)

(** One iteration of the [while] loop. *)
Definition query_attempt (command : OBDCommand) (st : query_state)
    (w : World) : query_state * World :=
  let count := command_count st + 1 in
  let o := connection_query w command in
  let w1 := w ++ [Queried command o] in
  let '(resp, exc) :=
    match o with
    | Returns r => (r, exception st)
    | Raises => (cmd_response st, true)
    end in
  let valid :=
    negb (match resp with
          | None => true
          | Some r => is_invalid (value r)
          end || exc) in
  let w2 :=
    if negb valid && (count <? MAX_ATTEMPTS) then
      w1 ++ [Logged WARNING (RetryingQuery command count); Slept count]
    else w1 in
  ({| command_count := count; cmd_response := resp; exception := exc;
      valid_response := valid |}, w2).

(** The [while] loop; [fuel] bounds the number of iterations. *)
Fixpoint query_loop (fuel : nat) (command : OBDCommand) (st : query_state)
    (w : World) : query_state * World :=
  match fuel with
  | O => (st, w)
  | S fuel' =>
      if negb (valid_response st) && (command_count st <? MAX_ATTEMPTS) then
        let '(st', w') := query_attempt command st w in
        query_loop fuel' command st' w'
      else (st, w)
  end.

Definition query_command (command : OBDCommand) : M (option OBDResponse) :=
  fun w =>
    let '(st, w') :=
      query_loop (Z.to_nat MAX_ATTEMPTS) command query_init w in
    if negb (valid_response st) then
      (Raise (ValueError (NoValidResponse command MAX_ATTEMPTS)), w')
    else (Ok (cmd_response st), w').

(** *** The telemetry groups *)

Definition query_battery_information : M dict :=
  _ <- query_command cmd_can_header_7e4 ;;
  _ <- query_command cmd_can_receive_address_7ec ;;
  raw_2101 <- query_command cmd_bms_2101 ;;
  raw_2102 <- query_command cmd_bms_2102 ;;
  raw_2103 <- query_command cmd_bms_2103 ;;
  raw_2104 <- query_command cmd_bms_2104 ;;
  raw_2105 <- query_command cmd_bms_2105 ;;
  timestamp <- now ;;
  lift (battery_information timestamp raw_2101 raw_2102 raw_2103 raw_2104
                            raw_2105).

(** [r is not None and r.value is not None] *)
Definition has_value (r : option OBDResponse) : bool :=
  match r with
  | Some r' => match value r' with VNone => false | _ => true end
  | None => false
  end.

Definition query_odometer : M dict :=
  let odometer_info : dict := [] in
  _ <- query_command cmd_can_header_7c6 ;;
  _ <- query_command cmd_can_receive_address_7ec ;;
  _ <- query_command cmd_can_filter_7ce ;;
  raw_odometer <- query_command cmd_odometer ;;
  if has_value raw_odometer then
    timestamp <- now ;;
    lift (let? v := value_of raw_odometer in
          Ok (dict_update odometer_info
                [("timestamp"%string, PInt timestamp);
                 ("odometer"%string,
                  PInt (bytes_to_int (Py.slice v 9 12)))]))
  else raise (ValueError NoOdometer).

Definition query_vmcu_information : M dict :=
  timestamp <- now ;;
  let vmcu_info : dict := [("timestamp"%string, PInt timestamp)] in
  _ <- query_command cmd_can_header_7e2 ;;
  _ <- query_command cmd_can_receive_address_7ea ;;
  raw_vin <- query_command cmd_vin ;;
  raw_2101 <- query_command cmd_vmcu_2101 ;;
  lift (let? vin := extract_vin raw_vin in
        let? gear := extract_gear raw_2101 in
        let? v := value_of raw_2101 in
        let? b16 := Py.index v 16 in
        let? b15 := Py.index v 15 in
        let mph_speed := truediv (of_int (b16 * 256 + b15)) 100 in
        let kmh_speed := fmul mph_speed (160934 # 100000) in
        let vmcu_info := dict_set vmcu_info "vin" (PStr vin) in
        let vmcu_info := dict_set vmcu_info "gear" (PStr gear) in
        let vmcu_info := dict_set vmcu_info "kmh" (PFloat kmh_speed) in
        Ok vmcu_info).

Definition query_tpms_information : M dict :=
  let tpms_info : dict := [] in
  _ <- query_command cmd_can_receive_address_7a8 ;;
  _ <- query_command cmd_can_header_7a0 ;;
  raw_tpms <- query_command cmd_tpms_22c00b ;;
  if has_value raw_tpms then
    timestamp <- now ;;
    lift (let? v := value_of raw_tpms in
          let pressure (k : string) i :=
            item_float k (let? b := Py.index v i in
                          Ok (fmul (of_int b) (2 # 10))) in
          let temperature (k : string) i :=
            item_int k (let? b := Py.index v i in Ok (b - 55)) in
          let? items :=
            collect_items
              [ item_int "timestamp" (Ok timestamp);
                pressure "tire_1_pressure"%string 7%nat;
                temperature "tire_1_temperature"%string 8%nat;
                pressure "tire_2_pressure"%string 11%nat;
                temperature "tire_2_temperature"%string 12%nat;
                pressure "tire_3_pressure"%string 15%nat;
                temperature "tire_3_temperature"%string 16%nat;
                pressure "tire_4_pressure"%string 19%nat;
                temperature "tire_4_temperature"%string 20%nat ] in
          Ok (dict_update tpms_info items))
  else raise (ValueError NoTpms).

Definition query_external_temperature : M dict :=
  timestamp <- now ;;
  let ext_temp_info : dict := [("timestamp"%string, PInt timestamp)] in
  _ <- query_command cmd_can_header_7e6 ;;
  _ <- query_command cmd_can_receive_address_7ee ;;
  ext_temp <- query_command cmd_ext_temp ;;
  if has_value ext_temp then
    lift (let? v := value_of ext_temp in
          let? b := Py.index v 14 in
          Ok (dict_set ext_temp_info "external_temperature"
                       (PFloat (truediv (of_int (b - 80)) 2))))
  else raise (ValueError NoExternalTemperature).

(** *** The main script *)

(** One [try: mqtt_msgs.extend([...query()...]) except (ValueError,
    CanError)] block.  The result is the list [mqtt_msgs] afterwards and
    the exception that leaves the block, if any. *)
Definition try_group (g : group) (mqtt_msgs : list mqtt_msg) (w : World)
  : (list mqtt_msg * option exn) * World :=
  match run g w with
  | (Ok d, w') =>
      ((mqtt_msgs ++ [record_msg topic_prefix (suffix g) d], None), w')
  | (Raise e, w') =>
      if caught_by_group e then
        ((mqtt_msgs, None), w' ++ [Logged WARNING (ErrorQuerying (what g) e)])
      else ((mqtt_msgs, Some e), w')
  end.

(** Consecutive [try] blocks: an exception that leaves one of them skips
    the blocks that follow. *)
Fixpoint run_groups (gs : list group) (mqtt_msgs : list mqtt_msg)
    (w : World) : (list mqtt_msg * option exn) * World :=
  match gs with
  | [] => ((mqtt_msgs, None), w)
  | g :: rest =>
      match try_group g mqtt_msgs w with
      | ((msgs', None), w') => run_groups rest msgs' w'
      | ((msgs', Some e), w') => ((msgs', Some e), w')
      end
  end.

(** The five blocks of the script, in its order (the warning of the last
    one names "tpms information", as in the script). *)
Definition groups : list group :=
  [ mkGroup "battery" "battery information" query_battery_information;
    mkGroup "vmcu" "vmcu information" query_vmcu_information;
    mkGroup "odometer" "odometer" query_odometer;
    mkGroup "tpms" "tpms information" query_tpms_information;
    mkGroup "ext_temp" "tpms information" query_external_temperature ].

(** The body of the outer [try], its handlers and its [finally]: the
    result is the list handed to [publish_data_mqtt]. *)
Definition main (w : World) : list mqtt_msg * World :=
  let mqtt_msgs := [state_msg topic_prefix] in
  let '((mqtt_msgs, escaped, connected), w1) :=
    match obd_connect w with
    | (Raise e, w') => ((mqtt_msgs, Some e, false), w')
    | (Ok _, w') =>
        let '((msgs', escaped), w'') := run_groups groups mqtt_msgs w' in
        ((msgs', escaped, true), w'')
    end in
  let w2 :=
    match escaped with
    | Some e => w1 ++ [Logged ERROR (ErrorFound (outer_handler e) e)]
    | None => w1
    end in
  let w3 := w2 ++ [Published mqtt_msgs] in
  let w4 := if connected : bool then w3 ++ [Closed] else w3 in
  (mqtt_msgs, w4).

End Session.

(** ** Vocabulary of the specification

    The definitions below do not come from the script: they name what the
    specification talks about, so that the theorems can be stated in its
    words. *)

(** The value of a hexadecimal digit (0 for any other character). *)
Definition digit (c : ascii) : Z :=
  match Py.hexval c with Some v => v | None => 0 end.

(** The bytes written as consecutive pairs of hexadecimal digits. *)
Fixpoint hex_pairs (s : list ascii) : list Z :=
  match s with
  | a :: b :: r => (16 * digit a + digit b) :: hex_pairs r
  | _ => []
  end.

(** A RawFrameLine: exactly 19 hexadecimal characters. *)
Definition hex_line (line : list ascii) : Prop :=
  List.length line = 19%nat /\ Forall (fun c => Py.is_hex c = true) line.

(** The hexadecimal digit at position [i] of a line: position 3 is the
    frame type, position 4 the length of a single frame or the index of a
    consecutive frame. *)
Definition field (line : list ascii) (i : nat) : Z :=
  digit (nth i line "0"%char).

(** The first [n] data bytes of a single or consecutive frame (its data
    starts at position 5). *)
Definition frame_bytes (line : list ascii) (n : nat) : list Z :=
  hex_pairs (firstn (2 * n) (skipn 5 line)).

(** The accumulated payload is not longer than the declared length. *)
Definition bounded (st : can_state) : Prop :=
  forall d, data st = Some d -> Py.len d <= data_len st.

(** [line] is read by [can_response] as a first frame declaring [n]. *)
Definition declares (line : list ascii) (n : Z) : Prop :=
  Py.int16 (Py.slice line 3 4) = Some 1 /\
  Py.int16 (Py.slice line 4 7) = Some n.

(** A first frame declares at least the six bytes it carries. *)
Definition first_frame_ok (line : list ascii) : Prop :=
  forall n, declares line n -> 6 <= n.

(** The gear letters with the number of the bit that selects each. *)
Definition gear_positions : list (Z * ascii) :=
  [(0, "P"%char); (1, "R"%char); (2, "N"%char); (3, "D"%char); (4, "B"%char)].

Definition gear_of_byte (b : Z) : string :=
  string_of_list_ascii
    (map snd (filter (fun p => Z.testbit b (fst p)) gear_positions)).

(** No key occurs twice. *)
Fixpoint distinct (l : list string) : bool :=
  match l with
  | [] => true
  | k :: rest => negb (existsb (String.eqb k) rest) && distinct rest
  end.

(** The names of the commands sent so far. *)
Definition sent (w : World) : list string :=
  flat_map (fun e => match e with Queried c _ => [name c] | _ => [] end) w.

Definition queries_so_far (w : World) : nat :=
  List.length
    (filter (fun e => match e with Queried _ _ => true | _ => false end) w).

(** ** Concrete inputs *)

Definition text (s : string) : list ascii := list_ascii_of_string s.

(** The lines joined by newline characters. *)
Fixpoint unlines (ls : list string) : list ascii :=
  match ls with
  | [] => []
  | [l] => text l
  | l :: rest => text l ++ "010"%char :: unlines rest
  end.

(** The example of the comment above [can_response]. *)
Definition example_lines : list string :=
  [ "7EC103D6101FFFFFFFF"; "7EC21A9264826480300"; "7EC22050EFA1F1F1F1F";
    "7EC231F1F1F001DC714"; "7EC24C70A012A910001"; "7EC25547A000151B300";
    "7EC26007AD100007718"; "7EC27005928B40D017F"; "7EC280000000003E800" ]%string.

Definition example_payload : list Z :=
  [97; 1; 255; 255; 255; 255; 169; 38; 72; 38; 72; 3; 0; 5; 14;
   250; 31; 31; 31; 31; 31; 31; 31; 0; 29; 199; 20; 199; 10; 1; 42;
   145; 0; 1; 84; 122; 0; 1; 81; 179; 0; 0; 122; 209; 0; 0; 119;
   24; 0; 89; 40; 180; 13; 1; 127; 0; 0; 0; 0; 3; 232].

(** A first frame that declares 3 bytes and carries 6. *)
Definition short_first_frame : list ascii := text "7EC1003AABBCCDDEEFF".

(** A consecutive frame with index 1. *)
Definition following_frame : list ascii := text "7EC2111223344556677".

(** A single frame that declares 8 bytes; a line holds 7. *)
Definition long_single_frame : list ascii := text "7EC0811223344556677".

(** A message that ends after its first frame, which declares 61 bytes. *)
Definition lone_first_frame : list ascii := text "7EC103D6101FFFFFFFF".

(** The state of [can_response] after that first frame. *)
Definition after_first_frame : can_state :=
  {| data := Some [97; 1; 255; 255; 255; 255]; data_len := 61; last_idx := 0 |}.

Definition ok_response : OBDResponse := mkResponse (VStr "OK").

Definition no_data_response : OBDResponse := mkResponse (VStr "NO DATA").

(** An adapter whose successive answers are those of [script], followed
    by "OK" for ever. *)
Definition scripted (script : list outcome) (w : World) (c : OBDCommand)
  : outcome :=
  nth (queries_so_far w) script (Returns (Some ok_response)).

(** Raises at the first query, answers "OK" from then on. *)
Definition raises_once : World -> OBDCommand -> outcome :=
  scripted [Raises].

(** An adapter that acknowledges the AT commands and whose ECUs reject
    every data request with the three bytes 7F 21 12 of a negative
    response. *)
Definition rejecting_adapter (w : World) (c : OBDCommand) : outcome :=
  match decode c with
  | raw_string => Returns (Some ok_response)
  | can_response_decoder => Returns (Some (mkResponse (VBytes [127; 33; 18])))
  end.

(** A 64-byte payload of zeros, except for the value 1010 at the offsets
    27 and 28. *)
Definition soh_101_payload : list Z :=
  repeat 0 27 ++ [3; 242] ++ repeat 0 35.

(** An adapter that acknowledges the AT commands and answers every data
    request with 64 zero bytes, except that the 2105 answer of the BMS
    carries a state of health of 101 percent. *)
Definition soh_101_adapter (w : World) (c : OBDCommand) : outcome :=
  match decode c with
  | raw_string => Returns (Some ok_response)
  | can_response_decoder =>
      if String.eqb (command c) "2105"
      then Returns (Some (mkResponse (VBytes soh_101_payload)))
      else Returns (Some (mkResponse (VBytes (repeat 0 64))))
  end.

Definition still_clock (w : World) : Z := 0.

Definition always_connected (w : World) : OBDStatus := CAR_CONNECTED.

Definition car_prefix : string := "car/".

(** ** Proof automation *)

(** Case analysis on the evaluation bound by the first [let?] of [H]. *)
Ltac case_result H x E :=
  match type of H with
  | context [rbind ?r _] =>
      destruct r as [x | ] eqn:E; cbn [rbind] in H; [ | discriminate H]
  end.

(** ** Further functions of the script and vocabulary for their properties *)

(** [log_can_response]: [can_response] followed by a loop over
    [range(0, len(raw))] that only logs at the level DEBUG. *)
Definition log_can_response (can_message : list (list ascii))
  : result (option (list Z)) :=
  let? raw := can_response can_message in
  match raw with
  | None => Raise TypeError        (* len(None) *)
  | Some _ => Ok raw
  end.

(** Consecutive frames (RawFrameLines of frame type 2) whose indices
    follow [i]: i+1, i+2, ... modulo 16. *)
Fixpoint sequenced (i : Z) (frames : list (list ascii)) : Prop :=
  match frames with
  | [] => True
  | l :: ls =>
      hex_line l /\ field l 3 = 2 /\ field l 4 = (i + 1) mod 16 /\
      sequenced ((i + 1) mod 16) ls
  end.

(** The seven data bytes of each frame, one frame after the other. *)
Definition all_data (frames : list (list ascii)) : list Z :=
  flat_map (fun l => frame_bytes l 7) frames.

(** The seconds slept so far, in order. *)
Definition sleeps (w : World) : list Z :=
  flat_map (fun e => match e with Slept n => [n] | _ => [] end) w.

(** An answer that [query_command] rejects without any exception. *)
Definition invalid_return (o : outcome) : Prop :=
  o = Returns None \/
  exists r, o = Returns (Some r) /\ is_invalid (value r) = true.

(** An answer that [query_command] accepts. *)
Definition valid_return (o : outcome) (r : OBDResponse) : Prop :=
  o = Returns (Some r) /\ is_invalid (value r) = false.

(** The answer is a response whose value [query_command] accepts. *)
Definition accepted (o : outcome) : bool :=
  match o with
  | Returns (Some r) => negb (is_invalid (value r))
  | _ => false
  end.

(** [connection.query] raised. *)
Definition raised (o : outcome) : bool :=
  match o with
  | Raises => true
  | Returns _ => false
  end.

(** The world after an attempt that is followed by a retry. *)
Definition retried (w : World) (c : OBDCommand) (o : outcome) (n : Z)
  : World :=
  w ++ [Queried c o; Logged WARNING (RetryingQuery c n); Slept n].

(** The world after a connection attempt that is followed by a retry. *)
Definition reconnecting (w : World) (s : OBDStatus) (n : Z) : World :=
  w ++ [Opened s; Logged WARNING (RetryingConnect s n); Slept n].

(** An adapter that answers "NO DATA", then nothing, then "OK". *)
Definition slow_adapter : World -> OBDCommand -> outcome :=
  scripted [Returns (Some no_data_response); Returns None].

(** A port that is ready at the third attempt only. *)
Definition late_port (w : World) : OBDStatus :=
  match sleeps w with
  | [_; _] => CAR_CONNECTED
  | [_] => ELM_CONNECTED
  | _ => NOT_CONNECTED
  end.

(** The keys of a dict after [d[k] = v]. *)
Definition keys_add (ks : list string) (k : string) : list string :=
  if existsb (String.eqb k) ks then ks else ks ++ [k].

(** The keys after the numbered assignments [prefix01], [prefix02], ... *)
Fixpoint keys_numbered (ks : list string) (prefix : string) (i n : nat)
  : list string :=
  match n with
  | O => ks
  | S n' =>
      keys_numbered (keys_add ks (prefix ++ format_02d (i + 1))%string)
                    prefix (S i) n'
  end.

(** The fields of a battery record, in the order of the JSON object: the
    33 fields of the literal, the 12 module temperatures and the 96 cell
    voltages. *)
Definition battery_keys : list string :=
  keys_numbered
    (keys_numbered
       (fold_left keys_add
          (map fst (battery_items 0 [] [] 0 0 0 0 [])) [])
       "dcBatteryModuleTemp" 0 12)
    "dcBatteryCellVoltage" 0 96.

(** The payload sizes the battery decoder needs: 53 bytes of 2101, 38
    bytes of 2102, 2103 and 2104, 34 bytes of 2105. *)
Definition battery_sizes_ok (v1 v2 v3 v4 v5 : list Z) : Prop :=
  (53 <= List.length v1)%nat /\ (38 <= List.length v2)%nat /\
  (38 <= List.length v3)%nat /\ (38 <= List.length v4)%nat /\
  (34 <= List.length v5)%nat.

(** A response whose value is the byte sequence [v]. *)
Definition bytes_response (v : list Z) : option OBDResponse :=
  Some (mkResponse (VBytes v)).

(** A result that is a value or an IndexError. *)
Definition index_only {A} (r : result A) : Prop :=
  (exists a, r = Ok a) \/ r = Raise IndexError.

(** The record decoded from five payloads of 64 zero bytes. *)
Definition zero_record : dict :=
  match battery_information 0 (bytes_response (repeat 0 64))
          (bytes_response (repeat 0 64)) (bytes_response (repeat 0 64))
          (bytes_response (repeat 0 64)) (bytes_response (repeat 0 64)) with
  | Ok d => d
  | Raise _ => []
  end.

(** An adapter is typed when the responses it gives to the commands
    registered with the decoder [can_response] carry a byte sequence or
    None, as that decoder produces them. *)
Definition typed (q : World -> OBDCommand -> outcome) : Prop :=
  forall w c r,
    decode c = can_response_decoder ->
    q w c = Returns (Some r) ->
    value r = VNone \/ exists v, value r = VBytes v.

(** What a telemetry group does to the world: queries, sleeps and
    warnings. *)
Definition session_event (e : event) : Prop :=
  match e with
  | Queried _ _ | Slept _ | Logged WARNING _ => True
  | _ => False
  end.

(** A ValueError or an IndexError. *)
Definition decoding_error (e : exn) : Prop :=
  (exists what, e = ValueError what) \/ e = IndexError.

Definition value_error_only (e : exn) : Prop :=
  exists what, e = ValueError what.

(** [m] only adds session events to the world; what it returns satisfies
    [Q] and what it raises satisfies [E]. *)
Definition behaves {A} (m : M A) (Q : A -> Prop) (E : exn -> Prop) : Prop :=
  forall w,
    exists evs,
      snd (m w) = w ++ evs /\ Forall session_event evs /\
      match fst (m w) with
      | Ok a => Q a
      | Raise e => E e
      end.

(** A validated response that carries bytes. *)
Definition carries_bytes (r : option OBDResponse) : Prop :=
  exists v, r = bytes_response v.

(** [xs] is [ys] with some elements left out. *)
Inductive subsequence {A : Type} : list A -> list A -> Prop :=
| sub_nil : subsequence [] []
| sub_skip (y : A) (xs ys : list A) :
    subsequence xs ys -> subsequence xs (y :: ys)
| sub_keep (x : A) (xs ys : list A) :
    subsequence xs ys -> subsequence (x :: xs) (x :: ys).

(** Anything but publishing and closing the connection. *)
Definition quiet (e : event) : Prop :=
  match e with
  | Published _ | Closed => False
  | _ => True
  end.

(** What [obd_connect] does to the world. *)
Definition connect_event (e : event) : Prop :=
  match e with
  | Opened _ | Slept _ | Logged WARNING _ => True
  | _ => False
  end.

(** The topics of the five records, in the order of the script. *)
Definition group_topics (topic_prefix : string) : list string :=
  map (append topic_prefix)
      ["battery"; "vmcu"; "odometer"; "tpms"; "ext_temp"]%string.

(** A port that never gets ready. *)
Definition never_ready (w : World) : OBDStatus := NOT_CONNECTED.

(** An adapter that acknowledges the AT commands and answers every data
    request with 21 bytes of value 3. *)
Definition threes_adapter (w : World) (c : OBDCommand) : outcome :=
  match decode c with
  | raw_string => Returns (Some ok_response)
  | can_response_decoder => Returns (bytes_response (repeat 3 21))
  end.

(** * Properties *)
(** ** Parsing of hexadecimal text *)

Lemma int16_single (c : ascii) : Py.int16 [c] = Py.hexval c.
Proof.
  destruct c as [b0 b1 b2 b3 b4 b5 b6 b7].
  destruct b0, b1, b2, b3, b4, b5, b6, b7; vm_compute; reflexivity.
Qed.

Lemma hex_char_facts (c : ascii) :
  Py.is_hex c = true ->
  Py.is_int_space c = false /\ Py.is_space c = false /\
  (Py.code c =? 43) = false /\ (Py.code c =? 45) = false /\
  (Py.code c =? 95) = false /\ (Py.code c =? 120) = false /\
  (Py.code c =? 88) = false /\
  exists v, Py.hexval c = Some v /\ 0 <= v < 16.
Proof.
  destruct c as [b0 b1 b2 b3 b4 b5 b6 b7].
  destruct b0, b1, b2, b3, b4, b5, b6, b7; intros H;
    try (vm_compute in H; discriminate H);
    repeat (split; [vm_compute; reflexivity | ]);
    eexists; (split; [vm_compute; reflexivity | lia]).
Qed.

Lemma hexval_digit (c : ascii) :
  Py.is_hex c = true -> Py.hexval c = Some (digit c).
Proof.
  unfold Py.is_hex, digit. destruct (Py.hexval c); [reflexivity | discriminate].
Qed.

Lemma digit_range (c : ascii) : 0 <= digit c < 16.
Proof.
  unfold digit. destruct (Py.hexval c) eqn:E; [ | lia].
  assert (H : Py.is_hex c = true) by (unfold Py.is_hex; now rewrite E).
  destruct (hex_char_facts c H) as (_ & _ & _ & _ & _ & _ & _ & v & Hv & R).
  congruence.
Qed.

Lemma int16_hex3 (a b c : ascii) :
  Py.is_hex a = true -> Py.is_hex b = true -> Py.is_hex c = true ->
  Py.int16 [a; b; c] = Some (256 * digit a + 16 * digit b + digit c).
Proof.
  intros Ha Hb Hc.
  destruct (hex_char_facts a Ha) as (Sa & _ & Pa & Ma & Ua & _ & _ & _).
  destruct (hex_char_facts b Hb) as (_ & _ & _ & _ & Ub & Xb & XXb & _).
  destruct (hex_char_facts c Hc) as (Sc & _ & _ & _ & Uc & _ & _ & _).
  unfold Py.int16, Py.strip. simpl Py.lstrip. rewrite Sa. simpl rev.
  simpl Py.lstrip. rewrite Sc. simpl rev. simpl app.
  cbv beta iota. rewrite Pa, Ma. cbv beta iota.
  rewrite Xb, XXb, andb_false_r.
  cbn [Py.digits16]. rewrite Ua, Ub, Uc.
  rewrite (hexval_digit a Ha), (hexval_digit b Hb), (hexval_digit c Hc).
  cbn [option_map]. f_equal. lia.
Qed.

Lemma fromhex_hex_pairs (n : nat) : forall s,
  (List.length s <= n)%nat ->
  Forall (fun c => Py.is_hex c = true) s ->
  Nat.even (List.length s) = true ->
  Py.fromhex s = Some (hex_pairs s).
Proof.
  induction n as [ | n IH]; intros s Hn Hs He.
  - destruct s; [reflexivity | simpl in Hn; lia].
  - destruct s as [ | a [ | b r]]; [reflexivity | discriminate He | ].
    inversion Hs as [ | ? ? Ha Hs']; subst.
    inversion Hs' as [ | ? ? Hb Hr]; subst.
    destruct (hex_char_facts a Ha) as (_ & Sa & _).
    simpl. rewrite Sa, (hexval_digit a Ha), (hexval_digit b Hb).
    rewrite (IH r); [reflexivity | simpl in Hn; lia | assumption | exact He].
Qed.

Lemma fromhex_length (n : nat) : forall s b,
  (List.length s <= n)%nat ->
  Py.fromhex s = Some b -> (2 * List.length b <= List.length s)%nat.
Proof.
  induction n as [ | n IH]; intros s b Hn H.
  - destruct s; [ | simpl in Hn; lia]. simpl in H. injection H as <-. simpl. lia.
  - destruct s as [ | c s']; [simpl in H; injection H as <-; simpl; lia | ].
    simpl in H. simpl in Hn. destruct (Py.is_space c).
    + apply IH in H; [ | lia]. simpl. lia.
    + destruct (Py.hexval c); [ | discriminate].
      destruct s' as [ | d s'']; [discriminate | ].
      destruct (Py.hexval d); [ | discriminate].
      destruct (Py.fromhex s'') as [b' | ] eqn:E; [ | discriminate].
      simpl in H. injection H as <-. apply IH in E; [ | simpl in Hn; lia].
      simpl. lia.
Qed.

Lemma hex_pairs_length (n : nat) : forall s,
  (List.length s <= n)%nat ->
  List.length (hex_pairs s) = Nat.div2 (List.length s).
Proof.
  induction n as [ | n IH]; intros s Hn.
  - destruct s; [reflexivity | simpl in Hn; lia].
  - destruct s as [ | a [ | b r]]; [reflexivity | reflexivity | ].
    simpl in *. rewrite IH; [reflexivity | lia].
Qed.

(** ** One line of a CAN response *)

Lemma line19_inv (line : list ascii) :
  List.length line = 19%nat ->
  exists c0 c1 c2 c3 c4 c5 c6 c7 c8 c9 c10 c11 c12 c13 c14 c15 c16 c17 c18,
    line = [c0; c1; c2; c3; c4; c5; c6; c7; c8; c9; c10; c11; c12; c13; c14;
            c15; c16; c17; c18].
Proof.
  intros H.
  do 19 (destruct line as [ | ? line]; [discriminate H | ]).
  destruct line; [ | discriminate H].
  repeat eexists.
Qed.

Lemma slice_data (line : list ascii) (k : Z) :
  List.length line = 19%nat -> 0 <= k ->
  Py.slice line 5 (k * 2 + 5) =
  firstn (Z.to_nat (2 * Z.min k 7)) (skipn 5 line).
Proof.
  intros H Hk. unfold Py.slice, Py.clamp, Py.len. rewrite H.
  change (Z.of_nat 19) with 19. change (5 <? 0) with false. cbv iota.
  change (Z.to_nat (Z.min 5 19)) with 5%nat. change (Z.min 5 19) with 5.
  destruct (Z.ltb_spec (k * 2 + 5) 0) as [L | L]; [lia | ].
  destruct (Z.le_gt_cases k 7) as [K | K].
  - rewrite (Z.min_l (k * 2 + 5) 19) by lia. rewrite (Z.min_l k 7) by lia.
    f_equal. lia.
  - rewrite (Z.min_r (k * 2 + 5) 19) by lia. rewrite (Z.min_r k 7) by lia.
    reflexivity.
Qed.

Lemma Forall_firstn {A} (P : A -> Prop) (n : nat) (l : list A) :
  Forall P l -> Forall P (firstn n l).
Proof.
  intros H. revert n. induction H; intros [ | n]; simpl; constructor; auto.
Qed.

Lemma Forall_skipn {A} (P : A -> Prop) (n : nat) (l : list A) :
  Forall P l -> Forall P (skipn n l).
Proof.
  intros H. revert n. induction H; intros [ | n]; simpl; auto.
Qed.

Lemma fromhex_data (line : list ascii) (k : Z) :
  hex_line line -> 0 <= k ->
  Py.fromhex_or_raise (Py.slice line 5 (k * 2 + 5)) =
    Ok (frame_bytes line (Z.to_nat (Z.min k 7))) /\
  Py.len (frame_bytes line (Z.to_nat (Z.min k 7))) = Z.min k 7.
Proof.
  intros [L H] Hk. rewrite (slice_data line k L Hk).
  unfold frame_bytes, Py.fromhex_or_raise.
  replace (Z.to_nat (2 * Z.min k 7)) with (2 * Z.to_nat (Z.min k 7))%nat by lia.
  set (n := Z.to_nat (Z.min k 7)).
  assert (Hn : (n <= 7)%nat) by lia.
  assert (Len : List.length (firstn (2 * n) (skipn 5 line)) = (2 * n)%nat).
  { rewrite length_firstn, length_skipn, L. lia. }
  split.
  - rewrite (fromhex_hex_pairs (2 * n)); [reflexivity | lia | | ].
    + apply Forall_firstn, Forall_skipn, H.
    + rewrite Len. clear. induction n; [reflexivity | ].
      replace (2 * S n)%nat with (S (S (2 * n))) by lia. exact IHn.
  - unfold Py.len. rewrite (hex_pairs_length (2 * n)) by lia. rewrite Len.
    replace (Nat.div2 (2 * n)) with n; [lia | ].
    clear. induction n; [reflexivity | ].
    replace (2 * S n)%nat with (S (S (2 * n))) by lia. simpl. simpl in IHn. lia.
Qed.

Lemma can_line_hex (st : can_state) (line : list ascii) :
  hex_line line ->
  can_line st line =
    if field line 3 =? 0 then
      let? d := Py.fromhex_or_raise (Py.slice line 5 (field line 4 * 2 + 5)) in
      Ok (Break, {| data := Some d; data_len := field line 4;
                    last_idx := last_idx st |})
    else if field line 3 =? 1 then
      Ok (Next, {| data := Some (hex_pairs (skipn 7 line));
                   data_len := 256 * field line 4 + 16 * field line 5
                               + field line 6;
                   last_idx := 0 |})
    else if field line 3 =? 2 then
      if negb ((last_idx st + 1) mod 16 =? field line 4) then
        Raise (CanError (last_idx st) (field line 4))
      else
        match data st with
        | None => Raise TypeError
        | Some d0 =>
            let frame_len := Z.min 7 (data_len st - Py.len d0) in
            let? chunk :=
              Py.fromhex_or_raise (Py.slice line 5 (frame_len * 2 + 5)) in
            let st' := {| data := Some (d0 ++ chunk); data_len := data_len st;
                          last_idx := field line 4 |} in
            if data_len st =? Py.len (d0 ++ chunk) then Ok (Break, st')
            else Ok (Next, st')
        end
    else Raise (ValueError UnexpectedFrame).
Proof.
  intros [L H].
  destruct (line19_inv line L) as
    (c0 & c1 & c2 & c3 & c4 & c5 & c6 & c7 & c8 & c9 & c10 & c11 & c12 & c13
        & c14 & c15 & c16 & c17 & c18 & ->).
  repeat match goal with
         | F : Forall _ (_ :: _) |- _ =>
             let h := fresh "X" in
             let t := fresh "T" in
             apply Forall_cons_iff in F; destruct F as [h t]
         end.
  unfold can_line, field. cbn [nth].
  set (line := [c0; c1; c2; c3; c4; c5; c6; c7; c8; c9; c10; c11; c12; c13;
                c14; c15; c16; c17; c18]).
  change (Py.len line =? 19) with true. cbn [negb]. cbv zeta.
  change (Py.slice line 0 3) with [c0; c1; c2].
  change (Py.slice line 3 (3 + 1)) with [c3].
  change (Py.slice line (3 + 1) (3 + 2)) with [c4].
  change (Py.slice line (3 + 1) (3 + 4)) with [c4; c5; c6].
  change (Py.slice_from line (3 + 4)) with (skipn 7 line).
  change (3 + 2) with 5.
  unfold Py.int16_or_raise.
  rewrite (int16_hex3 c0 c1 c2), (int16_hex3 c4 c5 c6) by assumption.
  rewrite !int16_single.
  rewrite (hexval_digit c3), (hexval_digit c4) by assumption.
  cbn [rbind].
  replace (Py.fromhex_or_raise (skipn 7 line))
    with (@Ok (list Z) (hex_pairs (skipn 7 line))).
  2:{ unfold Py.fromhex_or_raise.
      rewrite (fromhex_hex_pairs 12); [reflexivity | simpl; lia | | reflexivity].
      unfold line. cbn [skipn]. repeat constructor; assumption. }
  cbn [rbind].
  destruct (digit c3 =? 0); [ | destruct (digit c3 =? 1)].
  - replace (digit c4 * 2 + 3 + 2) with (digit c4 * 2 + 5) by lia. reflexivity.
  - reflexivity.
  - destruct (digit c3 =? 2); [ | reflexivity].
    destruct (negb _); [reflexivity | ].
    destruct (data st); [ | reflexivity].
    cbv zeta.
    replace (Z.min 7 (data_len st - Py.len l) * 2 + 3 + 2)
      with (Z.min 7 (data_len st - Py.len l) * 2 + 5) by lia.
    reflexivity.
Qed.

Lemma int16_or_raise_ok (s : list ascii) (z : Z) :
  Py.int16_or_raise s = Ok z -> Py.int16 s = Some z.
Proof.
  unfold Py.int16_or_raise. destruct (Py.int16 s); congruence.
Qed.

Lemma fromhex_or_raise_length (s : list ascii) (b : list Z) :
  Py.fromhex_or_raise s = Ok b -> 2 * Py.len b <= Py.len s.
Proof.
  unfold Py.fromhex_or_raise. destruct (Py.fromhex s) eqn:E; [ | discriminate].
  intros [= <-]. apply (fromhex_length (List.length s)) in E; [ | lia].
  unfold Py.len. lia.
Qed.

Lemma slice_data_length (line : list ascii) (k : Z) :
  List.length line = 19%nat -> 0 <= k ->
  Py.len (Py.slice line 5 (k * 2 + 5)) <= 2 * k.
Proof.
  intros L Hk. rewrite (slice_data line k L Hk). unfold Py.len.
  rewrite length_firstn. lia.
Qed.

Lemma can_line_bounded (st st' : can_state) (line : list ascii) (fl : flow) :
  can_line st line = Ok (fl, st') ->
  first_frame_ok line -> bounded st -> bounded st'.
Proof.
  unfold can_line. intros H OK B.
  destruct (Z.eqb_spec (Py.len line) 19) as [L | L]; [ | discriminate H].
  cbn [negb] in H. cbv zeta in H.
  assert (L' : List.length line = 19%nat) by (unfold Py.len in L; lia).
  case_result H ident Ei. case_result H ft Et.
  change (3 + 1) with 4 in *. change (3 + 2) with 5 in *.
  change (3 + 4) with 7 in *.
  destruct (Z.eqb_spec ft 0) as [-> | T0].
  { case_result H dl El. case_result H b Eb. injection H as <- <-.
    intros d [= <-]. cbn [data_len].
    apply int16_or_raise_ok in El.
    destruct (line19_inv line L') as
      (c0 & c1 & c2 & c3 & c4 & c5 & c6 & c7 & c8 & c9 & c10 & c11 & c12 & c13
          & c14 & c15 & c16 & c17 & c18 & ->).
    change (Py.slice _ 4 5) with [c4] in El. rewrite int16_single in El.
    assert (R : 0 <= dl < 16).
    { pose proof (digit_range c4) as R. unfold digit in R. rewrite El in R.
      exact R. }
    replace (dl * 2 + 3 + 2) with (dl * 2 + 5) in Eb by lia.
    apply fromhex_or_raise_length in Eb.
    pose proof (slice_data_length _ dl L' (proj1 R)). lia. }
  destruct (Z.eqb_spec ft 1) as [-> | T1].
  { case_result H dl El. case_result H b Eb. injection H as <- <-.
    intros d [= <-]. cbn [data_len].
    apply int16_or_raise_ok in Et, El.
    assert (6 <= dl) by (apply OK; split; assumption).
    apply fromhex_or_raise_length in Eb.
    assert (Py.len (Py.slice_from line 7) = 12).
    { unfold Py.slice_from, Py.clamp, Py.len. rewrite length_skipn, L'.
      reflexivity. }
    lia. }
  destruct (Z.eqb_spec ft 2) as [-> | T2]; [ | discriminate H].
  case_result H idx Ex.
  destruct (negb _); [discriminate H | ].
  destruct (data st) as [d0 | ] eqn:D; [ | discriminate H].
  cbv zeta in H. case_result H chunk Ec.
  pose proof (B d0 D) as B0.
  replace (Z.min 7 (data_len st - Py.len d0) * 2 + 3 + 2)
    with (Z.min 7 (data_len st - Py.len d0) * 2 + 5) in Ec by lia.
  apply fromhex_or_raise_length in Ec.
  assert (K : 0 <= Z.min 7 (data_len st - Py.len d0)) by lia.
  pose proof (slice_data_length line _ L' K) as S.
  assert (Py.len (d0 ++ chunk) <= data_len st).
  { unfold Py.len in *. rewrite length_app. lia. }
  destruct (data_len st =? Py.len (d0 ++ chunk)); injection H as <- <-;
    intros d [= <-]; assumption.
Qed.

(** ** The frame reassembler *)

Lemma can_lines_bounded (lines : list (list ascii)) :
  forall st fl st',
  Forall first_frame_ok lines -> bounded st ->
  can_lines st lines = Ok (fl, st') -> bounded st'.
Proof.
  induction lines as [ | line rest IH]; intros st fl st' F B H.
  - injection H as _ <-. exact B.
  - inversion F as [ | ? ? F1 F2]; subst. cbn [can_lines] in H.
    destruct (can_line st line) as [[[ | ] st1] | ] eqn:E;
      [ | | discriminate H].
    + apply (IH st1 fl st' F2); [ | exact H].
      exact (can_line_bounded st st1 line Next E F1 B).
    + injection H as _ <-.
      exact (can_line_bounded st st1 line Break E F1 B).
Qed.

(** C9, as amended.  When every first frame of a message declares at least
    the six bytes it carries, the accumulated payload is never longer than
    the declared [data_len]: this holds in the state reached after any
    number of lines, whether the loop went on, stopped at a [break] or
    used up the lines. *)
Theorem accumulated_length_bounded (lines : list (list ascii))
    (fl : flow) (st : can_state) (d : list Z) :
  Forall first_frame_ok lines ->
  can_lines can_init lines = Ok (fl, st) ->
  data st = Some d ->
  Py.len d <= data_len st.
Proof.
  intros F H D.
  apply (can_lines_bounded lines can_init fl st F); [ | exact H | exact D].
  intros d0 [=].
Qed.

Lemma accumulated_length_bounded_witness :
  Forall first_frame_ok (map text example_lines) /\
  can_lines can_init (map text example_lines) =
    Ok (Break, {| data := Some example_payload; data_len := 61; last_idx := 8 |}) /\
  Py.len example_payload <= 61.
Proof.
  assert (F : Forall first_frame_ok (map text example_lines)).
  { repeat constructor; intros n [T D]; vm_compute in T, D;
      first [discriminate T | injection D as <-; lia]. }
  assert (R : can_lines can_init (map text example_lines) =
    Ok (Break, {| data := Some example_payload; data_len := 61; last_idx := 8 |})).
  { vm_compute. reflexivity. }
  split; [exact F | split; [exact R | ]].
  exact (accumulated_length_bounded (map text example_lines) Break _ example_payload F R eq_refl).
Defined.

Lemma accumulated_length_exceeds_counterexample :
  hex_line short_first_frame /\
  declares short_first_frame 3 /\
  can_lines can_init [short_first_frame] =
    Ok (Next, {| data := Some [170; 187; 204; 221; 238; 255];
                 data_len := 3; last_idx := 0 |}) /\
  ~ (Py.len [170; 187; 204; 221; 238; 255] <= 3).
Proof.
  split; [ | split; [ | split]].
  - split; [reflexivity | ]. repeat constructor.
  - split; vm_compute; reflexivity.
  - vm_compute. reflexivity.
  - vm_compute. intros H. apply H. reflexivity.
Qed.

(** C6.  The nine lines of the example reassemble, without any error, to
    a payload of exactly 61 bytes. *)
Theorem example_reassembles_to_61_bytes :
  exists payload,
    can_response [unlines example_lines] = Ok (Some payload) /\
    List.length payload = 61%nat.
Proof.
  exists example_payload. split; vm_compute; reflexivity.
Qed.

(** C7.  When the first line of a message is a RawFrameLine of frame
    type 0 whose declared [data_len] fits in the line (at most the 7
    bytes a frame holds), [can_response] returns at once, whatever the
    other lines are, exactly [data_len] bytes: those written by the
    2 * [data_len] characters that follow the length digit.  (A digit
    above 7 cannot be honoured by a line of 19 characters: the payload
    is then the 7 bytes of the line.) *)
Theorem single_frame_payload (m : list ascii) (ms : list (list ascii))
    (line : list ascii) (rest : list (list ascii)) :
  Py.split_nl m = line :: rest ->
  hex_line line ->
  field line 3 = 0 ->
  let declared := field line 4 in
  let payload := frame_bytes line (Z.to_nat (Z.min declared 7)) in
  can_response (m :: ms) = Ok (Some payload) /\
  Py.len payload = Z.min declared 7 /\
  (declared <= 7 -> Py.len payload = declared) /\
  (declared <= 7 ->
   can_response (m :: ms) =
     Ok (Some (hex_pairs (firstn (2 * Z.to_nat declared) (skipn 5 line)))) /\
   Py.len (hex_pairs (firstn (2 * Z.to_nat declared) (skipn 5 line))) =
     declared).
Proof.
  intros S HL T declared payload.
  pose proof (digit_range (nth 4 line "0"%char)) as R.
  fold (field line 4) in R. fold declared in R.
  destruct (fromhex_data line declared HL (proj1 R)) as [F Len].
  fold payload in F, Len.
  assert (C : can_response (m :: ms) = Ok (Some payload)).
  { unfold can_response. rewrite S. cbn [can_lines].
    rewrite (can_line_hex can_init line HL), T. cbn [Z.eqb].
    fold declared. rewrite F. reflexivity. }
  split; [exact C | split; [exact Len | split; [lia | ]]].
  intros V. unfold payload, frame_bytes in C, Len.
  rewrite Z.min_l in C, Len by exact V.
  split; [exact C | exact Len].
Qed.

Lemma single_frame_payload_witness :
  Py.split_nl (unlines ["7EC037F2112AAAAAAAA"; "garbage"]%string) =
    [text "7EC037F2112AAAAAAAA"; text "garbage"] /\
  hex_line (text "7EC037F2112AAAAAAAA") /\
  field (text "7EC037F2112AAAAAAAA") 3 = 0 /\
  can_response [unlines ["7EC037F2112AAAAAAAA"; "garbage"]%string] =
    Ok (Some [127; 33; 18]).
Proof.
  assert (S : Py.split_nl (unlines ["7EC037F2112AAAAAAAA"; "garbage"]%string) =
              [text "7EC037F2112AAAAAAAA"; text "garbage"]) by reflexivity.
  assert (H : hex_line (text "7EC037F2112AAAAAAAA"))
    by (split; [reflexivity | repeat constructor]).
  assert (T : field (text "7EC037F2112AAAAAAAA") 3 = 0) by reflexivity.
  split; [exact S | split; [exact H | split; [exact T | ]]].
  exact (proj1 (single_frame_payload _ [] _ _ S H T)).
Defined.

(** A single frame that declares 8 bytes: the line holds 7. *)
Example overlong_single_frame_is_clipped :
  hex_line long_single_frame /\
  field long_single_frame 3 = 0 /\
  field long_single_frame 4 = 8 /\
  can_response [long_single_frame] = Ok (Some [17; 34; 51; 68; 85; 102; 119]).
Proof.
  split; [split; [reflexivity | repeat constructor] | ].
  repeat split; vm_compute; reflexivity.
Qed.

(** C1, as amended.  In a state whose accumulated payload [d] is not
    longer than the declared [data_len], a RawFrameLine of frame type 2
    with index [idx]: raises CanError(last_idx, idx) when [idx] differs
    from (last_idx + 1) mod 16; otherwise appends exactly
    k = min(7, data_len - len(d)) bytes, those written by the first 2k
    data characters of the line, sets [last_idx] to [idx], and ends the
    reassembly at once when the length reaches [data_len] (the bytes of the
    line beyond [data_len] and the lines after it are dropped), else goes
    on with the next line. *)
Theorem consecutive_frame_step (st : can_state) (d : list Z)
    (line : list ascii) (rest : list (list ascii)) :
  data st = Some d ->
  Py.len d <= data_len st ->
  hex_line line ->
  field line 3 = 2 ->
  let idx := field line 4 in
  let k := Z.min 7 (data_len st - Py.len d) in
  let chunk := frame_bytes line (Z.to_nat k) in
  let st' := {| data := Some (d ++ chunk); data_len := data_len st;
                last_idx := idx |} in
  (idx <> (last_idx st + 1) mod 16 ->
   can_lines st (line :: rest) = Raise (CanError (last_idx st) idx)) /\
  (idx = (last_idx st + 1) mod 16 ->
   Py.len chunk = k /\
   Py.len (d ++ chunk) = Py.len d + k /\
   (Py.len d + k = data_len st ->
    can_lines st (line :: rest) = Ok (Break, st')) /\
   (Py.len d + k <> data_len st ->
    can_lines st (line :: rest) = can_lines st' rest)).
Proof.
  intros D B HL T idx k chunk st'.
  assert (K : 0 <= k) by (unfold k; lia).
  destruct (fromhex_data line k HL K) as [F Len].
  replace (Z.min k 7) with k in F, Len by (unfold k; lia).
  fold chunk in F, Len.
  assert (App : Py.len (d ++ chunk) = Py.len d + k).
  { unfold Py.len in *. rewrite length_app. lia. }
  cbn [can_lines]. rewrite (can_line_hex st line HL), T.
  cbn [Z.eqb Pos.eqb]. fold idx. split.
  - intros N. destruct (Z.eqb_spec ((last_idx st + 1) mod 16) idx) as [E | E];
      [congruence | reflexivity].
  - intros E. rewrite <- E, Z.eqb_refl. cbn [negb]. rewrite D. cbv zeta.
    fold k. rewrite F. cbn [rbind]. rewrite App.
    split; [exact Len | split; [reflexivity | split]]; intros C.
    + destruct (Z.eqb_spec (data_len st) (Py.len d + k)); [reflexivity | lia].
    + destruct (Z.eqb_spec (data_len st) (Py.len d + k)); [lia | reflexivity].
Qed.

Lemma consecutive_frame_step_witness :
  data after_first_frame = Some [97; 1; 255; 255; 255; 255] /\
  Py.len [97; 1; 255; 255; 255; 255] <= data_len after_first_frame /\
  hex_line (text "7EC21A9264826480300") /\
  field (text "7EC21A9264826480300") 3 = 2 /\
  can_lines after_first_frame [text "7EC21A9264826480300"] =
    Ok (Next, {| data := Some [97; 1; 255; 255; 255; 255;
                               169; 38; 72; 38; 72; 3; 0];
                 data_len := 61; last_idx := 1 |}).
Proof.
  assert (D : data after_first_frame = Some [97; 1; 255; 255; 255; 255])
    by reflexivity.
  assert (B : Py.len [97; 1; 255; 255; 255; 255] <= data_len after_first_frame)
    by (vm_compute; discriminate).
  assert (H : hex_line (text "7EC21A9264826480300"))
    by (split; [reflexivity | repeat constructor]).
  assert (T : field (text "7EC21A9264826480300") 3 = 2) by reflexivity.
  split; [exact D | split; [exact B | split; [exact H | split; [exact T | ]]]].
  destruct (consecutive_frame_step after_first_frame _ _ [] D B H T)
    as [_ Seq].
  destruct (Seq eq_refl) as (_ & _ & _ & Go).
  exact (Go ltac:(vm_compute; discriminate)).
Defined.

Lemma consecutive_frame_counterexample :
  hex_line short_first_frame /\ hex_line following_frame /\
  can_lines can_init [short_first_frame] =
    Ok (Next, {| data := Some [170; 187; 204; 221; 238; 255];
                 data_len := 3; last_idx := 0 |}) /\
  field following_frame 3 = 2 /\
  field following_frame 4 = (0 + 1) mod 16 /\
  can_line {| data := Some [170; 187; 204; 221; 238; 255];
              data_len := 3; last_idx := 0 |} following_frame =
    Raise (ValueError (NonHexadecimal (text "1122334455667"))) /\
  can_response [unlines ["7EC1003AABBCCDDEEFF"; "7EC2111223344556677"]%string] =
    Raise (ValueError (NonHexadecimal (text "1122334455667"))).
Proof.
  split; [split; [reflexivity | repeat constructor] | ].
  split; [split; [reflexivity | repeat constructor] | ].
  repeat split; vm_compute; reflexivity.
Qed.

Lemma can_line_next_data (st st' : can_state) (line : list ascii) :
  can_line st line = Ok (Next, st') -> data st' <> None.
Proof.
  unfold can_line. intros H.
  destruct (negb _); [discriminate H | ]. cbv zeta in H.
  case_result H ident Ei. case_result H ft Et.
  destruct (ft =? 0).
  { case_result H dl El. case_result H b Eb. discriminate H. }
  destruct (ft =? 1).
  { case_result H dl El. case_result H b Eb. injection H as <-. discriminate. }
  destruct (ft =? 2); [ | discriminate H].
  case_result H idx Ex.
  destruct (negb _); [discriminate H | ].
  destruct (data st) as [d0 | ]; [ | discriminate H].
  cbv zeta in H. case_result H chunk Ec.
  destruct (_ =? _); [discriminate H | ]. injection H as <-. discriminate.
Qed.

Lemma can_lines_next_data (lines : list (list ascii)) :
  forall st st',
  can_lines st lines = Ok (Next, st') ->
  lines <> [] \/ data st <> None ->
  data st' <> None.
Proof.
  induction lines as [ | line rest IH]; intros st st' H N.
  - injection H as <-. destruct N as [N | N]; [congruence | exact N].
  - cbn [can_lines] in H.
    destruct (can_line st line) as [[[ | ] st1] | ] eqn:E;
      [ | discriminate H | discriminate H].
    apply (IH st1 st' H). right. exact (can_line_next_data st st1 line E).
Qed.

Lemma split_nl_nonempty (s : list ascii) : Py.split_nl s <> [].
Proof.
  destruct s as [ | c s]; [discriminate | ]. cbn [Py.split_nl].
  destruct (Py.code c =? 10); [discriminate | ].
  destruct (Py.split_nl s); discriminate.
Qed.

(** C2, as amended.  When the lines of a message are used up without any
    frame completing the reassembly, [can_response] raises nothing: it
    returns the payload accumulated so far, which is a byte sequence. *)
Theorem exhausted_lines_return_payload (m : list ascii)
    (ms : list (list ascii)) (st : can_state) :
  can_lines can_init (Py.split_nl m) = Ok (Next, st) ->
  exists d, data st = Some d /\ can_response (m :: ms) = Ok (Some d).
Proof.
  intros H.
  pose proof (can_lines_next_data _ _ _ H (or_introl (split_nl_nonempty m)))
    as N.
  destruct (data st) as [d | ] eqn:D; [ | congruence].
  exists d. split; [reflexivity | ].
  unfold can_response. rewrite H. cbn [rbind snd]. rewrite D. reflexivity.
Qed.

Lemma exhausted_lines_return_payload_witness :
  can_lines can_init (Py.split_nl lone_first_frame) =
    Ok (Next, after_first_frame) /\
  exists d, data after_first_frame = Some d /\
            can_response [lone_first_frame] = Ok (Some d).
Proof.
  assert (H : can_lines can_init (Py.split_nl lone_first_frame) =
              Ok (Next, after_first_frame)) by (vm_compute; reflexivity).
  split; [exact H | ].
  exact (exhausted_lines_return_payload lone_first_frame [] after_first_frame H).
Defined.

Lemma incomplete_message_counterexample :
  can_lines can_init (Py.split_nl lone_first_frame) =
    Ok (Next, after_first_frame) /\
  data_len after_first_frame = 61 /\
  can_response [lone_first_frame] = Ok (Some [97; 1; 255; 255; 255; 255]) /\
  Py.len [97; 1; 255; 255; 255; 255] < 61.
Proof.
  repeat split; vm_compute; reflexivity.
Qed.

(** ** The gear decoder *)

Lemma bit_set_pow2 (b n : Z) :
  0 <= n -> bit_set b (2 ^ n) = Z.testbit b n.
Proof.
  intros Hn. unfold bit_set.
  destruct (Z.testbit b n) eqn:T.
  - destruct (Z.eqb_spec (Z.land b (2 ^ n)) 0) as [E | E]; [ | reflexivity].
    assert (F : Z.testbit (Z.land b (2 ^ n)) n = true)
      by (rewrite Z.land_spec, T, Z.pow2_bits_true by exact Hn; reflexivity).
    rewrite E, Z.bits_0 in F. discriminate F.
  - replace (Z.land b (2 ^ n)) with 0; [reflexivity | ].
    symmetry. apply Z.bits_inj'. intros m Hm.
    rewrite Z.land_spec, Z.bits_0, Z.pow2_bits_eqb by exact Hn.
    destruct (Z.eqb_spec n m) as [-> | N];
      [rewrite T; reflexivity | apply andb_false_r].
Qed.

(** C8.  For every byte [b] at offset 7 of the response, [extract_gear]
    returns the letters P, R, N, D, B, in this order, whose bits 0 to 4
    (masks 0x1, 0x2, 0x4, 0x8, 0x10) are set in [b]; byte 0b00001001 gives
    "PD" and byte 0 gives the empty string. *)
Theorem gear_letters_in_mask_order (r : OBDResponse) (v : list Z) (b : Z) :
  value r = VBytes v ->
  nth_error v 7 = Some b ->
  extract_gear (Some r) = Ok (gear_of_byte b) /\
  gear_of_byte 9 = "PD"%string /\
  gear_of_byte 0 = EmptyString.
Proof.
  intros V N. split; [ | split; reflexivity].
  unfold extract_gear, value_of. rewrite V. cbn [rbind].
  unfold Py.index. rewrite N. cbn [rbind].
  assert (B0 : bit_set b 1 = Z.testbit b 0)
    by exact (bit_set_pow2 b 0 ltac:(lia)).
  assert (B1 : bit_set b 2 = Z.testbit b 1)
    by exact (bit_set_pow2 b 1 ltac:(lia)).
  assert (B2 : bit_set b 4 = Z.testbit b 2)
    by exact (bit_set_pow2 b 2 ltac:(lia)).
  assert (B3 : bit_set b 8 = Z.testbit b 3)
    by exact (bit_set_pow2 b 3 ltac:(lia)).
  assert (B4 : bit_set b 16 = Z.testbit b 4)
    by exact (bit_set_pow2 b 4 ltac:(lia)).
  rewrite B0, B1, B2, B3, B4.
  unfold gear_of_byte, gear_positions. cbn [filter map fst snd].
  destruct (Z.testbit b 0), (Z.testbit b 1), (Z.testbit b 2),
    (Z.testbit b 3), (Z.testbit b 4); reflexivity.
Qed.

Lemma gear_letters_in_mask_order_witness :
  value (mkResponse (VBytes [0; 0; 0; 0; 0; 0; 0; 9])) =
    VBytes [0; 0; 0; 0; 0; 0; 0; 9] /\
  nth_error [0; 0; 0; 0; 0; 0; 0; 9] 7 = Some 9 /\
  extract_gear (Some (mkResponse (VBytes [0; 0; 0; 0; 0; 0; 0; 9]))) =
    Ok "PD"%string.
Proof.
  split; [reflexivity | split; [reflexivity | ]].
  exact (proj1 (gear_letters_in_mask_order
                  (mkResponse (VBytes [0; 0; 0; 0; 0; 0; 0; 9]))
                  [0; 0; 0; 0; 0; 0; 0; 9] 9 eq_refl eq_refl)).
Defined.

(** ** The command query engine *)

Section QueryCommand.

Variable connection_query : World -> OBDCommand -> outcome.

Lemma query_attempt_after_exception (c : OBDCommand) (st : query_state)
    (w : World) :
  exception st = true ->
  valid_response (fst (query_attempt connection_query c st w)) = false /\
  exception (fst (query_attempt connection_query c st w)) = true.
Proof.
  intros X. unfold query_attempt.
  destruct (connection_query w c) as [ | r]; cbn [fst valid_response exception];
    rewrite ?X, orb_true_r; split; reflexivity.
Qed.

Lemma query_attempt_raises (c : OBDCommand) (st : query_state) (w : World) :
  connection_query w c = Raises ->
  valid_response (fst (query_attempt connection_query c st w)) = false /\
  exception (fst (query_attempt connection_query c st w)) = true.
Proof.
  intros R. unfold query_attempt. rewrite R.
  cbn [fst valid_response exception]. rewrite orb_true_r.
  split; reflexivity.
Qed.

Lemma query_attempt_events (c : OBDCommand) (st : query_state) (w : World) :
  exists evs,
    snd (query_attempt connection_query c st w) =
      w ++ Queried c (connection_query w c) :: evs /\
    ~ In (Queried c Raises) evs.
Proof.
  unfold query_attempt.
  destruct (connection_query w c) as [ | r]; cbn [snd];
    match goal with
    | |- context [if ?b then _ else _] => destruct b
    end;
    rewrite <- ?app_assoc; cbn [app];
    eexists; (split; [try reflexivity | ]).
  all: try (rewrite app_nil_r; reflexivity).
  all: cbn [In]; intros H; repeat (destruct H as [H | H]; try discriminate H);
    try exact H.
Qed.

Lemma query_loop_sticky (fuel : nat) (c : OBDCommand) :
  forall st w,
  exception st = true -> valid_response st = false ->
  valid_response (fst (query_loop connection_query fuel c st w)) = false /\
  exception (fst (query_loop connection_query fuel c st w)) = true.
Proof.
  induction fuel as [ | fuel IH]; intros st w X V; cbn [query_loop].
  - split; assumption.
  - destruct (negb (valid_response st) && (command_count st <? MAX_ATTEMPTS));
      [ | split; assumption].
    destruct (query_attempt_after_exception c st w X) as [V1 X1].
    destruct (query_attempt connection_query c st w) as [st1 w1].
    cbn [fst] in V1, X1. exact (IH st1 w1 X1 V1).
Qed.

Lemma query_loop_events (fuel : nat) (c : OBDCommand) :
  forall st w,
  exists evs,
    snd (query_loop connection_query fuel c st w) = w ++ evs /\
    (In (Queried c Raises) evs ->
     valid_response (fst (query_loop connection_query fuel c st w)) = false).
Proof.
  induction fuel as [ | fuel IH]; intros st w; cbn [query_loop].
  - exists []. split; [symmetry; apply app_nil_r | intros []].
  - destruct (negb (valid_response st) && (command_count st <? MAX_ATTEMPTS)).
    2:{ exists []. split; [symmetry; apply app_nil_r | intros []]. }
    destruct (query_attempt_events c st w) as (evs1 & E1 & N1).
    pose proof (query_attempt_raises c st w) as R.
    destruct (query_attempt connection_query c st w) as [st1 w1].
    cbn [fst snd] in E1, R.
    destruct (IH st1 w1) as (evs2 & E2 & I2).
    exists (Queried c (connection_query w c) :: evs1 ++ evs2). split.
    + rewrite E2, E1, <- app_assoc. reflexivity.
    + intros [H | H].
      * injection H as H. destruct (R H) as [V1 X1].
        exact (proj1 (query_loop_sticky fuel c st1 w1 X1 V1)).
      * apply in_app_or in H. destruct H as [H | H]; [contradiction | ].
        exact (I2 H).
Qed.

Lemma query_attempt_count (c : OBDCommand) (st : query_state) (w : World) :
  command_count (fst (query_attempt connection_query c st w)) =
    command_count st + 1.
Proof.
  unfold query_attempt. destruct (connection_query w c); reflexivity.
Qed.

(** The fuel given by [query_command] is enough: the loop ends because
    its condition fails. *)
Lemma query_loop_ends (fuel : nat) (c : OBDCommand) :
  forall st w,
  (Z.to_nat (MAX_ATTEMPTS - command_count st) <= fuel)%nat ->
  valid_response (fst (query_loop connection_query fuel c st w)) = true \/
  MAX_ATTEMPTS <= command_count (fst (query_loop connection_query fuel c st w)).
Proof.
  induction fuel as [ | fuel IH]; intros st w F; cbn [query_loop].
  - right. cbn [fst]. lia.
  - destruct (valid_response st) eqn:V; cbn [negb andb]; [left; exact V | ].
    destruct (Z.ltb_spec (command_count st) MAX_ATTEMPTS) as [C | C];
      [ | right; exact C].
    pose proof (query_attempt_count c st w) as N.
    destruct (query_attempt connection_query c st w) as [st1 w1].
    cbn [fst] in N. apply IH. lia.
Qed.

(** C10.  Once the flag [exception] is set, every attempt is classified
    as invalid and leaves the flag set, whatever the adapter answers; so a
    call of [query_command] one of whose attempts raised ends with the
    error about the exceeded attempts and returns no response. *)
Theorem raised_attempt_forces_failure (c : OBDCommand) (w : World) :
  (forall st w0,
     exception st = true ->
     valid_response (fst (query_attempt connection_query c st w0)) = false /\
     exception (fst (query_attempt connection_query c st w0)) = true) /\
  exists evs,
    snd (query_command connection_query c w) = w ++ evs /\
    (In (Queried c Raises) evs ->
     fst (query_command connection_query c w) =
       Raise (ValueError (NoValidResponse c MAX_ATTEMPTS))).
Proof.
  split; [intros st w0; apply query_attempt_after_exception | ].
  unfold query_command.
  destruct (query_loop_events (Z.to_nat MAX_ATTEMPTS) c query_init w)
    as (evs & E & I).
  destruct (query_loop connection_query (Z.to_nat MAX_ATTEMPTS) c query_init w)
    as [st w'].
  cbn [fst snd] in E, I. exists evs. split.
  - destruct (negb (valid_response st)); exact E.
  - intros H. rewrite (I H). reflexivity.
Qed.

End QueryCommand.

Lemma raised_attempt_forces_failure_witness :
  In (Queried cmd_bms_2101 Raises)
     (snd (query_command raises_once cmd_bms_2101 [])) /\
  fst (query_command raises_once cmd_bms_2101 []) =
    Raise (ValueError (NoValidResponse cmd_bms_2101 MAX_ATTEMPTS)).
Proof.
  destruct (raised_attempt_forces_failure raises_once cmd_bms_2101 [])
    as (_ & evs & E & I).
  cbn [app] in E.
  assert (H : In (Queried cmd_bms_2101 Raises)
                 (snd (query_command raises_once cmd_bms_2101 [])))
    by (left; reflexivity).
  split; [exact H | ]. apply I. rewrite <- E. exact H.
Defined.

(** The retry policy when no attempt raises: two invalid answers, then a
    valid one, which is returned after sleeping 1 and 2 seconds. *)
Example query_succeeds_at_third_attempt :
  query_command (scripted [Returns (Some no_data_response); Returns None])
                cmd_bms_2101 [] =
    (Ok (Some ok_response),
     [ Queried cmd_bms_2101 (Returns (Some no_data_response));
       Logged WARNING (RetryingQuery cmd_bms_2101 1); Slept 1;
       Queried cmd_bms_2101 (Returns None);
       Logged WARNING (RetryingQuery cmd_bms_2101 2); Slept 2;
       Queried cmd_bms_2101 (Returns (Some ok_response)) ]).
Proof. reflexivity. Qed.

(** Three invalid answers: the error, after sleeping 1 and 2 seconds. *)
Example query_fails_after_three_attempts :
  query_command
    (scripted [Returns (Some no_data_response); Returns None;
               Returns (Some (mkResponse VNone))])
    cmd_bms_2101 [] =
    (Raise (ValueError (NoValidResponse cmd_bms_2101 3)),
     [ Queried cmd_bms_2101 (Returns (Some no_data_response));
       Logged WARNING (RetryingQuery cmd_bms_2101 1); Slept 1;
       Queried cmd_bms_2101 (Returns None);
       Logged WARNING (RetryingQuery cmd_bms_2101 2); Slept 2;
       Queried cmd_bms_2101 (Returns (Some (mkResponse VNone))) ]).
Proof. reflexivity. Qed.

(** C3, evaluated where it fails.  The adapter raises at the first attempt
    and answers "OK", a valid response, at the second and third: the call
    sleeps 1 and 2 seconds and ends with the error about the exceeded
    attempts instead of returning the response. *)
Theorem retry_after_exception_never_succeeds :
  query_command raises_once cmd_bms_2101 [] =
    (Raise (ValueError (NoValidResponse cmd_bms_2101 3)),
     [ Queried cmd_bms_2101 Raises;
       Logged WARNING (RetryingQuery cmd_bms_2101 1); Slept 1;
       Queried cmd_bms_2101 (Returns (Some ok_response));
       Logged WARNING (RetryingQuery cmd_bms_2101 2); Slept 2;
       Queried cmd_bms_2101 (Returns (Some ok_response)) ]) /\
  is_invalid (value ok_response) = false.
Proof.
  split; reflexivity.
Qed.

(** ** The battery decoder *)

Lemma slice_pair {A} (v : list A) (i : nat) (a b : A) :
  nth_error v i = Some a -> nth_error v (S i) = Some b ->
  Py.slice v (Z.of_nat i) (Z.of_nat i + 2) = [a; b].
Proof.
  intros Ha Hb.
  assert (L : (S i < List.length v)%nat)
    by (apply nth_error_Some; congruence).
  unfold Py.slice, Py.clamp, Py.len.
  destruct (Z.ltb_spec (Z.of_nat i) 0) as [N | _]; [lia | ].
  destruct (Z.ltb_spec (Z.of_nat i + 2) 0) as [N | _]; [lia | ].
  rewrite !Z.min_l by lia.
  replace (Z.to_nat (Z.of_nat i + 2 - Z.of_nat i)) with 2%nat by lia.
  rewrite Nat2Z.id. clear L. revert v Ha Hb.
  induction i as [ | i IH]; intros v Ha Hb.
  - destruct v as [ | x [ | y v]]; try discriminate.
    injection Ha as ->. injection Hb as ->. reflexivity.
  - destruct v as [ | x v]; [discriminate | ]. exact (IH v Ha Hb).
Qed.

Lemma dict_get_set_other (d : dict) (k k' : string) (v : pyval) :
  k' <> k -> dict_get (dict_set d k' v) k = dict_get d k.
Proof.
  intros N. induction d as [ | [k0 v0] d IH]; cbn [dict_set dict_get].
  - destruct (String.eqb_spec k' k); [contradiction | reflexivity].
  - destruct (String.eqb_spec k0 k') as [-> | N0]; cbn [dict_get].
    + destruct (String.eqb_spec k' k); [contradiction | reflexivity].
    + destruct (String.eqb_spec k0 k); [reflexivity | exact IH].
Qed.

Lemma dict_get_set_numbered (xs : list Q) :
  forall (d : dict) (prefix : string) (i : nat) (k : string),
  (forall n, (prefix ++ format_02d n)%string <> k) ->
  dict_get (set_numbered d prefix i xs) k = dict_get d k.
Proof.
  induction xs as [ | x xs IH]; intros d prefix i k N; cbn [set_numbered].
  - reflexivity.
  - rewrite (IH _ prefix (S i) k N). apply dict_get_set_other, N.
Qed.

Lemma dict_get_set_same (d : dict) (k : string) (v : pyval) :
  dict_get (dict_set d k v) k = Some v.
Proof.
  induction d as [ | [k0 v0] d IH]; cbn [dict_set dict_get].
  - rewrite String.eqb_refl. reflexivity.
  - destruct (String.eqb_spec k0 k) as [-> | N]; cbn [dict_get].
    + rewrite String.eqb_refl. reflexivity.
    + destruct (String.eqb_spec k0 k); [contradiction | exact IH].
Qed.

Lemma dict_get_update_other (items : list (string * pyval)) :
  forall (d : dict) (k : string),
  ~ In k (map fst items) ->
  dict_get (dict_update d items) k = dict_get d k.
Proof.
  unfold dict_update.
  induction items as [ | [k0 v0] items IH]; intros d k N; cbn [fold_left].
  - reflexivity.
  - cbn [map fst In] in N. cbn [fst snd]. rewrite IH by tauto.
    apply dict_get_set_other. tauto.
Qed.

Lemma dict_get_update_in (items : list (string * pyval)) :
  forall (d : dict) (k : string) (v : pyval),
  NoDup (map fst items) -> In (k, v) items ->
  dict_get (dict_update d items) k = Some v.
Proof.
  induction items as [ | [k0 v0] items IH]; intros d k v D I; [destruct I | ].
  cbn [map fst] in D. inversion D as [ | ? ? N D']; subst.
  destruct I as [[= -> ->] | I].
  - change (dict_update d ((k, v) :: items))
      with (dict_update (dict_set d k v) items).
    rewrite dict_get_update_other by exact N. apply dict_get_set_same.
  - change (dict_update d ((k0, v0) :: items))
      with (dict_update (dict_set d k0 v0) items).
    apply IH; assumption.
Qed.

Lemma collect_items_ok (l : list (string * result pyval)) :
  forall items,
  collect_items l = Ok items ->
  map fst items = map fst l /\
  (forall k v, In (k, Ok v) l -> In (k, v) items).
Proof.
  induction l as [ | [k r] l IH]; intros items H; cbn [collect_items] in H.
  - injection H as <-. split; [reflexivity | intros k v []].
  - destruct r as [v0 | e]; cbn [rbind] in H; [ | discriminate H].
    destruct (collect_items l) as [l' | e]; cbn [rbind] in H;
      [ | discriminate H].
    injection H as <-. destruct (IH l' eq_refl) as [K I].
    split; [cbn [map fst]; rewrite K; reflexivity | ].
    intros k1 v1 [[= -> ->] | J]; [left; reflexivity | right; exact (I k1 v1 J)].
Qed.

Lemma distinct_NoDup (l : list string) : distinct l = true -> NoDup l.
Proof.
  induction l as [ | k l IH]; cbn [distinct]; intros H; constructor.
  - apply andb_prop in H. destruct H as [H _]. intros I.
    assert (E : existsb (String.eqb k) l = true).
    { apply existsb_exists. exists k. split; [exact I | apply String.eqb_refl]. }
    rewrite E in H. discriminate H.
  - apply IH. apply andb_prop in H. exact (proj2 H).
Qed.

(** C5.  The state of health is the big-endian integer of the bytes 27
    and 28 of the 2105 response divided by 10 (950 gives 95); when it
    exceeds 100 the decoder raises the error about inconsistent data and
    returns no record (1010 gives 101 and raises); a record that is
    returned has a state of health of at most 100 under the key "soh". *)
Theorem battery_soh_guard (timestamp : Z)
    (raw_2101 raw_2102 raw_2103 raw_2104 raw_2105 : option OBDResponse)
    (v5 : list Z) (hi lo : Z) :
  value_of raw_2105 = Ok v5 ->
  nth_error v5 27 = Some hi ->
  nth_error v5 28 = Some lo ->
  let soh := truediv (of_int (hi * 256 + lo)) 10 in
  let decoded := battery_information timestamp raw_2101 raw_2102 raw_2103
                                     raw_2104 raw_2105 in
  (soh == inject_Z (hi * 256 + lo) / 10)%Q /\
  ((100 < soh)%Q -> decoded = Raise (ValueError (InconsistentSoh soh))) /\
  (forall d, decoded = Ok d ->
             (soh <= 100)%Q /\ dict_get d "soh" = Some (PFloat soh)) /\
  (hi * 256 + lo = 950 -> soh = 95%Q) /\
  (hi * 256 + lo = 1010 ->
   soh = 101%Q /\ decoded = Raise (ValueError (InconsistentSoh 101%Q))).
Proof.
  intros V Hhi Hlo soh decoded.
  assert (S : Py.slice v5 27 29 = [hi; lo])
    by exact (slice_pair v5 27 hi lo Hhi Hlo).
  assert (B : bytes_to_int (Py.slice v5 27 29) = hi * 256 + lo).
  { rewrite S. unfold bytes_to_int. cbn [rev app bytes_to_int_from].
    change (2 ^ 0) with 1. change (2 ^ (0 + 8)) with 256. lia. }
  assert (Guard : (100 < soh)%Q ->
                  decoded = Raise (ValueError (InconsistentSoh soh))).
  { intros G. unfold decoded, battery_information. rewrite V. cbn [rbind].
    rewrite B. fold soh.
    destruct (Qle_bool soh 100) eqn:Q; [ | reflexivity].
    apply Qle_bool_iff in Q. exfalso. exact (Qlt_not_le _ _ G Q). }
  split; [apply Qred_correct | ].
  split; [exact Guard | ].
  split; [ | split].
  - intros d. unfold decoded, battery_information. rewrite V. cbn [rbind].
    rewrite B. fold soh.
    destruct (Qle_bool soh 100) eqn:Q; [ | discriminate].
    apply Qle_bool_iff in Q. intros H. split; [exact Q | ].
    destruct (value_of raw_2101) as [v1 | ]; [ | discriminate H].
    cbn [rbind] in H.
    destruct (Py.index v1 11) as [chargingBits | ]; [ | discriminate H].
    cbn [rbind] in H.
    destruct (collect _) as [cellVoltages | ]; [ | discriminate H].
    cbn [rbind] in H.
    match type of H with
    | context [collect_items ?l] =>
        destruct (collect_items l) as [items | ] eqn:Items;
          [ | discriminate H]
    end.
    cbn [rbind] in H. injection H as <-.
    destruct (collect_items_ok _ items Items) as [Keys Ins].
    rewrite !dict_get_set_numbered by (intros n; discriminate).
    rewrite ?dict_get_set_other by discriminate.
    apply dict_get_update_in.
    + rewrite Keys. apply distinct_NoDup. reflexivity.
    + apply Ins. cbn. tauto.
  - intros E. unfold soh. rewrite E. reflexivity.
  - intros E.
    assert (E' : soh = 101%Q) by (unfold soh; rewrite E; reflexivity).
    split; [exact E' | ]. rewrite <- E'. apply Guard. rewrite E'. reflexivity.
Qed.

Lemma battery_soh_guard_witness :
  value_of (Some (mkResponse (VBytes soh_101_payload))) = Ok soh_101_payload /\
  nth_error soh_101_payload 27 = Some 3 /\
  nth_error soh_101_payload 28 = Some 242 /\
  battery_information 0 None None None None
    (Some (mkResponse (VBytes soh_101_payload))) =
    Raise (ValueError (InconsistentSoh 101%Q)).
Proof.
  split; [reflexivity | split; [reflexivity | split; [reflexivity | ]]].
  exact (proj2 (proj2 (proj2 (proj2 (proj2
    (battery_soh_guard 0 None None None None
       (Some (mkResponse (VBytes soh_101_payload))) soh_101_payload 3 242
       eq_refl eq_refl eq_refl)))) eq_refl)).
Defined.

(** ** The session orchestrator *)

Lemma run_groups_app (topic_prefix : string) (before after : list group) :
  forall msgs w,
  run_groups topic_prefix (before ++ after) msgs w =
    match run_groups topic_prefix before msgs w with
    | ((msgs', None), w') => run_groups topic_prefix after msgs' w'
    | ((msgs', Some e), w') => ((msgs', Some e), w')
    end.
Proof.
  induction before as [ | g before IH]; intros msgs w; cbn [app run_groups].
  - reflexivity.
  - destruct (try_group topic_prefix g msgs w) as [[msgs' [e | ]] w'];
      [reflexivity | apply IH].
Qed.

(** C4, as amended.  When a group raises a ValueError or a CanError, the
    script logs a warning and leaves the list of messages as it was; the
    groups after it run as they would have, starting in the world the
    failed group left; and the record of a group that succeeds is added
    to the list before the next group runs. *)
Theorem caught_failure_skips_one_group (topic_prefix : string)
    (before : list group) (g : group) (after : list group)
    (msgs msgs1 : list mqtt_msg) (w w1 w2 : World) (e : exn) :
  run_groups topic_prefix before msgs w = ((msgs1, None), w1) ->
  run g w1 = (Raise e, w2) ->
  caught_by_group e = true ->
  run_groups topic_prefix (before ++ g :: after) msgs w =
    run_groups topic_prefix after msgs1
      (w2 ++ [Logged WARNING (ErrorQuerying (what g) e)]) /\
  (forall g' rest msgs' w' d w3,
     run g' w' = (Ok d, w3) ->
     run_groups topic_prefix (g' :: rest) msgs' w' =
       run_groups topic_prefix rest
         (msgs' ++ [record_msg topic_prefix (suffix g') d]) w3).
Proof.
  intros B R C. split.
  - rewrite run_groups_app, B. cbn [run_groups]. unfold try_group.
    rewrite R, C. reflexivity.
  - intros g' rest msgs' w' d w3 R'. cbn [run_groups]. unfold try_group.
    rewrite R'. reflexivity.
Qed.

Lemma caught_failure_skips_one_group_witness :
  fst (query_battery_information soh_101_adapter still_clock []) =
    Raise (ValueError (InconsistentSoh 101%Q)) /\
  caught_by_group (ValueError (InconsistentSoh 101%Q)) = true /\
  map topic
      (fst (fst (run_groups car_prefix (groups soh_101_adapter still_clock)
                            [state_msg car_prefix] []))) =
    ["car/state"; "car/vmcu"; "car/odometer"; "car/tpms"; "car/ext_temp"]%string /\
  snd (fst (run_groups car_prefix (groups soh_101_adapter still_clock)
                       [state_msg car_prefix] [])) = None.
Proof.
  assert (R : query_battery_information soh_101_adapter still_clock [] =
              (Raise (ValueError (InconsistentSoh 101%Q)),
               snd (query_battery_information soh_101_adapter still_clock [])))
    by (vm_compute; reflexivity).
  split; [rewrite R; reflexivity | split; [reflexivity | ]].
  pose proof (proj1 (caught_failure_skips_one_group car_prefix
    [] (mkGroup "battery" "battery information"
          (query_battery_information soh_101_adapter still_clock))
    (tl (groups soh_101_adapter still_clock))
    [state_msg car_prefix] [state_msg car_prefix] [] [] _ _ eq_refl R eq_refl)) as Step.
  change ([] ++ _ :: tl (groups soh_101_adapter still_clock))
    with (groups soh_101_adapter still_clock) in Step.
  rewrite Step. split; vm_compute; reflexivity.
Defined.

Lemma uncaught_failure_counterexample :
  fst (query_battery_information rejecting_adapter still_clock []) =
    Raise IndexError /\
  fst (run_groups car_prefix (groups rejecting_adapter still_clock)
                  [state_msg car_prefix] []) =
    ([state_msg car_prefix], Some IndexError) /\
  sent (snd (run_groups car_prefix (groups rejecting_adapter still_clock)
                        [state_msg car_prefix] [])) =
    ["ATSH7E4"; "ATCRA7EC"; "2101"; "2102"; "2103"; "2104"; "2105"]%string /\
  fst (main rejecting_adapter always_connected still_clock car_prefix []) =
    [state_msg car_prefix].
Proof.
  repeat split; vm_compute; reflexivity.
Qed.

(** * Further properties *)

(** Float products are rounded as the script's are: [3 * 0.2] is
    0.6000000000000001 (0x1.3333333333334p-1), not 0.6, while [5 * 0.2]
    is 1. *)
Example fmul_rounds_to_binary64 :
  fmul (of_int 3) (2 # 10) = 1351079888211149 # 2251799813685248 /\
  ~ (fmul (of_int 3) (2 # 10) == 6 # 10)%Q /\
  fmul (of_int 5) (2 # 10) = 1%Q.
Proof.
  split; [vm_compute; reflexivity | split; [ | vm_compute; reflexivity]].
  vm_compute. discriminate.
Qed.


(** ** The frame reassembler, continued *)

Lemma can_line_break_data (st st' : can_state) (line : list ascii) :
  can_line st line = Ok (Break, st') -> data st' <> None.
Proof.
  unfold can_line. intros H.
  destruct (negb _); [discriminate H | ]. cbv zeta in H.
  case_result H ident Ei. case_result H ft Et.
  destruct (ft =? 0).
  { case_result H dl El. case_result H b Eb. injection H as <-. discriminate. }
  destruct (ft =? 1).
  { case_result H dl El. case_result H b Eb. discriminate H. }
  destruct (ft =? 2); [ | discriminate H].
  case_result H idx Ex.
  destruct (negb _); [discriminate H | ].
  destruct (data st) as [d0 | ]; [ | discriminate H].
  cbv zeta in H. case_result H chunk Ec.
  destruct (_ =? _); [ | discriminate H]. injection H as <-. discriminate.
Qed.

Lemma can_lines_data (lines : list (list ascii)) :
  forall st fl st',
  can_lines st lines = Ok (fl, st') ->
  lines <> [] -> data st' <> None.
Proof.
  induction lines as [ | line rest IH]; intros st fl st' H N; [congruence | ].
  destruct fl.
  - exact (can_lines_next_data _ _ _ H (or_introl N)).
  - cbn [can_lines] in H.
    destruct (can_line st line) as [[[ | ] st1] | ] eqn:E;
      [ | | discriminate H].
    + destruct rest as [ | l2 rest].
      * discriminate H.
      * apply (IH st1 Break st' H). discriminate.
    + injection H as <-. exact (can_line_break_data st st1 line E).
Qed.

Lemma can_response_some (can_message : list (list ascii))
    (r : option (list Z)) :
  can_response can_message = Ok r -> exists d, r = Some d.
Proof.
  unfold can_response. destruct can_message as [ | m ms]; [discriminate | ].
  destruct (can_lines can_init (Py.split_nl m)) as [[fl st] | e] eqn:E;
    cbn [rbind snd]; [ | discriminate].
  intros [= <-].
  pose proof (can_lines_data _ _ _ _ E (split_nl_nonempty m)) as N.
  destruct (data st) as [d | ]; [exists d; reflexivity | congruence].
Qed.

(** X1.  [can_response] never returns None: whenever it returns, the
    result is a byte sequence. *)
Theorem can_response_returns_bytes (can_message : list (list ascii))
    (r : option (list Z)) :
  can_response can_message = Ok r -> exists d, r = Some d.
Proof.
  exact (can_response_some can_message r).
Qed.

Lemma can_response_returns_bytes_witness :
  can_response [lone_first_frame] = Ok (Some [97; 1; 255; 255; 255; 255]) /\
  exists d, Some [97; 1; 255; 255; 255; 255] = Some d.
Proof.
  assert (H : can_response [lone_first_frame] =
              Ok (Some [97; 1; 255; 255; 255; 255])) by (vm_compute; reflexivity).
  split; [exact H | ].
  exact (can_response_returns_bytes [lone_first_frame] _ H).
Defined.

(** X2.  [log_can_response] returns and raises exactly what
    [can_response] does: its logging loop never fails. *)
Theorem log_can_response_agrees (can_message : list (list ascii)) :
  log_can_response can_message = can_response can_message.
Proof.
  unfold log_can_response.
  destruct (can_response can_message) as [r | e] eqn:E; cbn [rbind];
    [ | reflexivity].
  destruct (can_response_some can_message r E) as [d ->].
  reflexivity.
Qed.

(** X3.  A RawFrameLine whose frame type is 3 or more (flow control
    included) makes the reassembly fail with the ValueError "Unexpected
    frame", whatever was accumulated before and whatever follows. *)
Theorem unexpected_frame_type_rejected (st : can_state) (line : list ascii)
    (rest : list (list ascii)) :
  hex_line line ->
  3 <= field line 3 ->
  can_lines st (line :: rest) = Raise (ValueError UnexpectedFrame).
Proof.
  intros HL T. cbn [can_lines]. rewrite (can_line_hex st line HL).
  destruct (Z.eqb_spec (field line 3) 0); [lia | ].
  destruct (Z.eqb_spec (field line 3) 1); [lia | ].
  destruct (Z.eqb_spec (field line 3) 2); [lia | ].
  reflexivity.
Qed.

Lemma unexpected_frame_type_rejected_witness :
  hex_line (text "7EC30000000000000AA") /\
  3 <= field (text "7EC30000000000000AA") 3 /\
  can_lines after_first_frame [text "7EC30000000000000AA"] =
    Raise (ValueError UnexpectedFrame).
Proof.
  assert (H : hex_line (text "7EC30000000000000AA"))
    by (split; [reflexivity | repeat constructor]).
  assert (T : 3 <= field (text "7EC30000000000000AA") 3)
    by (vm_compute; discriminate).
  split; [exact H | split; [exact T | ]].
  exact (unexpected_frame_type_rejected after_first_frame _ [] H T).
Defined.

(** X4.  A message that begins with a consecutive frame never yields a
    payload: with index 1 the frame passes the sequence check and
    [len(data)] on None raises TypeError; with any other index the
    sequence check raises CanError(0, idx). *)
Theorem consecutive_frame_first (m : list ascii) (ms : list (list ascii))
    (line : list ascii) (rest : list (list ascii)) :
  Py.split_nl m = line :: rest ->
  hex_line line ->
  field line 3 = 2 ->
  (field line 4 = 1 -> can_response (m :: ms) = Raise TypeError) /\
  (field line 4 <> 1 ->
   can_response (m :: ms) = Raise (CanError 0 (field line 4))).
Proof.
  intros S HL T. unfold can_response. rewrite S. cbn [can_lines].
  rewrite (can_line_hex can_init line HL), T. cbn [Z.eqb Pos.eqb].
  cbn [last_idx data can_init]. change ((0 + 1) mod 16) with 1.
  split; intros I.
  - rewrite I. reflexivity.
  - destruct (Z.eqb_spec 1 (field line 4)); [congruence | reflexivity].
Qed.

Lemma consecutive_frame_first_witness :
  Py.split_nl following_frame = [following_frame] /\
  hex_line following_frame /\
  field following_frame 3 = 2 /\
  field following_frame 4 = 1 /\
  can_response [following_frame] = Raise TypeError.
Proof.
  assert (S : Py.split_nl following_frame = [following_frame]) by reflexivity.
  assert (H : hex_line following_frame)
    by (split; [reflexivity | repeat constructor]).
  assert (T : field following_frame 3 = 2) by reflexivity.
  assert (I : field following_frame 4 = 1) by reflexivity.
  repeat (split; [assumption | ]).
  exact (proj1 (consecutive_frame_first following_frame [] following_frame []
                  S H T) I).
Defined.

Lemma can_lines_first_frame (st : can_state) (line : list ascii)
    (rest : list (list ascii)) :
  hex_line line ->
  field line 3 = 1 ->
  can_lines st (line :: rest) =
    can_lines {| data := Some (hex_pairs (skipn 7 line));
                 data_len := 256 * field line 4 + 16 * field line 5
                             + field line 6;
                 last_idx := 0 |} rest.
Proof.
  intros HL T. cbn [can_lines].
  rewrite (can_line_hex st line HL), T. reflexivity.
Qed.

(** X5.  A first frame starts the reassembly afresh: what was accumulated
    before it has no influence on the result, which is that of the
    message beginning at this frame. *)
Theorem first_frame_restarts (st : can_state) (line : list ascii)
    (rest : list (list ascii)) :
  hex_line line ->
  field line 3 = 1 ->
  can_lines st (line :: rest) = can_lines can_init (line :: rest) /\
  can_lines st (line :: rest) =
    can_lines {| data := Some (hex_pairs (skipn 7 line));
                 data_len := 256 * field line 4 + 16 * field line 5
                             + field line 6;
                 last_idx := 0 |} rest.
Proof.
  intros HL T.
  rewrite (can_lines_first_frame st line rest HL T).
  rewrite (can_lines_first_frame can_init line rest HL T).
  split; reflexivity.
Qed.

Lemma first_frame_restarts_witness :
  hex_line lone_first_frame /\
  field lone_first_frame 3 = 1 /\
  can_lines {| data := Some [1; 2; 3]; data_len := 9; last_idx := 5 |}
            [lone_first_frame] =
    Ok (Next, after_first_frame).
Proof.
  assert (H : hex_line lone_first_frame)
    by (split; [reflexivity | repeat constructor]).
  assert (T : field lone_first_frame 3 = 1) by reflexivity.
  split; [exact H | split; [exact T | ]].
  exact (proj2 (first_frame_restarts
                  {| data := Some [1; 2; 3]; data_len := 9; last_idx := 5 |}
                  lone_first_frame [] H T)).
Defined.

Lemma hex_pairs_firstn (k : nat) :
  forall s, hex_pairs (firstn (2 * k) s) = firstn k (hex_pairs s).
Proof.
  induction k as [ | k IH]; intros s; [reflexivity | ].
  replace (2 * S k)%nat with (S (S (2 * k))) by lia.
  destruct s as [ | a [ | b r]]; [reflexivity | reflexivity | ].
  cbn [firstn hex_pairs]. rewrite IH. reflexivity.
Qed.

Lemma frame_bytes_firstn (line : list ascii) (k : nat) :
  (k <= 7)%nat -> frame_bytes line k = firstn k (frame_bytes line 7).
Proof.
  intros K. unfold frame_bytes.
  rewrite <- hex_pairs_firstn, firstn_firstn.
  replace (Nat.min (2 * k) (2 * 7)) with (2 * k)%nat by lia. reflexivity.
Qed.

Lemma frame_bytes_length (line : list ascii) :
  hex_line line -> List.length (frame_bytes line 7) = 7%nat.
Proof.
  intros HL. pose proof (proj2 (fromhex_data line 7 HL ltac:(lia))) as L.
  change (Z.to_nat (Z.min 7 7)) with 7%nat in L. unfold Py.len in L. lia.
Qed.

Lemma can_line_consecutive (st : can_state) (d : list Z) (line : list ascii) :
  data st = Some d ->
  Py.len d <= data_len st ->
  hex_line line ->
  field line 3 = 2 ->
  field line 4 = (last_idx st + 1) mod 16 ->
  let k := Z.min 7 (data_len st - Py.len d) in
  can_line st line =
    Ok (if data_len st =? Py.len d + k then Break else Next,
        {| data := Some (d ++ frame_bytes line (Z.to_nat k));
           data_len := data_len st; last_idx := field line 4 |}) /\
  Py.len (frame_bytes line (Z.to_nat k)) = k.
Proof.
  intros D B HL T I k.
  assert (K : 0 <= k) by (unfold k; lia).
  destruct (fromhex_data line k HL K) as [F Len].
  replace (Z.min k 7) with k in F, Len by (unfold k; lia).
  split; [ | exact Len].
  rewrite (can_line_hex st line HL), T. cbn [Z.eqb Pos.eqb].
  rewrite <- I, Z.eqb_refl. cbn [negb]. rewrite D. cbv zeta. fold k.
  rewrite F. cbn [rbind].
  replace (Py.len (d ++ frame_bytes line (Z.to_nat k))) with (Py.len d + k)
    by (unfold Py.len in *; rewrite length_app; lia).
  destruct (data_len st =? Py.len d + k); reflexivity.
Qed.

Lemma can_lines_sequenced (frames : list (list ascii)) :
  forall (st : can_state) (d : list Z) (rest : list (list ascii)),
  data st = Some d ->
  Py.len d <= data_len st ->
  sequenced (last_idx st) frames ->
  frames <> [] ->
  data_len st <= Py.len d + 7 * Py.len frames ->
  exists st',
    can_lines st (frames ++ rest) = Ok (Break, st') /\
    data st' = Some (firstn (Z.to_nat (data_len st)) (d ++ all_data frames)).
Proof.
  induction frames as [ | l ls IH]; intros st d rest D B S N E;
    [congruence | ].
  destruct S as (HL & T & I & S).
  destruct (can_line_consecutive st d l D B HL T I) as [Step Len].
  cbn [app can_lines]. rewrite Step. clear Step.
  set (k := Z.min 7 (data_len st - Py.len d)) in *.
  pose proof (frame_bytes_length l HL) as L7.
  unfold all_data. cbn [flat_map]. fold (all_data ls).
  destruct (Z.eqb_spec (data_len st) (Py.len d + k)) as [C | C].
  - eexists. split; [reflexivity | ]. cbn [data]. f_equal.
    assert (K7 : (Z.to_nat k <= 7)%nat) by (unfold k; lia).
    rewrite (frame_bytes_firstn l (Z.to_nat k) K7).
    replace (Z.to_nat (data_len st))
      with (List.length d + Z.to_nat k)%nat by (unfold Py.len in *; lia).
    rewrite firstn_app_2. f_equal.
    rewrite firstn_app. rewrite L7.
    replace (Z.to_nat k - 7)%nat with 0%nat by lia.
    cbn [firstn]. rewrite app_nil_r. reflexivity.
  - assert (K : k = 7) by (unfold k in *; lia).
    rewrite K in *. change (Z.to_nat 7) with 7%nat in *.
    assert (Eq : Py.len (d ++ frame_bytes l 7) = Py.len d + 7)
      by (unfold Py.len in *; rewrite length_app; lia).
    destruct (IH {| data := Some (d ++ frame_bytes l 7);
                    data_len := data_len st; last_idx := field l 4 |}
                 (d ++ frame_bytes l 7) rest eq_refl) as (st' & R & Dt).
    + cbn [data_len]. unfold k in *. lia.
    + cbn [last_idx]. rewrite I. exact S.
    + intros ->. unfold Py.len in *. cbn [List.length] in E. unfold k in *. lia.
    + cbn [data_len]. unfold Py.len in *. cbn [List.length] in E.
      rewrite length_app in *. lia.
    + exists st'. split; [exact R | ]. rewrite Dt. cbn [data_len].
      rewrite <- app_assoc. reflexivity.
Qed.

Lemma all_data_length (frames : list (list ascii)) :
  forall i, sequenced i frames ->
  List.length (all_data frames) = (7 * List.length frames)%nat.
Proof.
  induction frames as [ | l ls IH]; intros i S; [reflexivity | ].
  destruct S as (HL & _ & _ & S). unfold all_data. cbn [flat_map].
  fold (all_data ls). rewrite length_app, (frame_bytes_length l HL).
  rewrite (IH _ S). cbn [List.length]. lia.
Qed.

(** X6.  A complete multi-frame message reassembles to the first
    [data_len] bytes of its data: when a first frame declaring n (at least
    the 6 bytes it carries) is followed by consecutive frames with the
    indices 1, 2, 3, ... modulo 16 that together hold the missing bytes,
    [can_response] returns exactly the first n bytes written by the first
    frame's data followed by the seven data bytes of each consecutive
    frame; the lines after them are not examined. *)
Theorem multi_frame_reassembly (m : list ascii) (ms : list (list ascii))
    (first : list ascii) (frames rest : list (list ascii)) :
  Py.split_nl m = first :: frames ++ rest ->
  hex_line first ->
  field first 3 = 1 ->
  sequenced 0 frames ->
  frames <> [] ->
  let n := 256 * field first 4 + 16 * field first 5 + field first 6 in
  6 <= n <= 6 + 7 * Py.len frames ->
  let payload :=
    firstn (Z.to_nat n) (hex_pairs (skipn 7 first) ++ all_data frames) in
  can_response (m :: ms) = Ok (Some payload) /\ Py.len payload = n.
Proof.
  intros Sp HL T Sq N n R payload.
  assert (L6 : List.length (hex_pairs (skipn 7 first)) = 6%nat).
  { rewrite (hex_pairs_length 12) by (rewrite length_skipn, (proj1 HL); lia).
    rewrite length_skipn, (proj1 HL). reflexivity. }
  destruct (can_lines_sequenced frames
              {| data := Some (hex_pairs (skipn 7 first)); data_len := n;
                 last_idx := 0 |}
              (hex_pairs (skipn 7 first)) rest eq_refl) as (st' & Run & Dt).
  - cbn [data_len]. unfold Py.len. lia.
  - exact Sq.
  - exact N.
  - cbn [data_len]. unfold Py.len in *. lia.
  - cbn [data_len] in Dt. fold payload in Dt. split.
    + unfold can_response. rewrite Sp.
      rewrite (can_lines_first_frame can_init first (frames ++ rest) HL T).
      fold n. rewrite Run. cbn [rbind snd]. rewrite Dt. reflexivity.
    + unfold payload, Py.len. rewrite length_firstn, length_app, L6.
      rewrite (all_data_length frames 0 Sq). unfold Py.len in R. lia.
Qed.

Lemma multi_frame_reassembly_witness :
  Py.split_nl (unlines example_lines) =
    text "7EC103D6101FFFFFFFF" :: map text (tl example_lines) ++ [] /\
  hex_line (text "7EC103D6101FFFFFFFF") /\
  field (text "7EC103D6101FFFFFFFF") 3 = 1 /\
  sequenced 0 (map text (tl example_lines)) /\
  can_response [unlines example_lines] = Ok (Some example_payload).
Proof.
  assert (S : Py.split_nl (unlines example_lines) =
              text "7EC103D6101FFFFFFFF" :: map text (tl example_lines) ++ [])
    by reflexivity.
  assert (H : hex_line (text "7EC103D6101FFFFFFFF"))
    by (split; [reflexivity | repeat constructor]).
  assert (T : field (text "7EC103D6101FFFFFFFF") 3 = 1) by reflexivity.
  assert (Q : sequenced 0 (map text (tl example_lines))).
  { cbn [sequenced map tl example_lines].
    repeat (split; [first [ reflexivity
                          | split; [reflexivity | repeat constructor] ] | ]).
    exact I. }
  split; [exact S | split; [exact H | split; [exact T | split; [exact Q | ]]]].
  exact (proj1 (multi_frame_reassembly (unlines example_lines) []
                  (text "7EC103D6101FFFFFFFF") (map text (tl example_lines)) []
                  S H T Q ltac:(discriminate)
                  ltac:(vm_compute; split; discriminate))).
Defined.

(** ** The command query engine, continued *)

Section QueryPolicy.

Variable connection_query : World -> OBDCommand -> outcome.

Lemma query_attempt_valid (c : OBDCommand) (st : query_state) (w : World)
    (r : OBDResponse) :
  exception st = false ->
  valid_return (connection_query w c) r ->
  query_attempt connection_query c st w =
    ({| command_count := command_count st + 1; cmd_response := Some r;
        exception := false; valid_response := true |},
     w ++ [Queried c (connection_query w c)]).
Proof.
  intros X [O V]. unfold query_attempt. rewrite O, X, V. reflexivity.
Qed.

Lemma query_attempt_invalid (c : OBDCommand) (st : query_state) (w : World) :
  exception st = false ->
  invalid_return (connection_query w c) ->
  exists resp,
    query_attempt connection_query c st w =
      ({| command_count := command_count st + 1; cmd_response := resp;
          exception := false; valid_response := false |},
       if command_count st + 1 <? MAX_ATTEMPTS
       then retried w c (connection_query w c) (command_count st + 1)
       else w ++ [Queried c (connection_query w c)]).
Proof.
  intros X [O | (r & O & V)]; unfold query_attempt, retried; rewrite O, X.
  - exists None. cbn [negb orb andb]. destruct (_ <? _);
      rewrite <- ?app_assoc; reflexivity.
  - exists (Some r). rewrite V. cbn [negb orb andb]. destruct (_ <? _);
      rewrite <- ?app_assoc; reflexivity.
Qed.

(** X7.  The retry policy when no attempt raises: the first answer that
    is neither None nor a response whose value is None, the empty string,
    "?" or "NO DATA" is returned, at the first, second or third attempt, after a
    warning and a sleep of 1 second after the first rejected answer and of
    2 seconds after the second; after three rejected answers the call
    raises the ValueError about the exceeded attempts, without sleeping a
    third time. *)
Theorem retry_policy_without_exception (c : OBDCommand) (w : World) :
  let run := query_command connection_query c w in
  let o1 := connection_query w c in
  let w1 := retried w c o1 1 in
  let o2 := connection_query w1 c in
  let w2 := retried w1 c o2 2 in
  let o3 := connection_query w2 c in
  (forall r, valid_return o1 r -> run = (Ok (Some r), w ++ [Queried c o1])) /\
  (invalid_return o1 ->
   (forall r, valid_return o2 r ->
              run = (Ok (Some r), w1 ++ [Queried c o2])) /\
   (invalid_return o2 ->
    (forall r, valid_return o3 r ->
               run = (Ok (Some r), w2 ++ [Queried c o3])) /\
    (invalid_return o3 ->
     run = (Raise (ValueError (NoValidResponse c MAX_ATTEMPTS)),
            w2 ++ [Queried c o3])))).
Proof.
  intros run o1 w1 o2 w2 o3. unfold run, query_command.
  change (Z.to_nat MAX_ATTEMPTS) with 3%nat.
  split.
  { intros r V. cbn [query_loop query_init valid_response command_count negb andb].
    change (0 <? MAX_ATTEMPTS) with true. cbv iota.
    rewrite (query_attempt_valid c query_init w r eq_refl V). reflexivity. }
  intros I1. cbn [query_loop].
  change (negb (valid_response query_init) &&
          (command_count query_init <? MAX_ATTEMPTS)) with true. cbv iota.
  destruct (query_attempt_invalid c query_init w eq_refl I1) as [r1 ->].
  change (command_count query_init + 1 <? MAX_ATTEMPTS) with true. cbv iota.
  change (command_count query_init + 1) with 1. fold o1. fold w1.
  cbn [valid_response command_count negb andb].
  change (1 <? MAX_ATTEMPTS) with true. cbv iota.
  split.
  { intros r V.
    rewrite (query_attempt_valid c
               {| command_count := 1; cmd_response := r1; exception := false;
                  valid_response := false |} w1 r eq_refl V).
    reflexivity. }
  intros I2.
  destruct (query_attempt_invalid c
              {| command_count := 1; cmd_response := r1; exception := false;
                 valid_response := false |} w1 eq_refl I2) as [r2 ->].
  cbn [command_count]. change (1 + 1 <? MAX_ATTEMPTS) with true. cbv iota.
  change (1 + 1) with 2. fold o2. fold w2.
  cbn [valid_response command_count negb andb].
  change (2 <? MAX_ATTEMPTS) with true. cbv iota.
  split.
  { intros r V.
    rewrite (query_attempt_valid c
               {| command_count := 2; cmd_response := r2; exception := false;
                  valid_response := false |} w2 r eq_refl V).
    reflexivity. }
  intros I3.
  destruct (query_attempt_invalid c
              {| command_count := 2; cmd_response := r2; exception := false;
                 valid_response := false |} w2 eq_refl I3) as [r3 ->].
  cbn [command_count]. change (2 + 1 <? MAX_ATTEMPTS) with false. cbv iota.
  reflexivity.
Qed.

Lemma query_loop_stops (fuel : nat) (c : OBDCommand) (st : query_state)
    (w : World) :
  valid_response st = true ->
  query_loop connection_query fuel c st w = (st, w).
Proof.
  intros V. destruct fuel; cbn [query_loop]; [reflexivity | ].
  rewrite V. reflexivity.
Qed.

Lemma query_attempt_valid_inv (c : OBDCommand) (st : query_state)
    (w : World) :
  valid_response (fst (query_attempt connection_query c st w)) = true ->
  exists resp,
    connection_query w c = Returns (Some resp) /\
    is_invalid (value resp) = false /\
    cmd_response (fst (query_attempt connection_query c st w)) = Some resp /\
    snd (query_attempt connection_query c st w) =
      w ++ [Queried c (Returns (Some resp))].
Proof.
  unfold query_attempt.
  destruct (connection_query w c) as [ | [resp | ]];
    cbn [fst snd valid_response cmd_response].
  - rewrite orb_true_r. discriminate.
  - destruct (is_invalid (value resp)) eqn:I; [discriminate | ].
    destruct (exception st); [discriminate | ]. intros _.
    exists resp. repeat split; first [exact I | reflexivity].
  - discriminate.
Qed.

Lemma query_loop_valid (fuel : nat) (c : OBDCommand) :
  forall st w,
  valid_response st = false ->
  valid_response (fst (query_loop connection_query fuel c st w)) = true ->
  exists resp evs,
    cmd_response (fst (query_loop connection_query fuel c st w)) = Some resp /\
    is_invalid (value resp) = false /\
    snd (query_loop connection_query fuel c st w) =
      w ++ evs ++ [Queried c (Returns (Some resp))].
Proof.
  induction fuel as [ | fuel IH]; intros st w V F; cbn [query_loop] in *.
  - cbn [fst] in F. congruence.
  - destruct (negb (valid_response st) && (command_count st <? MAX_ATTEMPTS));
      [ | cbn [fst] in F; congruence].
    pose proof (query_attempt_valid_inv c st w) as Inv.
    destruct (query_attempt_events connection_query c st w) as (evs1 & E1 & _).
    destruct (query_attempt connection_query c st w) as [st1 w1].
    cbn [fst snd] in Inv, E1.
    destruct (valid_response st1) eqn:V1.
    + rewrite (query_loop_stops fuel c st1 w1 V1). cbn [fst snd].
      destruct (Inv eq_refl) as (resp & _ & I & C & W).
      exists resp, []. repeat split; assumption.
    + destruct (IH st1 w1 V1 F) as (resp & evs & C & I & W).
      exists resp, (Queried c (connection_query w c) :: evs1 ++ evs).
      repeat split; [exact C | exact I | ].
      rewrite W, E1. rewrite <- ?app_assoc. cbn [app].
      rewrite <- ?app_assoc. reflexivity.
Qed.

(** X8.  A response returned by [query_command] is validated: it is a
    response object, its value is neither None, the empty string, "?"
    nor "NO DATA", it
    is what the adapter answered to the last query of the call, nothing
    happens after that query, and no query of the call raised. *)
Theorem returned_response_is_valid (c : OBDCommand) (w w' : World)
    (r : option OBDResponse) :
  query_command connection_query c w = (Ok r, w') ->
  exists resp evs,
    r = Some resp /\
    is_invalid (value resp) = false /\
    w' = w ++ evs ++ [Queried c (Returns (Some resp))] /\
    ~ In (Queried c Raises) (evs ++ [Queried c (Returns (Some resp))]).
Proof.
  unfold query_command. intros H.
  pose proof (query_loop_valid (Z.to_nat MAX_ATTEMPTS) c query_init w eq_refl)
    as V.
  destruct (query_loop_events connection_query (Z.to_nat MAX_ATTEMPTS) c
              query_init w) as (evs0 & E0 & R0).
  destruct (query_loop connection_query (Z.to_nat MAX_ATTEMPTS) c query_init w)
    as [st w0].
  cbn [fst snd] in V, E0, R0.
  destruct (valid_response st) eqn:Vs; cbn [negb] in H; [ | discriminate H].
  injection H as <- <-.
  destruct (V eq_refl) as (resp & evs & C & I & W).
  exists resp, evs. repeat split; [exact C | exact I | exact W | ].
  intros N. rewrite W in E0. apply app_inv_head in E0. rewrite E0 in N.
  specialize (R0 N). discriminate R0.
Qed.

Lemma query_attempt_shape (c : OBDCommand) (st : query_state) (w : World) :
  exists st',
    command_count st' = command_count st + 1 /\
    query_attempt connection_query c st w =
      (st',
       if negb (valid_response st') && (command_count st + 1 <? MAX_ATTEMPTS)
       then retried w c (connection_query w c) (command_count st + 1)
       else w ++ [Queried c (connection_query w c)]).
Proof.
  exists (fst (query_attempt connection_query c st w)). split.
  - apply query_attempt_count.
  - unfold query_attempt, retried.
    destruct (connection_query w c) as [ | r]; cbn [fst valid_response];
      match goal with
      | |- context [if ?b then _ else _] => destruct b
      end; rewrite <- ?app_assoc; reflexivity.
Qed.

Lemma query_command_world (c : OBDCommand) (w : World) :
  snd (query_command connection_query c w) =
    snd (query_loop connection_query (Z.to_nat MAX_ATTEMPTS) c query_init w).
Proof.
  unfold query_command.
  destruct (query_loop connection_query (Z.to_nat MAX_ATTEMPTS) c query_init w)
    as [st w'].
  destruct (negb (valid_response st)); reflexivity.
Qed.

Lemma query_attempt_first (c : OBDCommand) (w : World) :
  let o := connection_query w c in
  query_attempt connection_query c query_init w =
    ({| command_count := 1;
        cmd_response := match o with Returns r => r | Raises => None end;
        exception := raised o;
        valid_response := accepted o |},
     if accepted o then w ++ [Queried c o] else retried w c o 1).
Proof.
  intros o. unfold query_attempt, retried. change (connection_query w c) with o.
  clearbody o. change (command_count query_init + 1) with 1.
  change (1 <? MAX_ATTEMPTS) with true.
  destruct o as [ | [r | ]];
    cbn [accepted raised query_init exception cmd_response orb negb andb];
    rewrite <- ?app_assoc; try reflexivity.
  rewrite orb_false_r.
  destruct (is_invalid (value r)); cbn [negb andb];
    rewrite <- ?app_assoc; reflexivity.
Qed.

Lemma query_attempt_second (c : OBDCommand) (w : World)
    (resp : option OBDResponse) (exc : bool) :
  let o := connection_query w c in
  query_attempt connection_query c
    {| command_count := 1; cmd_response := resp; exception := exc;
       valid_response := false |} w =
    ({| command_count := 2;
        cmd_response := match o with Returns r => r | Raises => resp end;
        exception := raised o || exc;
        valid_response := negb exc && accepted o |},
     if negb exc && accepted o then w ++ [Queried c o] else retried w c o 2).
Proof.
  intros o. unfold query_attempt, retried. change (connection_query w c) with o.
  clearbody o. cbn [command_count exception cmd_response].
  change (1 + 1) with 2. change (2 <? MAX_ATTEMPTS) with true.
  destruct o as [ | [r | ]]; cbn [accepted raised orb].
  - rewrite orb_true_r, andb_false_r. cbn [negb andb].
    rewrite <- app_assoc. reflexivity.
  - destruct exc, (is_invalid (value r)); cbn [negb orb andb];
      rewrite <- ?app_assoc; reflexivity.
  - rewrite andb_false_r. cbn [negb orb andb].
    rewrite <- app_assoc. reflexivity.
Qed.

(** X9.  Bounded retry with linear back-off, whatever the adapter does
    (exceptions included): one call of [query_command] leaves exactly one
    of three traces.  It ends right after its first query when the first
    answer is accepted; else it warns, sleeps 1 second, queries again and
    ends right after this second query when no exception was raised and
    the second answer is accepted; else it warns, sleeps 2 seconds,
    queries a third time and ends right after this third query.  So it
    sends its command once, twice or three times and nothing else, each
    sleep comes just before the next query, and nothing follows the last
    query. *)
Theorem query_attempts_and_backoff (c : OBDCommand) (w : World) :
  let o1 := connection_query w c in
  let w1 := retried w c o1 1 in
  let o2 := connection_query w1 c in
  let w2 := retried w1 c o2 2 in
  let o3 := connection_query w2 c in
  snd (query_command connection_query c w) =
    if accepted o1 then w ++ [Queried c o1]
    else if negb (raised o1) && accepted o2 then w1 ++ [Queried c o2]
    else w2 ++ [Queried c o3].
Proof.
  intros o1 w1 o2 w2 o3.
  rewrite query_command_world. change (Z.to_nat MAX_ATTEMPTS) with 3%nat.
  cbn [query_loop].
  change (negb (valid_response query_init) &&
          (command_count query_init <? MAX_ATTEMPTS)) with true. cbv iota.
  rewrite (query_attempt_first c w). cbv zeta. fold o1.
  cbn [valid_response command_count].
  destruct (accepted o1) eqn:V1; cbn [negb andb]; [reflexivity | ].
  change (1 <? MAX_ATTEMPTS) with true. cbv iota. fold w1.
  rewrite (query_attempt_second c w1). cbv zeta. fold o2.
  cbn [valid_response command_count].
  destruct (negb (raised o1) && accepted o2) eqn:V2; cbn [negb andb];
    [reflexivity | ].
  change (2 <? MAX_ATTEMPTS) with true. cbv iota. fold w2.
  match goal with
  | |- context [query_attempt connection_query c ?st w2] =>
      destruct (query_attempt_shape c st w2) as (st3 & _ & ->)
  end.
  cbn [command_count]. change (2 + 1 <? MAX_ATTEMPTS) with false.
  rewrite andb_false_r. reflexivity.
Qed.

End QueryPolicy.

Lemma retry_policy_without_exception_witness :
  invalid_return (slow_adapter [] cmd_bms_2101) /\
  invalid_return
    (slow_adapter (retried [] cmd_bms_2101 (slow_adapter [] cmd_bms_2101) 1)
                  cmd_bms_2101) /\
  fst (query_command slow_adapter cmd_bms_2101 []) = Ok (Some ok_response) /\
  sleeps (snd (query_command slow_adapter cmd_bms_2101 [])) = [1; 2].
Proof.
  assert (I1 : invalid_return (slow_adapter [] cmd_bms_2101))
    by (right; exists no_data_response; split; reflexivity).
  assert (I2 : invalid_return
                 (slow_adapter
                    (retried [] cmd_bms_2101 (slow_adapter [] cmd_bms_2101) 1)
                    cmd_bms_2101))
    by (left; reflexivity).
  split; [exact I1 | split; [exact I2 | ]].
  destruct (retry_policy_without_exception slow_adapter cmd_bms_2101 [])
    as [_ P].
  destruct (P I1) as [_ P2]. destruct (P2 I2) as [P3 _].
  rewrite (P3 ok_response (conj eq_refl eq_refl)). split; reflexivity.
Defined.

Lemma returned_response_is_valid_witness :
  query_command slow_adapter cmd_bms_2101 [] =
    (Ok (Some ok_response),
     snd (query_command slow_adapter cmd_bms_2101 [])) /\
  exists resp evs,
    Some ok_response = Some resp /\
    is_invalid (value resp) = false /\
    snd (query_command slow_adapter cmd_bms_2101 []) =
      [] ++ evs ++ [Queried cmd_bms_2101 (Returns (Some resp))] /\
    ~ In (Queried cmd_bms_2101 Raises)
         (evs ++ [Queried cmd_bms_2101 (Returns (Some resp))]).
Proof.
  assert (H : query_command slow_adapter cmd_bms_2101 [] =
              (Ok (Some ok_response),
               snd (query_command slow_adapter cmd_bms_2101 [])))
    by reflexivity.
  split; [exact H | ].
  exact (returned_response_is_valid slow_adapter cmd_bms_2101 [] _ _ H).
Defined.

(** ** Connecting *)

Section Connect.

Variable obd_open : World -> OBDStatus.

Lemma connect_attempt_connected (st : connect_state) (w : World) :
  obd_open w = CAR_CONNECTED ->
  connect_attempt obd_open st w =
    ({| connection_count := connection_count st + 1;
        obd_connection := Some CAR_CONNECTED |},
     w ++ [Opened CAR_CONNECTED]).
Proof.
  intros O. unfold connect_attempt. rewrite O. reflexivity.
Qed.

Lemma connect_attempt_failed (st : connect_state) (w : World) :
  obd_open w <> CAR_CONNECTED ->
  connect_attempt obd_open st w =
    ({| connection_count := connection_count st + 1;
        obd_connection := Some (obd_open w) |},
     if connection_count st + 1 <? MAX_ATTEMPTS
     then reconnecting w (obd_open w) (connection_count st + 1)
     else w ++ [Opened (obd_open w)]) /\
  car_connected (Some (obd_open w)) = false.
Proof.
  intros O. unfold connect_attempt, reconnecting, car_connected.
  assert (E : status_eqb (obd_open w) CAR_CONNECTED = false)
    by (destruct (obd_open w); [reflexivity .. | congruence]).
  rewrite E. cbn [negb andb]. split; [ | reflexivity].
  destruct (_ <? _); rewrite <- ?app_assoc; reflexivity.
Qed.

(** X10.  [obd_connect] opens the port up to three times and succeeds at
    the first attempt whose connection reports CAR_CONNECTED, whatever
    the earlier attempts reported; it warns and sleeps 1 second after a
    first failure and 2 seconds after a second one, and after a third
    failure it raises ConnectionError without sleeping again. *)
Theorem connect_policy (w : World) :
  let run := obd_connect obd_open w in
  let s1 := obd_open w in
  let w1 := reconnecting w s1 1 in
  let s2 := obd_open w1 in
  let w2 := reconnecting w1 s2 2 in
  let s3 := obd_open w2 in
  (s1 = CAR_CONNECTED -> run = (Ok tt, w ++ [Opened CAR_CONNECTED])) /\
  (s1 <> CAR_CONNECTED ->
   (s2 = CAR_CONNECTED -> run = (Ok tt, w1 ++ [Opened CAR_CONNECTED])) /\
   (s2 <> CAR_CONNECTED ->
    (s3 = CAR_CONNECTED -> run = (Ok tt, w2 ++ [Opened CAR_CONNECTED])) /\
    (s3 <> CAR_CONNECTED ->
     run = (Raise ConnectionError, w2 ++ [Opened s3])))).
Proof.
  intros run s1 w1 s2 w2 s3. unfold run, obd_connect.
  change (Z.to_nat MAX_ATTEMPTS) with 3%nat. cbn [connect_loop].
  cbn [car_connected obd_connection connection_count negb andb].
  change (0 <? MAX_ATTEMPTS) with true. cbv iota.
  split.
  { intros O. rewrite (connect_attempt_connected _ w O). reflexivity. }
  intros F1. destruct (connect_attempt_failed
                         {| connection_count := 0; obd_connection := None |}
                         w F1) as [-> C1].
  cbn [connection_count obd_connection]. fold s1. fold s1 in C1.
  rewrite C1. change (0 + 1) with 1. change (1 <? MAX_ATTEMPTS) with true.
  cbn [negb andb]. cbv iota. fold w1.
  split.
  { intros O. rewrite (connect_attempt_connected _ w1 O). reflexivity. }
  intros F2. destruct (connect_attempt_failed
                         {| connection_count := 1; obd_connection := Some s1 |}
                         w1 F2) as [-> C2].
  cbn [connection_count obd_connection]. fold s2. fold s2 in C2.
  rewrite C2. change (1 + 1) with 2. change (2 <? MAX_ATTEMPTS) with true.
  cbn [negb andb]. cbv iota. fold w2.
  split.
  { intros O. rewrite (connect_attempt_connected _ w2 O). reflexivity. }
  intros F3. destruct (connect_attempt_failed
                         {| connection_count := 2; obd_connection := Some s2 |}
                         w2 F3) as [-> C3].
  cbn [connection_count obd_connection]. fold s3. fold s3 in C3.
  rewrite C3. reflexivity.
Qed.

End Connect.

Lemma connect_policy_witness :
  late_port [] <> CAR_CONNECTED /\
  late_port (reconnecting [] (late_port []) 1) <> CAR_CONNECTED /\
  late_port (reconnecting (reconnecting [] (late_port []) 1)
                          (late_port (reconnecting [] (late_port []) 1)) 2) =
    CAR_CONNECTED /\
  fst (obd_connect late_port []) = Ok tt /\
  sleeps (snd (obd_connect late_port [])) = [1; 2].
Proof.
  assert (F1 : late_port [] <> CAR_CONNECTED) by discriminate.
  assert (F2 : late_port (reconnecting [] (late_port []) 1) <> CAR_CONNECTED)
    by discriminate.
  assert (O3 : late_port
                 (reconnecting (reconnecting [] (late_port []) 1)
                    (late_port (reconnecting [] (late_port []) 1)) 2) =
               CAR_CONNECTED) by reflexivity.
  split; [exact F1 | split; [exact F2 | split; [exact O3 | ]]].
  destruct (connect_policy late_port []) as [_ P].
  destruct (P F1) as [_ P2]. destruct (P2 F2) as [P3 _].
  rewrite (P3 O3). split; reflexivity.
Defined.

(** ** The decoders, continued *)

Lemma string_of_list_ascii_length (l : list ascii) :
  String.length (string_of_list_ascii l) = List.length l.
Proof.
  induction l as [ | a l IH]; cbn; [reflexivity | now rewrite IH].
Qed.

Lemma string_of_list_ascii_get (l : list ascii) :
  forall i, String.get i (string_of_list_ascii l) = nth_error l i.
Proof.
  induction l as [ | a l IH]; intros [ | i]; cbn; try reflexivity. apply IH.
Qed.

Lemma slice_one {A} (v : list A) (i : nat) :
  Py.slice v (Z.of_nat i) (Z.of_nat i + 1) =
    match nth_error v i with Some a => [a] | None => [] end.
Proof.
  unfold Py.slice, Py.clamp, Py.len.
  destruct (Z.ltb_spec (Z.of_nat i) 0) as [N | _]; [lia | ].
  destruct (Z.ltb_spec (Z.of_nat i + 1) 0) as [N | _]; [lia | ].
  destruct (nth_error v i) as [a | ] eqn:E.
  - assert (L : (i < List.length v)%nat) by (apply nth_error_Some; congruence).
    rewrite !Z.min_l by lia.
    replace (Z.to_nat (Z.of_nat i + 1 - Z.of_nat i)) with 1%nat by lia.
    rewrite Nat2Z.id. clear L. revert v E.
    induction i as [ | i IH]; intros [ | x v] E; try discriminate.
    + injection E as ->. reflexivity.
    + exact (IH v E).
  - assert (L : (List.length v <= i)%nat) by (apply nth_error_None; exact E).
    rewrite (Z.min_r (Z.of_nat i)) by lia.
    rewrite (Z.min_r (Z.of_nat i + 1)) by lia.
    rewrite Z.sub_diag. reflexivity.
Qed.

Lemma bytes_to_int_one (b : Z) : bytes_to_int [b] = b.
Proof.
  unfold bytes_to_int. cbn [rev app bytes_to_int_from].
  change (2 ^ 0) with 1. lia.
Qed.

(** X11.  [extract_vin] never fails on a byte payload, however short: it
    returns exactly 17 characters, the one at position i having the code
    of the byte at offset 16 + i, and the code 0 where the payload has no
    such byte. *)
Theorem vin_has_seventeen_characters (r : OBDResponse) (v : list Z) :
  value r = VBytes v ->
  exists vin,
    extract_vin (Some r) = Ok vin /\
    String.length vin = 17%nat /\
    forall i, (i < 17)%nat ->
      String.get i vin =
        Some (ascii_of_nat
                (Z.to_nat (match nth_error v (16 + i) with
                           | Some b => b
                           | None => 0
                           end))).
Proof.
  intros V. unfold extract_vin, value_of. rewrite V. cbn [rbind].
  eexists. split; [reflexivity | ]. split.
  - rewrite string_of_list_ascii_length, !length_map, length_seq. reflexivity.
  - intros i Hi. rewrite string_of_list_ascii_get, map_map.
    rewrite nth_error_map, nth_error_seq.
    destruct (Nat.ltb_spec i 17) as [_ | N]; [ | lia]. cbn [option_map].
    rewrite (slice_one v (16 + i)).
    destruct (nth_error v (16 + i)) as [b | ]; [ | reflexivity].
    rewrite bytes_to_int_one. reflexivity.
Qed.

Lemma vin_has_seventeen_characters_witness :
  value (mkResponse (VBytes (repeat 0 16 ++ [75; 77; 72]))) =
    VBytes (repeat 0 16 ++ [75; 77; 72]) /\
  exists vin,
    extract_vin (Some (mkResponse (VBytes (repeat 0 16 ++ [75; 77; 72])))) =
      Ok vin /\
    String.length vin = 17%nat /\
    String.get 1 vin = Some "M"%char /\ String.get 3 vin = Some zero.
Proof.
  split; [reflexivity | ].
  destruct (vin_has_seventeen_characters
              (mkResponse (VBytes (repeat 0 16 ++ [75; 77; 72])))
              (repeat 0 16 ++ [75; 77; 72]) eq_refl) as (vin & E & L & G).
  exists vin. split; [exact E | split; [exact L | split]].
  - exact (G 1%nat ltac:(lia)).
  - exact (G 3%nat ltac:(lia)).
Defined.

Lemma bit_set_low (b m : Z) :
  Z.land 31 m = m -> bit_set (Z.land b 31) m = bit_set b m.
Proof.
  intros M. unfold bit_set. rewrite <- Z.land_assoc, M. reflexivity.
Qed.

(** X12.  [extract_gear] reads the byte at offset 7 only: it raises
    IndexError exactly when the payload has fewer than 8 bytes, and two
    payloads whose bytes at offset 7 agree on their five low bits give
    the same letters, whatever the three high bits and the other bytes
    are. *)
Theorem gear_reads_five_bits (r r' : OBDResponse) (v v' : list Z) :
  value r = VBytes v ->
  value r' = VBytes v' ->
  (extract_gear (Some r) = Raise IndexError <-> (List.length v < 8)%nat) /\
  (forall b b',
     nth_error v 7 = Some b -> nth_error v' 7 = Some b' ->
     Z.land b 31 = Z.land b' 31 ->
     extract_gear (Some r) = extract_gear (Some r')).
Proof.
  intros V V'. unfold extract_gear, value_of. rewrite V, V'. cbn [rbind].
  unfold Py.index. split.
  - destruct (nth_error v 7) as [b | ] eqn:E; cbn [rbind].
    + assert (L : (7 < List.length v)%nat) by (apply nth_error_Some; congruence).
      split; [discriminate | lia].
    + apply nth_error_None in E. split; [lia | reflexivity].
  - intros b b' E E' L. rewrite E, E'. cbn [rbind].
    rewrite <- (bit_set_low b 1), <- (bit_set_low b 2), <- (bit_set_low b 4),
      <- (bit_set_low b 8), <- (bit_set_low b 16) by reflexivity.
    rewrite L.
    rewrite !bit_set_low by reflexivity. reflexivity.
Qed.

Lemma gear_reads_five_bits_witness :
  nth_error [0; 0; 0; 0; 0; 0; 0; 9] 7 = Some 9 /\
  nth_error [1; 2; 3; 4; 5; 6; 7; 233; 8] 7 = Some 233 /\
  Z.land 9 31 = Z.land 233 31 /\
  extract_gear (Some (mkResponse (VBytes [0; 0; 0; 0; 0; 0; 0; 9]))) =
    extract_gear (Some (mkResponse (VBytes [1; 2; 3; 4; 5; 6; 7; 233; 8]))).
Proof.
  repeat (split; [reflexivity | ]).
  exact (proj2 (gear_reads_five_bits
                  (mkResponse (VBytes [0; 0; 0; 0; 0; 0; 0; 9]))
                  (mkResponse (VBytes [1; 2; 3; 4; 5; 6; 7; 233; 8]))
                  _ _ eq_refl eq_refl) 9 233 eq_refl eq_refl eq_refl).
Defined.

Lemma index_ok {A} (v : list A) (i : nat) (a : A) :
  (i < List.length v)%nat -> Py.index v i = Ok (nth i v a).
Proof.
  intros L. unfold Py.index.
  rewrite (nth_error_nth' v a L). reflexivity.
Qed.

Lemma index_ok_inv {A} (v : list A) (i : nat) (a : A) :
  Py.index v i = Ok a -> (i < List.length v)%nat.
Proof.
  unfold Py.index. destruct (nth_error v i) eqn:E; [ | discriminate].
  intros _. apply nth_error_Some. congruence.
Qed.

Lemma index_cases {A} (v : list A) (i : nat) :
  (exists a, Py.index v i = Ok a) \/ Py.index v i = Raise IndexError.
Proof.
  unfold Py.index. destruct (nth_error v i) as [a | ];
    [left; exists a; reflexivity | right; reflexivity].
Qed.

Lemma collect_index_only {A} (rs : list (result A)) :
  Forall index_only rs -> index_only (collect rs).
Proof.
  induction 1 as [ | r rs [[a ->] | ->] _ IH]; cbn [collect rbind].
  - left. exists []. reflexivity.
  - destruct IH as [[l ->] | ->]; cbn [rbind];
      [left; eexists; reflexivity | right; reflexivity].
  - right. reflexivity.
Qed.

Lemma collect_items_index_only (l : list (string * result pyval)) :
  Forall (fun kr => index_only (snd kr)) l -> index_only (collect_items l).
Proof.
  induction 1 as [ | [k r] l H _ IH]; cbn [collect_items].
  - left. exists []. reflexivity.
  - cbn [snd] in H. destruct H as [[a ->] | ->]; cbn [rbind];
      [ | right; reflexivity].
    destruct IH as [[l' ->] | ->]; cbn [rbind];
      [left; eexists; reflexivity | right; reflexivity].
Qed.

Lemma collect_in_ok {A} (rs : list (result A)) (l : list A) (r : result A) :
  collect rs = Ok l -> In r rs -> exists a, r = Ok a.
Proof.
  revert l. induction rs as [ | r0 rs IH]; intros l H I; [destruct I | ].
  cbn [collect] in H. destruct r0 as [a0 | ]; cbn [rbind] in H;
    [ | discriminate H].
  destruct (collect rs) as [l' | ] eqn:E; cbn [rbind] in H; [ | discriminate H].
  destruct I as [<- | I]; [exists a0; reflexivity | exact (IH l' eq_refl I)].
Qed.

Lemma collect_items_in_ok (l : list (string * result pyval))
    (items : list (string * pyval)) (k : string) (r : result pyval) :
  collect_items l = Ok items -> In (k, r) l -> exists v, r = Ok v.
Proof.
  revert items. induction l as [ | [k0 r0] l IH]; intros items H I;
    [destruct I | ].
  cbn [collect_items] in H. destruct r0 as [v0 | ]; cbn [rbind] in H;
    [ | discriminate H].
  destruct (collect_items l) as [l' | ] eqn:E; cbn [rbind] in H;
    [ | discriminate H].
  destruct I as [[= <- <-] | I]; [exists v0; reflexivity | exact (IH l' eq_refl I)].
Qed.

Lemma collect_length {A} (rs : list (result A)) :
  forall l, collect rs = Ok l -> List.length l = List.length rs.
Proof.
  induction rs as [ | r rs IH]; intros l H; cbn [collect] in H.
  - injection H as <-. reflexivity.
  - destruct r; cbn [rbind] in H; [ | discriminate H].
    destruct (collect rs) as [l' | ]; cbn [rbind] in H; [ | discriminate H].
    injection H as <-. cbn [List.length]. rewrite (IH l' eq_refl). reflexivity.
Qed.

Lemma rbind_index_only {A B} (r : result A) (k : A -> result B) :
  index_only r -> (forall a, index_only (k a)) -> index_only (rbind r k).
Proof.
  intros [[a ->] | ->] K; cbn [rbind]; [apply K | right; reflexivity].
Qed.

Lemma ok_index_only {A} (a : A) : index_only (Ok a).
Proof. left. exists a. reflexivity. Qed.

Lemma index_index_only {A} (v : list A) (i : nat) : index_only (Py.index v i).
Proof. exact (index_cases v i). Qed.

Lemma battery_items_index_only (timestamp : Z) (v1 v5 : list Z)
    (chargingBits : Z) (soh i v : Q) (cellTemps : list Z) :
  Forall (fun kr => index_only (snd kr))
         (battery_items timestamp v1 v5 chargingBits soh i v cellTemps).
Proof.
  unfold battery_items, item_int, item_float.
  repeat (constructor; [cbn [snd]; (repeat first
    [ apply ok_index_only
    | apply index_index_only
    | apply rbind_index_only; [ | intro ]
    | apply collect_items_index_only
    | apply collect_index_only ]) | ]). constructor.
Qed.

Lemma cell_voltages_index_only (cmds : list (option OBDResponse)) :
  Forall (fun c => exists v, value_of c = Ok v) cmds ->
  Forall index_only
    (flat_map
       (fun cmd =>
          map (fun byte =>
                 let? v := value_of cmd in
                 let? b := Py.index v byte in
                 Ok (truediv (of_int b) 50))
              (seq 6 32))
       cmds).
Proof.
  induction 1 as [ | c cmds [v V] _ IH]; cbn [flat_map]; [constructor | ].
  apply Forall_app. split; [ | exact IH].
  apply Forall_map, Forall_forall. intros byte _. rewrite V. cbn [rbind].
  (repeat first
    [ apply ok_index_only
    | apply index_index_only
    | apply rbind_index_only; [ | intro ]
    | apply collect_items_index_only
    | apply collect_index_only ]).
Qed.

Lemma battery_information_index_only (timestamp : Z) (v1 v2 v3 v4 v5 : list Z) :
  Qle_bool (truediv (of_int (bytes_to_int (Py.slice v5 27 29))) 10) 100 = true ->
  index_only
    (battery_information timestamp (bytes_response v1) (bytes_response v2)
       (bytes_response v3) (bytes_response v4) (bytes_response v5)).
Proof.
  intros S. unfold battery_information, bytes_response, value_of at 1 2.
  cbn [value rbind]. rewrite S.
  apply rbind_index_only; [apply index_index_only | intros chargingBits].
  apply rbind_index_only.
  { apply collect_index_only, cell_voltages_index_only.
    repeat constructor; eexists; reflexivity. }
  intros cellVoltages.
  apply rbind_index_only.
  { apply collect_items_index_only, battery_items_index_only. }
  intros items. apply ok_index_only.
Qed.

Lemma battery_information_sizes (timestamp : Z) (v1 v2 v3 v4 v5 : list Z)
    (d : dict) :
  battery_information timestamp (bytes_response v1) (bytes_response v2)
    (bytes_response v3) (bytes_response v4) (bytes_response v5) = Ok d ->
  battery_sizes_ok v1 v2 v3 v4 v5.
Proof.
  unfold battery_information, bytes_response, value_of at 1 2.
  cbn [value rbind]. intros H.
  destruct (Qle_bool _ 100); [ | discriminate H].
  destruct (Py.index v1 11) as [chargingBits | ]; [ | discriminate H].
  cbn [rbind] in H.
  match type of H with
  | context [collect ?rs] =>
      destruct (collect rs) as [cellVoltages | ] eqn:Volts; [ | discriminate H]
  end.
  cbn [rbind] in H.
  match type of H with
  | context [collect_items ?l] =>
      destruct (collect_items l) as [items | ] eqn:Items; [ | discriminate H]
  end.
  clear H.
  assert (V : forall cmd v,
            In cmd [bytes_response v2; bytes_response v3; bytes_response v4] ->
            cmd = bytes_response v -> (38 <= List.length v)%nat).
  { intros cmd v I ->.
    destruct (collect_in_ok _ cellVoltages
                (let? v0 := value_of (bytes_response v) in
                 let? b := Py.index v0 37 in Ok (truediv (of_int b) 50))
                Volts) as [q Hq].
    - apply in_flat_map. exists (bytes_response v). split; [exact I | ].
      apply (in_map (fun byte =>
                       let? v0 := value_of (bytes_response v) in
                       let? b := Py.index v0 byte in
                       Ok (truediv (of_int b) 50)) (seq 6 32) 37%nat).
      apply in_seq. lia.
    - unfold bytes_response, value_of in Hq. cbn [value rbind] in Hq.
      destruct (Py.index v 37) as [b | ] eqn:E; [ | discriminate Hq].
      apply index_ok_inv in E. lia. }
  assert (E1 : (52 < List.length v1)%nat).
  { pose proof (fun r => collect_items_in_ok _ items "bmsIgnition" r Items) as P.
    edestruct P as [x Hx];
      [ unfold battery_items, item_int, item_float;
        repeat first [left; reflexivity | right]
      | ].
    destruct (Py.index v1 52) eqn:E; [ | discriminate Hx].
    exact (index_ok_inv _ _ _ E). }
  assert (E5 : (33 < List.length v5)%nat).
  { pose proof (fun r => collect_items_in_ok _ items "socDisplay" r Items) as P.
    edestruct P as [x Hx];
      [ unfold battery_items, item_int, item_float;
        repeat first [left; reflexivity | right]
      | ].
    destruct (Py.index v5 33) eqn:E; [ | discriminate Hx].
    exact (index_ok_inv _ _ _ E). }
  repeat split; try lia.
  - apply (V (bytes_response v2) v2); [cbn; tauto | reflexivity].
  - apply (V (bytes_response v3) v3); [cbn; tauto | reflexivity].
  - apply (V (bytes_response v4) v4); [cbn; tauto | reflexivity].
Qed.

Lemma collect_all_ok {A} (rs : list (result A)) :
  Forall (fun r => exists a, r = Ok a) rs -> exists l, collect rs = Ok l.
Proof.
  induction 1 as [ | r rs [a ->] _ [l IH]]; cbn [collect rbind].
  - exists []. reflexivity.
  - rewrite IH. cbn [rbind]. eexists. reflexivity.
Qed.

Lemma collect_items_all_ok (l : list (string * result pyval)) :
  Forall (fun kr => exists v, snd kr = Ok v) l ->
  exists items, collect_items l = Ok items.
Proof.
  induction 1 as [ | [k r] l [v H] _ [items IH]]; cbn [collect_items].
  - exists []. reflexivity.
  - cbn [snd] in H. rewrite H, IH. cbn [rbind]. eexists. reflexivity.
Qed.

Lemma battery_information_succeeds (timestamp : Z) (v1 v2 v3 v4 v5 : list Z) :
  Qle_bool (truediv (of_int (bytes_to_int (Py.slice v5 27 29))) 10) 100 = true ->
  battery_sizes_ok v1 v2 v3 v4 v5 ->
  exists d,
    battery_information timestamp (bytes_response v1) (bytes_response v2)
      (bytes_response v3) (bytes_response v4) (bytes_response v5) = Ok d.
Proof.
  intros S (L1 & L2 & L3 & L4 & L5).
  unfold battery_information, bytes_response, value_of at 1 2.
  cbn [value rbind]. rewrite S.
  rewrite (index_ok v1 11 0) by lia. cbn [rbind].
  match goal with
  | |- context [collect ?rs] =>
      destruct (collect_all_ok rs) as [cellVoltages ->]
  end.
  { cbn [flat_map].
    repeat (apply Forall_app; split);
      first
        [ apply Forall_nil
        | apply Forall_map, Forall_forall; intros byte B; apply in_seq in B;
          unfold value_of; cbn [value rbind];
          match goal with
          | |- context [Py.index ?v byte] =>
              rewrite (index_ok v byte 0) by lia
          end; cbn [rbind]; eexists; reflexivity ]. }
  cbn [rbind].
  match goal with
  | |- context [collect_items ?l] =>
      destruct (collect_items_all_ok l) as [items ->]
  end.
  { unfold battery_items, item_int, item_float.
    repeat (constructor;
            [ cbn [snd];
              repeat match goal with
                     | |- context [Py.index ?v ?i] =>
                         rewrite (index_ok v i 0) by lia
                     end;
              cbn [rbind]; eexists; reflexivity
            | ]).
    constructor. }
  cbn [rbind]. eexists. reflexivity.
Qed.

(** X13.  With a state of health of at most 100, the battery decoder
    returns a record exactly when the payloads are long enough for every
    byte it indexes: 53 bytes of 2101, 38 bytes of 2102, 2103 and 2104,
    and 34 bytes of 2105; with a shorter payload it raises IndexError. *)
Theorem battery_needs_full_payloads (timestamp : Z)
    (v1 v2 v3 v4 v5 : list Z) :
  Qle_bool (truediv (of_int (bytes_to_int (Py.slice v5 27 29))) 10) 100 = true ->
  let decoded :=
    battery_information timestamp (bytes_response v1) (bytes_response v2)
      (bytes_response v3) (bytes_response v4) (bytes_response v5) in
  ((exists d, decoded = Ok d) <-> battery_sizes_ok v1 v2 v3 v4 v5) /\
  (~ battery_sizes_ok v1 v2 v3 v4 v5 -> decoded = Raise IndexError).
Proof.
  intros S decoded.
  assert (Iff : (exists d, decoded = Ok d) <-> battery_sizes_ok v1 v2 v3 v4 v5).
  { split.
    - intros [d H]. exact (battery_information_sizes _ _ _ _ _ _ d H).
    - exact (battery_information_succeeds timestamp v1 v2 v3 v4 v5 S). }
  split; [exact Iff | ].
  intros N.
  destruct (battery_information_index_only timestamp v1 v2 v3 v4 v5 S)
    as [H | H]; [ | exact H].
  exfalso. apply N, Iff. exact H.
Qed.

Lemma battery_needs_full_payloads_witness :
  Qle_bool (truediv (of_int (bytes_to_int (Py.slice [127; 33; 18] 27 29))) 10)
           100 = true /\
  ~ battery_sizes_ok [127; 33; 18] [127; 33; 18] [127; 33; 18] [127; 33; 18]
                     [127; 33; 18] /\
  battery_information 0 (bytes_response [127; 33; 18])
    (bytes_response [127; 33; 18]) (bytes_response [127; 33; 18])
    (bytes_response [127; 33; 18]) (bytes_response [127; 33; 18]) =
    Raise IndexError.
Proof.
  assert (S : Qle_bool
                (truediv (of_int (bytes_to_int (Py.slice [127; 33; 18] 27 29)))
                         10) 100 = true) by reflexivity.
  assert (N : ~ battery_sizes_ok [127; 33; 18] [127; 33; 18] [127; 33; 18]
                                 [127; 33; 18] [127; 33; 18])
    by (intros [L _]; cbn in L; lia).
  split; [exact S | split; [exact N | ]].
  exact (proj2 (battery_needs_full_payloads 0 _ _ _ _ _ S) N).
Defined.

Lemma keys_dict_set (d : dict) (k : string) (v : pyval) :
  map fst (dict_set d k v) = keys_add (map fst d) k.
Proof.
  unfold keys_add. induction d as [ | [k0 v0] d IH]; cbn [dict_set map fst existsb].
  - reflexivity.
  - rewrite (String.eqb_sym k k0).
    destruct (String.eqb_spec k0 k) as [-> | N]; cbn [orb map fst].
    + reflexivity.
    + rewrite IH. destruct (existsb (String.eqb k) (map fst d)); reflexivity.
Qed.

Lemma keys_dict_update (items : list (string * pyval)) :
  forall d,
  map fst (dict_update d items) = fold_left keys_add (map fst items) (map fst d).
Proof.
  unfold dict_update.
  induction items as [ | [k v] items IH]; intros d; cbn [fold_left map fst snd].
  - reflexivity.
  - rewrite IH, keys_dict_set. reflexivity.
Qed.

Lemma keys_set_numbered (xs : list Q) :
  forall d prefix i,
  map fst (set_numbered d prefix i xs) =
    keys_numbered (map fst d) prefix i (List.length xs).
Proof.
  induction xs as [ | x xs IH]; intros d prefix i;
    cbn [set_numbered keys_numbered List.length].
  - reflexivity.
  - rewrite IH, keys_dict_set. reflexivity.
Qed.

Lemma battery_information_keys (timestamp : Z)
    (raw_2101 raw_2102 raw_2103 raw_2104 raw_2105 : option OBDResponse)
    (d : dict) :
  battery_information timestamp raw_2101 raw_2102 raw_2103 raw_2104 raw_2105
    = Ok d ->
  map fst d = battery_keys.
Proof.
  unfold battery_information. intros H.
  destruct (value_of raw_2105) as [v5 | ]; [ | discriminate H].
  cbn [rbind] in H.
  destruct (Qle_bool _ 100); [ | discriminate H].
  destruct (value_of raw_2101) as [v1 | ]; [ | discriminate H].
  cbn [rbind] in H.
  destruct (Py.index v1 11) as [chargingBits | ]; [ | discriminate H].
  cbn [rbind] in H.
  match type of H with
  | context [collect ?rs] =>
      destruct (collect rs) as [cellVoltages | ] eqn:Volts; [ | discriminate H]
  end.
  cbn [rbind] in H.
  match type of H with
  | context [collect_items ?l] =>
      destruct (collect_items l) as [items | ] eqn:Items; [ | discriminate H]
  end.
  cbn [rbind] in H.
  apply collect_length in Volts.
  rewrite length_flat_map in Volts. cbn in Volts.
  apply collect_items_ok in Items. destruct Items as [Keys _].
  injection H as <-.
  rewrite keys_set_numbered, ?keys_dict_set, keys_dict_update, Keys, Volts.
  reflexivity.
Qed.

(** X14.  Every record the battery decoder returns has the same 141
    fields, all different, in the same order: the 33 fields of the
    literal from "timestamp" to "driveMotorSpeed", then
    "dcBatteryModuleTemp01" to "dcBatteryModuleTemp12", then
    "dcBatteryCellVoltage01" to "dcBatteryCellVoltage96". *)
Theorem battery_record_fields (timestamp : Z)
    (raw_2101 raw_2102 raw_2103 raw_2104 raw_2105 : option OBDResponse)
    (d : dict) :
  battery_information timestamp raw_2101 raw_2102 raw_2103 raw_2104 raw_2105
    = Ok d ->
  map fst d = battery_keys /\
  List.length d = 141%nat /\
  NoDup (map fst d) /\
  nth_error (map fst d) 0 = Some "timestamp"%string /\
  nth_error (map fst d) 32 = Some "driveMotorSpeed"%string /\
  nth_error (map fst d) 33 = Some "dcBatteryModuleTemp01"%string /\
  nth_error (map fst d) 44 = Some "dcBatteryModuleTemp12"%string /\
  nth_error (map fst d) 45 = Some "dcBatteryCellVoltage01"%string /\
  nth_error (map fst d) 140 = Some "dcBatteryCellVoltage96"%string.
Proof.
  intros H.
  assert (K : map fst d = battery_keys)
    by exact (battery_information_keys _ _ _ _ _ _ d H).
  rewrite <- (length_map fst d), K.
  split; [reflexivity | split; [reflexivity | split]].
  - apply distinct_NoDup. vm_compute. reflexivity.
  - repeat split; vm_compute; reflexivity.
Qed.

Lemma battery_record_fields_witness :
  battery_information 0 (bytes_response (repeat 0 64))
    (bytes_response (repeat 0 64)) (bytes_response (repeat 0 64))
    (bytes_response (repeat 0 64)) (bytes_response (repeat 0 64)) =
    Ok zero_record /\
  map fst zero_record = battery_keys /\
  List.length zero_record = 141%nat.
Proof.
  assert (H : battery_information 0 (bytes_response (repeat 0 64))
                (bytes_response (repeat 0 64)) (bytes_response (repeat 0 64))
                (bytes_response (repeat 0 64)) (bytes_response (repeat 0 64)) =
              Ok zero_record) by (vm_compute; reflexivity).
  split; [exact H | ].
  destruct (battery_record_fields 0 _ _ _ _ _ zero_record H) as (K & L & _).
  split; [exact K | exact L].
Defined.

(** ** What the groups do and raise *)

Lemma behaves_weaken {A} (m : M A) (Q Q' : A -> Prop) (E E' : exn -> Prop) :
  behaves m Q E ->
  (forall a, Q a -> Q' a) -> (forall e, E e -> E' e) ->
  behaves m Q' E'.
Proof.
  intros B HQ HE w. destruct (B w) as (evs & W & F & P).
  exists evs. split; [exact W | split; [exact F | ]].
  destruct (fst (m w)); [apply HQ | apply HE]; exact P.
Qed.

Lemma behaves_bind {A B} (m : M A) (k : A -> M B) (Q : A -> Prop)
    (Q' : B -> Prop) (E : exn -> Prop) :
  behaves m Q E ->
  (forall a, Q a -> behaves (k a) Q' E) ->
  behaves (bind m k) Q' E.
Proof.
  intros Bm Bk w. destruct (Bm w) as (evs & W & F & P). unfold bind.
  destruct (m w) as [[a | e] w1]; cbn [fst snd] in *.
  - destruct (Bk a P w1) as (evs' & W' & F' & P').
    exists (evs ++ evs'). split; [ | split].
    + rewrite W', W, app_assoc. reflexivity.
    + apply Forall_app. split; assumption.
    + exact P'.
  - exists evs. split; [exact W | split; [exact F | exact P]].
Qed.

Lemma behaves_lift {A} (r : result A) (Q : A -> Prop) (E : exn -> Prop) :
  match r with Ok a => Q a | Raise e => E e end ->
  behaves (lift r) Q E.
Proof.
  intros P w. exists []. unfold lift. cbn [fst snd].
  split; [symmetry; apply app_nil_r | split; [constructor | exact P]].
Qed.

Lemma behaves_raise {A} (e : exn) (Q : A -> Prop) (E : exn -> Prop) :
  E e -> behaves (raise e) Q E.
Proof.
  intros P w. exists []. unfold raise. cbn [fst snd].
  split; [symmetry; apply app_nil_r | split; [constructor | exact P]].
Qed.

Lemma behaves_now (clock : World -> Z) (E : exn -> Prop) :
  behaves (now clock) (fun _ => True) E.
Proof.
  intros w. exists []. unfold now. cbn [fst snd].
  split; [symmetry; apply app_nil_r | split; [constructor | exact I]].
Qed.

Section Behaviour.

Variable connection_query : World -> OBDCommand -> outcome.
Variable clock : World -> Z.

Lemma query_attempt_session (c : OBDCommand) (st : query_state) (w : World) :
  exists evs,
    snd (query_attempt connection_query c st w) = w ++ evs /\
    Forall session_event evs.
Proof.
  unfold query_attempt.
  destruct (connection_query w c) as [ | r]; cbn [snd];
    match goal with
    | |- context [if ?b then _ else _] => destruct b
    end;
    rewrite <- ?app_assoc; eexists; (split; [reflexivity | ]);
    repeat constructor.
Qed.

Lemma query_loop_session (fuel : nat) (c : OBDCommand) :
  forall st w,
  exists evs,
    snd (query_loop connection_query fuel c st w) = w ++ evs /\
    Forall session_event evs.
Proof.
  induction fuel as [ | fuel IH]; intros st w; cbn [query_loop].
  - exists []. split; [symmetry; apply app_nil_r | constructor].
  - destruct (negb (valid_response st) && (command_count st <? MAX_ATTEMPTS)).
    2:{ exists []. split; [symmetry; apply app_nil_r | constructor]. }
    destruct (query_attempt_session c st w) as (evs1 & E1 & F1).
    destruct (query_attempt connection_query c st w) as [st1 w1].
    cbn [snd] in E1. destruct (IH st1 w1) as (evs2 & E2 & F2).
    exists (evs1 ++ evs2). split.
    + rewrite E2, E1, app_assoc. reflexivity.
    + apply Forall_app. split; assumption.
Qed.

Lemma query_attempt_origin (c : OBDCommand) (st : query_state) (w : World) :
  valid_response (fst (query_attempt connection_query c st w)) = true ->
  exists resp,
    cmd_response (fst (query_attempt connection_query c st w)) = Some resp /\
    is_invalid (value resp) = false /\
    connection_query w c = Returns (Some resp).
Proof.
  unfold query_attempt.
  destruct (connection_query w c) as [ | [resp | ]];
    cbn [fst valid_response cmd_response].
  - rewrite orb_true_r. discriminate.
  - destruct (is_invalid (value resp)) eqn:I; [discriminate | ].
    intros _. exists resp. repeat split; first [exact I | reflexivity].
  - discriminate.
Qed.

Lemma query_loop_origin (fuel : nat) (c : OBDCommand) :
  forall st w,
  valid_response st = false ->
  valid_response (fst (query_loop connection_query fuel c st w)) = true ->
  exists resp w0,
    cmd_response (fst (query_loop connection_query fuel c st w)) = Some resp /\
    is_invalid (value resp) = false /\
    connection_query w0 c = Returns (Some resp).
Proof.
  induction fuel as [ | fuel IH]; intros st w V F; cbn [query_loop] in *.
  - cbn [fst] in F. congruence.
  - destruct (negb (valid_response st) && (command_count st <? MAX_ATTEMPTS));
      [ | cbn [fst] in F; congruence].
    pose proof (query_attempt_origin c st w) as Inv.
    destruct (query_attempt connection_query c st w) as [st1 w1].
    cbn [fst] in Inv.
    destruct (valid_response st1) eqn:V1.
    + destruct fuel; cbn [query_loop fst] in *; rewrite ?V1 in *;
        cbn [negb andb fst] in *;
        destruct (Inv eq_refl) as (resp & C & I & O);
        exists resp, w; repeat split; assumption.
    + exact (IH st1 w1 V1 F).
Qed.

(** A call of [query_command] adds session events only; it returns a
    response the adapter gave to this command and that is not rejected,
    or raises the ValueError about the exceeded attempts. *)
Lemma query_command_behaves (c : OBDCommand) :
  behaves (query_command connection_query c)
    (fun r => exists resp w0,
                r = Some resp /\ is_invalid (value resp) = false /\
                connection_query w0 c = Returns (Some resp))
    (fun e => e = ValueError (NoValidResponse c MAX_ATTEMPTS)).
Proof.
  intros w. unfold query_command.
  destruct (query_loop_session (Z.to_nat MAX_ATTEMPTS) c query_init w)
    as (evs & W & F).
  pose proof (query_loop_origin (Z.to_nat MAX_ATTEMPTS) c query_init w eq_refl)
    as O.
  destruct (query_loop connection_query (Z.to_nat MAX_ATTEMPTS) c query_init w)
    as [st w'].
  cbn [fst snd] in W, O. exists evs.
  destruct (valid_response st) eqn:V; cbn [negb fst snd].
  - split; [exact W | split; [exact F | ]].
    destruct (O eq_refl) as (resp & w0 & C & I & Q).
    exists resp, w0. repeat split; assumption.
  - split; [exact W | split; [exact F | reflexivity]].
Qed.

End Behaviour.

Lemma behaves_result {A} (m : M A) (Q : A -> Prop) (E : exn -> Prop) :
  behaves m Q E ->
  forall w, match fst (m w) with Ok a => Q a | Raise e => E e end.
Proof. intros B w. destruct (B w) as (evs & _ & _ & R). exact R. Qed.

Lemma value_of_bytes (v : list Z) : value_of (bytes_response v) = Ok v.
Proof. reflexivity. Qed.

Section Groups.

Variable connection_query : World -> OBDCommand -> outcome.
Variable clock : World -> Z.
Hypothesis well_typed : typed connection_query.

Lemma query_setup_behaves (c : OBDCommand) (E : exn -> Prop) :
  (forall what, E (ValueError what)) ->
  behaves (query_command connection_query c) (fun _ => True) E.
Proof.
  intros HE.
  apply (behaves_weaken _ _ _ _ _ (query_command_behaves connection_query c)).
  - intros a _. exact I.
  - intros e ->. apply HE.
Qed.

Lemma query_data_behaves (c : OBDCommand) (E : exn -> Prop) :
  decode c = can_response_decoder ->
  (forall what, E (ValueError what)) ->
  behaves (query_command connection_query c) carries_bytes E.
Proof.
  intros D HE.
  apply (behaves_weaken _ _ _ _ _ (query_command_behaves connection_query c)).
  - intros r (resp & w0 & -> & I & O).
    destruct (well_typed w0 c resp D O) as [N | [v V]].
    + rewrite N in I. discriminate I.
    + exists v. destruct resp as [x]. cbn [value] in V. subst x. reflexivity.
  - intros e ->. apply HE.
Qed.

Lemma decoding_error_value (what : value_error) :
  decoding_error (ValueError what).
Proof. left. exists what. reflexivity. Qed.

Lemma value_error_only_value (what : value_error) :
  value_error_only (ValueError what).
Proof. exists what. reflexivity. Qed.

Lemma query_odometer_behaves :
  behaves (query_odometer connection_query clock)
    (fun d => exists t v,
       d = [("timestamp"%string, PInt t);
            ("odometer"%string, PInt (bytes_to_int (Py.slice v 9 12)))])
    (fun e => exists c, e = ValueError (NoValidResponse c MAX_ATTEMPTS)).
Proof.
  assert (HE : forall c, behaves (query_command connection_query c)
                           (fun _ => True)
                           (fun e => exists c0,
                              e = ValueError (NoValidResponse c0 MAX_ATTEMPTS))).
  { intros c.
    apply (behaves_weaken _ _ _ _ _ (query_command_behaves connection_query c)).
    - intros a _. exact I.
    - intros e ->. exists c. reflexivity. }
  unfold query_odometer.
  apply (behaves_bind _ _ _ _ _ (HE _)). intros _ _.
  apply (behaves_bind _ _ _ _ _ (HE _)). intros _ _.
  apply (behaves_bind _ _ _ _ _ (HE _)). intros _ _.
  apply behaves_bind with (Q := carries_bytes).
  { apply (behaves_weaken _ _ _ _ _
             (query_command_behaves connection_query cmd_odometer)).
    - intros r (resp & w0 & -> & I & O).
      destruct (well_typed w0 cmd_odometer resp eq_refl O) as [N | [v V]].
      + rewrite N in I. discriminate I.
      + exists v. destruct resp as [x]. cbn [value] in V. subst x. reflexivity.
    - intros e ->. exists cmd_odometer. reflexivity. }
  intros raw [v ->]. cbn [has_value bytes_response value].
  apply behaves_bind with (Q := fun _ => True); [apply behaves_now | ].
  intros t _. apply behaves_lift. rewrite value_of_bytes. cbn [rbind].
  exists t, v. reflexivity.
Qed.

Lemma query_external_temperature_behaves :
  behaves (query_external_temperature connection_query clock)
    (fun d => exists t v b,
       nth_error v 14 = Some b /\
       d = [("timestamp"%string, PInt t);
            ("external_temperature"%string,
             PFloat (truediv (of_int (b - 80)) 2))])
    decoding_error.
Proof.
  unfold query_external_temperature.
  apply behaves_bind with (Q := fun _ => True); [apply behaves_now | ].
  intros t _.
  apply behaves_bind with (Q := fun _ => True);
    [apply query_setup_behaves, decoding_error_value | intros _ _].
  apply behaves_bind with (Q := fun _ => True);
    [apply query_setup_behaves, decoding_error_value | intros _ _].
  apply behaves_bind with (Q := carries_bytes);
    [apply query_data_behaves; [reflexivity | apply decoding_error_value] | ].
  intros raw [v ->]. cbn [has_value bytes_response value].
  apply behaves_lift. rewrite value_of_bytes. unfold Py.index. cbn [rbind].
  destruct (nth_error v 14) as [b | ] eqn:N; cbn [rbind].
  - exists t, v, b. split; [exact N | reflexivity].
  - unfold decoding_error. right. reflexivity.
Qed.

Lemma query_tpms_information_behaves :
  behaves (query_tpms_information connection_query clock)
    (fun d => exists t v,
       (21 <= List.length v)%nat /\
       d = [("timestamp"%string, PInt t);
            ("tire_1_pressure"%string, PFloat (fmul (of_int (nth 7 v 0)) (2 # 10)));
            ("tire_1_temperature"%string, PInt (nth 8 v 0 - 55));
            ("tire_2_pressure"%string, PFloat (fmul (of_int (nth 11 v 0)) (2 # 10)));
            ("tire_2_temperature"%string, PInt (nth 12 v 0 - 55));
            ("tire_3_pressure"%string, PFloat (fmul (of_int (nth 15 v 0)) (2 # 10)));
            ("tire_3_temperature"%string, PInt (nth 16 v 0 - 55));
            ("tire_4_pressure"%string, PFloat (fmul (of_int (nth 19 v 0)) (2 # 10)));
            ("tire_4_temperature"%string, PInt (nth 20 v 0 - 55))])
    decoding_error.
Proof.
  unfold query_tpms_information.
  apply behaves_bind with (Q := fun _ => True);
    [apply query_setup_behaves, decoding_error_value | intros _ _].
  apply behaves_bind with (Q := fun _ => True);
    [apply query_setup_behaves, decoding_error_value | intros _ _].
  apply behaves_bind with (Q := carries_bytes);
    [apply query_data_behaves; [reflexivity | apply decoding_error_value] | ].
  intros raw [v ->]. cbn [has_value bytes_response value].
  apply behaves_bind with (Q := fun _ => True); [apply behaves_now | ].
  intros t _. apply behaves_lift. rewrite value_of_bytes. cbn [rbind].
  destruct (Nat.le_gt_cases 21 (List.length v)) as [L | L].
  - unfold item_int, item_float. cbn [collect_items].
    rewrite (index_ok v 7 0), (index_ok v 8 0), (index_ok v 11 0),
      (index_ok v 12 0), (index_ok v 15 0), (index_ok v 16 0),
      (index_ok v 19 0), (index_ok v 20 0) by lia.
    cbn [rbind]. exists t, v. split; [exact L | reflexivity].
  - match goal with
    | |- match rbind ?c _ with _ => _ end =>
        assert (X : index_only c)
    end.
    { apply collect_items_index_only. unfold item_int, item_float.
      repeat (constructor;
              [ cbn [snd];
                repeat first
                  [ apply ok_index_only
                  | apply index_index_only
                  | apply rbind_index_only; [ | intro ] ]
              | ]).
      constructor. }
    match goal with
    | |- match rbind ?c _ with _ => _ end =>
        destruct c as [items | e] eqn:Items; cbn [rbind]
    end.
    + exfalso.
      pose proof (fun r => collect_items_in_ok _ items "tire_4_temperature" r
                             Items) as P.
      edestruct P as [x Hx];
        [ unfold item_int, item_float;
          repeat first [left; reflexivity | right]
        | ].
      destruct (Py.index v 20) eqn:E; [ | discriminate Hx].
      apply index_ok_inv in E. lia.
    + destruct X as [[a X] | X]; [discriminate X | ].
      injection X as ->. unfold decoding_error. right. reflexivity.
Qed.

Lemma battery_information_raises (timestamp : Z) (v1 v2 v3 v4 v5 : list Z)
    (e : exn) :
  battery_information timestamp (bytes_response v1) (bytes_response v2)
    (bytes_response v3) (bytes_response v4) (bytes_response v5) = Raise e ->
  e = IndexError \/
  exists soh, Qle_bool soh 100 = false /\ e = ValueError (InconsistentSoh soh).
Proof.
  intros H.
  destruct (Qle_bool (truediv (of_int (bytes_to_int (Py.slice v5 27 29))) 10)
                     100) eqn:S.
  - left.
    destruct (battery_information_index_only timestamp v1 v2 v3 v4 v5 S)
      as [[d D] | D]; rewrite D in H; [discriminate H | ].
    injection H as <-. reflexivity.
  - right. revert H.
    unfold battery_information, bytes_response, value_of at 1.
    cbn [value rbind]. rewrite S. intros H. injection H as <-.
    eexists. split; [exact S | reflexivity].
Qed.

Lemma query_battery_information_behaves :
  behaves (query_battery_information connection_query clock)
    (fun d => map fst d = battery_keys)
    (fun e =>
       (exists c, e = ValueError (NoValidResponse c MAX_ATTEMPTS)) \/
       (exists soh, Qle_bool soh 100 = false /\
                    e = ValueError (InconsistentSoh soh)) \/
       e = IndexError).
Proof.
  assert (HE : forall c, behaves (query_command connection_query c)
                 (fun _ => True)
                 (fun e =>
                    (exists c, e = ValueError (NoValidResponse c MAX_ATTEMPTS)) \/
                    (exists soh, Qle_bool soh 100 = false /\
                                 e = ValueError (InconsistentSoh soh)) \/
                    e = IndexError)).
  { intros c.
    apply (behaves_weaken _ _ _ _ _ (query_command_behaves connection_query c)).
    - intros a _. exact I.
    - intros e ->. left. exists c. reflexivity. }
  assert (HB : forall c, decode c = can_response_decoder ->
               behaves (query_command connection_query c)
                 carries_bytes
                 (fun e =>
                    (exists c, e = ValueError (NoValidResponse c MAX_ATTEMPTS)) \/
                    (exists soh, Qle_bool soh 100 = false /\
                                 e = ValueError (InconsistentSoh soh)) \/
                    e = IndexError)).
  { intros c D.
    apply (behaves_weaken _ _ _ _ _ (query_command_behaves connection_query c)).
    - intros r (resp & w0 & -> & I & O).
      destruct (well_typed w0 c resp D O) as [N | [v V]].
      + rewrite N in I. discriminate I.
      + exists v. destruct resp as [x]. cbn [value] in V. subst x. reflexivity.
    - intros e ->. left. exists c. reflexivity. }
  unfold query_battery_information.
  apply (behaves_bind _ _ _ _ _ (HE _)). intros _ _.
  apply (behaves_bind _ _ _ _ _ (HE _)). intros _ _.
  apply (behaves_bind _ _ _ _ _ (HB cmd_bms_2101 eq_refl)). intros raw_2101 [v1 ->].
  apply (behaves_bind _ _ _ _ _ (HB cmd_bms_2102 eq_refl)). intros raw_2102 [v2 ->].
  apply (behaves_bind _ _ _ _ _ (HB cmd_bms_2103 eq_refl)). intros raw_2103 [v3 ->].
  apply (behaves_bind _ _ _ _ _ (HB cmd_bms_2104 eq_refl)). intros raw_2104 [v4 ->].
  apply (behaves_bind _ _ _ _ _ (HB cmd_bms_2105 eq_refl)). intros raw_2105 [v5 ->].
  apply behaves_bind with (Q := fun _ => True); [apply behaves_now | ].
  intros t _. apply behaves_lift.
  destruct (battery_information t (bytes_response v1) (bytes_response v2)
              (bytes_response v3) (bytes_response v4) (bytes_response v5))
    as [d | e] eqn:B.
  - exact (battery_information_keys _ _ _ _ _ _ d B).
  - destruct (battery_information_raises _ _ _ _ _ _ e B) as [-> | S].
    + right. right. reflexivity.
    + right. left. exact S.
Qed.

Lemma query_vmcu_information_behaves :
  behaves (query_vmcu_information connection_query clock)
    (fun d => exists t vin gear v,
       (17 <= List.length v)%nat /\
       String.length vin = 17%nat /\
       d = [("timestamp"%string, PInt t);
            ("vin"%string, PStr vin);
            ("gear"%string, PStr gear);
            ("kmh"%string,
             PFloat (fmul (truediv (of_int (nth 16 v 0 * 256 + nth 15 v 0)) 100)
                          (160934 # 100000)))])
    (fun e => (exists c, e = ValueError (NoValidResponse c MAX_ATTEMPTS)) \/
              e = IndexError).
Proof.
  assert (HE : forall c, behaves (query_command connection_query c)
                 (fun _ => True)
                 (fun e =>
                    (exists c, e = ValueError (NoValidResponse c MAX_ATTEMPTS)) \/
                    e = IndexError)).
  { intros c.
    apply (behaves_weaken _ _ _ _ _ (query_command_behaves connection_query c)).
    - intros a _. exact I.
    - intros e ->. left. exists c. reflexivity. }
  assert (HB : forall c, decode c = can_response_decoder ->
               behaves (query_command connection_query c)
                 carries_bytes
                 (fun e =>
                    (exists c, e = ValueError (NoValidResponse c MAX_ATTEMPTS)) \/
                    e = IndexError)).
  { intros c D.
    apply (behaves_weaken _ _ _ _ _ (query_command_behaves connection_query c)).
    - intros r (resp & w0 & -> & I & O).
      destruct (well_typed w0 c resp D O) as [N | [v V]].
      + rewrite N in I. discriminate I.
      + exists v. destruct resp as [x]. cbn [value] in V. subst x. reflexivity.
    - intros e ->. left. exists c. reflexivity. }
  unfold query_vmcu_information.
  apply behaves_bind with (Q := fun _ => True); [apply behaves_now | ].
  intros t _.
  apply (behaves_bind _ _ _ _ _ (HE _)). intros _ _.
  apply (behaves_bind _ _ _ _ _ (HE _)). intros _ _.
  apply (behaves_bind _ _ _ _ _ (HB cmd_vin eq_refl)). intros raw_vin [vv ->].
  apply (behaves_bind _ _ _ _ _ (HB cmd_vmcu_2101 eq_refl)).
  intros raw_2101 [v ->].
  apply behaves_lift.
  unfold extract_vin, extract_gear. rewrite !value_of_bytes. cbn [rbind].
  destruct (Nat.le_gt_cases 17 (List.length v)) as [L | L].
  - rewrite (index_ok v 7 0), (index_ok v 16 0), (index_ok v 15 0) by lia.
    cbn [rbind].
    eexists t, _, _, v. split; [exact L | split; [ | reflexivity]].
    rewrite string_of_list_ascii_length, !length_map, length_seq.
    reflexivity.
  - destruct (Py.index v 7) as [b7 | e7] eqn:E7; cbn [rbind].
    + destruct (Py.index v 16) as [b16 | e16] eqn:E16; cbn [rbind].
      * apply index_ok_inv in E16. lia.
      * destruct (index_cases v 16) as [[a X] | X]; rewrite X in E16;
          [discriminate E16 | ].
        injection E16 as <-. right. reflexivity.
    + destruct (index_cases v 7) as [[a X] | X]; rewrite X in E7;
        [discriminate E7 | ].
      injection E7 as <-. right. reflexivity.
Qed.

Lemma query_data_result (c : OBDCommand) (w w' : World)
    (r : option OBDResponse) :
  decode c = can_response_decoder ->
  query_command connection_query c w = (Ok r, w') ->
  exists v, r = bytes_response v.
Proof.
  intros D H.
  pose proof (behaves_result _ _ _
                (query_data_behaves c (fun _ => True) D (fun _ => I)) w) as R.
  rewrite H in R. exact R.
Qed.

End Groups.

Lemma rejecting_adapter_typed : typed rejecting_adapter.
Proof.
  intros w c r D. unfold rejecting_adapter. rewrite D. intros H.
  injection H as <-. right. eexists. reflexivity.
Qed.

Lemma threes_adapter_typed : typed threes_adapter.
Proof.
  intros w c r D. unfold threes_adapter. rewrite D. intros H.
  injection H as <-. right. eexists. reflexivity.
Qed.

Lemma soh_101_adapter_typed : typed soh_101_adapter.
Proof.
  intros w c r D. unfold soh_101_adapter. rewrite D.
  destruct (String.eqb _ _); intros H; injection H as <-;
    right; eexists; reflexivity.
Qed.

(** X15.  With a typed adapter, whenever its four queries succeed
    [query_odometer] returns, in the world the last query left, the
    record of the two fields "timestamp" (the clock after the queries)
    and "odometer", the number written by the bytes 9 to 11 of the
    payload that the odometer query returned, however short this payload
    is (missing bytes are left out); and the only exception it raises is
    the ValueError of a query without valid response: its own error
    "Could not get odometer value" is never raised. *)
Theorem odometer_never_fails_to_decode
    (connection_query : World -> OBDCommand -> outcome) (clock : World -> Z)
    (w : World) :
  typed connection_query ->
  (forall r1 r2 r3 r4 w1 w2 w3 w4,
     query_command connection_query cmd_can_header_7c6 w = (Ok r1, w1) ->
     query_command connection_query cmd_can_receive_address_7ec w1
       = (Ok r2, w2) ->
     query_command connection_query cmd_can_filter_7ce w2 = (Ok r3, w3) ->
     query_command connection_query cmd_odometer w3 = (Ok r4, w4) ->
     exists v,
       r4 = bytes_response v /\
       query_odometer connection_query clock w =
         (Ok [("timestamp"%string, PInt (clock w4));
              ("odometer"%string, PInt (bytes_to_int (Py.slice v 9 12)))],
          w4)) /\
  (forall e,
     fst (query_odometer connection_query clock w) = Raise e ->
     exists c, e = ValueError (NoValidResponse c MAX_ATTEMPTS)).
Proof.
  intros T. split.
  - intros r1 r2 r3 r4 w1 w2 w3 w4 H1 H2 H3 H4.
    destruct (query_data_result connection_query T cmd_odometer w3 w4 r4
                eq_refl H4) as [v ->].
    exists v. split; [reflexivity | ].
    unfold query_odometer, bind. rewrite H1, H2, H3, H4.
    cbn [has_value bytes_response value]. unfold now, lift.
    rewrite value_of_bytes. reflexivity.
  - intros e H.
    pose proof (behaves_result _ _ _
                  (query_odometer_behaves connection_query clock T) w) as R.
    rewrite H in R. exact R.
Qed.

Lemma odometer_never_fails_to_decode_witness :
  typed rejecting_adapter /\
  query_odometer rejecting_adapter still_clock [] =
    (Ok [("timestamp"%string, PInt 0); ("odometer"%string, PInt 0)],
     [Queried cmd_can_header_7c6 (Returns (Some ok_response));
      Queried cmd_can_receive_address_7ec (Returns (Some ok_response));
      Queried cmd_can_filter_7ce (Returns (Some ok_response));
      Queried cmd_odometer (Returns (bytes_response [127; 33; 18]))]).
Proof.
  split; [exact rejecting_adapter_typed | ].
  destruct (proj1 (odometer_never_fails_to_decode rejecting_adapter
                     still_clock [] rejecting_adapter_typed)
              (Some ok_response) (Some ok_response) (Some ok_response)
              (bytes_response [127; 33; 18])
              [Queried cmd_can_header_7c6 (Returns (Some ok_response))]
              [Queried cmd_can_header_7c6 (Returns (Some ok_response));
               Queried cmd_can_receive_address_7ec (Returns (Some ok_response))]
              [Queried cmd_can_header_7c6 (Returns (Some ok_response));
               Queried cmd_can_receive_address_7ec (Returns (Some ok_response));
               Queried cmd_can_filter_7ce (Returns (Some ok_response))]
              [Queried cmd_can_header_7c6 (Returns (Some ok_response));
               Queried cmd_can_receive_address_7ec (Returns (Some ok_response));
               Queried cmd_can_filter_7ce (Returns (Some ok_response));
               Queried cmd_odometer (Returns (bytes_response [127; 33; 18]))]
              eq_refl eq_refl eq_refl eq_refl) as (v & V & R).
  injection V as <-. exact R.
Defined.

(** X16.  With a typed adapter, whenever its three queries succeed
    [query_external_temperature] ends in the world the last query left:
    when the payload that the temperature query returned has a byte [b]
    at offset 14 it returns the record of "timestamp" (the clock before
    the queries) and "external_temperature" = ([b] - 80) / 2; when the
    payload has fewer than 15 bytes it raises IndexError.  It raises
    nothing but a ValueError or IndexError. *)
Theorem external_temperature_behaviour
    (connection_query : World -> OBDCommand -> outcome) (clock : World -> Z)
    (w : World) :
  typed connection_query ->
  (forall r1 r2 r3 w1 w2 w3,
     query_command connection_query cmd_can_header_7e6 w = (Ok r1, w1) ->
     query_command connection_query cmd_can_receive_address_7ee w1
       = (Ok r2, w2) ->
     query_command connection_query cmd_ext_temp w2 = (Ok r3, w3) ->
     exists v,
       r3 = bytes_response v /\
       query_external_temperature connection_query clock w =
         (match nth_error v 14 with
          | Some b =>
              Ok [("timestamp"%string, PInt (clock w));
                  ("external_temperature"%string,
                   PFloat (truediv (of_int (b - 80)) 2))]
          | None => Raise IndexError
          end, w3)) /\
  (forall e,
     fst (query_external_temperature connection_query clock w) = Raise e ->
     decoding_error e).
Proof.
  intros T. split.
  - intros r1 r2 r3 w1 w2 w3 H1 H2 H3.
    destruct (query_data_result connection_query T cmd_ext_temp w2 w3 r3
                eq_refl H3) as [v ->].
    exists v. split; [reflexivity | ].
    unfold query_external_temperature, bind, now. rewrite H1, H2, H3.
    cbn [has_value bytes_response value]. unfold lift.
    rewrite value_of_bytes. unfold Py.index. cbn [rbind].
    destruct (nth_error v 14); reflexivity.
  - intros e H.
    pose proof (behaves_result _ _ _
                  (query_external_temperature_behaves connection_query clock T)
                  w) as R.
    rewrite H in R. exact R.
Qed.

Lemma external_temperature_behaviour_witness :
  typed soh_101_adapter /\
  query_external_temperature soh_101_adapter still_clock [] =
    (Ok [("timestamp"%string, PInt 0);
         ("external_temperature"%string, PFloat (-40))],
     [Queried cmd_can_header_7e6 (Returns (Some ok_response));
      Queried cmd_can_receive_address_7ee (Returns (Some ok_response));
      Queried cmd_ext_temp (Returns (bytes_response (repeat 0 64)))]).
Proof.
  split; [exact soh_101_adapter_typed | ].
  destruct (proj1 (external_temperature_behaviour soh_101_adapter
                     still_clock [] soh_101_adapter_typed)
              (Some ok_response) (Some ok_response)
              (bytes_response (repeat 0 64))
              [Queried cmd_can_header_7e6 (Returns (Some ok_response))]
              [Queried cmd_can_header_7e6 (Returns (Some ok_response));
               Queried cmd_can_receive_address_7ee (Returns (Some ok_response))]
              [Queried cmd_can_header_7e6 (Returns (Some ok_response));
               Queried cmd_can_receive_address_7ee (Returns (Some ok_response));
               Queried cmd_ext_temp (Returns (bytes_response (repeat 0 64)))]
              eq_refl eq_refl eq_refl) as (v & V & R).
  injection V as <-. exact R.
Defined.

(** X17.  With a typed adapter, whenever its three queries succeed
    [query_tpms_information] ends in the world the last query left: when
    the payload that the TPMS query returned has at least 21 bytes it
    returns the record of "timestamp" (the clock after the queries) and,
    for each of the four tires, the pressure (the binary64 product of
    byte 7, 11, 15, 19 by 0.2) and the temperature (byte 8, 12, 16, 20
    minus 55); when the payload is shorter it raises IndexError.  It
    raises nothing but a ValueError or IndexError. *)
Theorem tpms_behaviour
    (connection_query : World -> OBDCommand -> outcome) (clock : World -> Z)
    (w : World) :
  typed connection_query ->
  (forall r1 r2 r3 w1 w2 w3,
     query_command connection_query cmd_can_receive_address_7a8 w
       = (Ok r1, w1) ->
     query_command connection_query cmd_can_header_7a0 w1 = (Ok r2, w2) ->
     query_command connection_query cmd_tpms_22c00b w2 = (Ok r3, w3) ->
     exists v,
       r3 = bytes_response v /\
       ((21 <= List.length v)%nat ->
        query_tpms_information connection_query clock w =
          (Ok [("timestamp"%string, PInt (clock w3));
               ("tire_1_pressure"%string,
                PFloat (fmul (of_int (nth 7 v 0)) (2 # 10)));
               ("tire_1_temperature"%string, PInt (nth 8 v 0 - 55));
               ("tire_2_pressure"%string,
                PFloat (fmul (of_int (nth 11 v 0)) (2 # 10)));
               ("tire_2_temperature"%string, PInt (nth 12 v 0 - 55));
               ("tire_3_pressure"%string,
                PFloat (fmul (of_int (nth 15 v 0)) (2 # 10)));
               ("tire_3_temperature"%string, PInt (nth 16 v 0 - 55));
               ("tire_4_pressure"%string,
                PFloat (fmul (of_int (nth 19 v 0)) (2 # 10)));
               ("tire_4_temperature"%string, PInt (nth 20 v 0 - 55))],
           w3)) /\
       ((List.length v < 21)%nat ->
        query_tpms_information connection_query clock w =
          (Raise IndexError, w3))) /\
  (forall e,
     fst (query_tpms_information connection_query clock w) = Raise e ->
     decoding_error e).
Proof.
  intros T. split.
  - intros r1 r2 r3 w1 w2 w3 H1 H2 H3.
    destruct (query_data_result connection_query T cmd_tpms_22c00b w2 w3 r3
                eq_refl H3) as [v ->].
    exists v. split; [reflexivity | ].
    assert (R : query_tpms_information connection_query clock w =
                (fst (query_tpms_information connection_query clock w), w3)).
    { unfold query_tpms_information, bind. rewrite H1, H2, H3.
      cbn [has_value bytes_response value]. unfold now, lift. reflexivity. }
    pose proof (behaves_result _ _ _
                  (query_tpms_information_behaves connection_query clock T) w)
      as B.
    split; intros L; rewrite R; f_equal.
    + unfold query_tpms_information, bind. rewrite H1, H2, H3.
      cbn [has_value bytes_response value]. unfold now, lift. cbn [fst].
      rewrite value_of_bytes. cbn [rbind].
      unfold item_int, item_float. cbn [collect_items].
      rewrite (index_ok v 7 0), (index_ok v 8 0), (index_ok v 11 0),
        (index_ok v 12 0), (index_ok v 15 0), (index_ok v 16 0),
        (index_ok v 19 0), (index_ok v 20 0) by lia.
      reflexivity.
    + revert B. unfold query_tpms_information, bind. rewrite H1, H2, H3.
      cbn [has_value bytes_response value]. unfold now, lift. cbn [fst].
      rewrite value_of_bytes. cbn [rbind].
      match goal with
      | |- context [rbind ?c _] => assert (X : index_only c)
      end.
      { apply collect_items_index_only. unfold item_int, item_float.
        repeat (constructor;
                [ cbn [snd];
                  repeat first
                    [ apply ok_index_only
                    | apply index_index_only
                    | apply rbind_index_only; [ | intro ] ]
                | ]).
        constructor. }
      match goal with
      | |- context [rbind ?c _] =>
          destruct c as [items | e] eqn:Items; cbn [rbind]
      end.
      * exfalso.
        pose proof (fun r => collect_items_in_ok _ items "tire_4_temperature" r
                               Items) as P.
        edestruct P as [x Hx];
          [ unfold item_int, item_float;
            repeat first [left; reflexivity | right]
          | ].
        destruct (Py.index v 20) eqn:E; [ | discriminate Hx].
        apply index_ok_inv in E. lia.
      * intros _. destruct X as [[a X] | X]; [discriminate X | ].
        injection X as ->. reflexivity.
  - intros e H.
    pose proof (behaves_result _ _ _
                  (query_tpms_information_behaves connection_query clock T) w)
      as R.
    rewrite H in R. exact R.
Qed.

Lemma tpms_behaviour_witness :
  typed threes_adapter /\
  query_tpms_information threes_adapter still_clock [] =
    (Ok [("timestamp"%string, PInt 0);
         ("tire_1_pressure"%string,
          PFloat (1351079888211149 # 2251799813685248));
         ("tire_1_temperature"%string, PInt (-52));
         ("tire_2_pressure"%string,
          PFloat (1351079888211149 # 2251799813685248));
         ("tire_2_temperature"%string, PInt (-52));
         ("tire_3_pressure"%string,
          PFloat (1351079888211149 # 2251799813685248));
         ("tire_3_temperature"%string, PInt (-52));
         ("tire_4_pressure"%string,
          PFloat (1351079888211149 # 2251799813685248));
         ("tire_4_temperature"%string, PInt (-52))],
     [Queried cmd_can_receive_address_7a8 (Returns (Some ok_response));
      Queried cmd_can_header_7a0 (Returns (Some ok_response));
      Queried cmd_tpms_22c00b (Returns (bytes_response (repeat 3 21)))]).
Proof.
  split; [exact threes_adapter_typed | ].
  destruct (proj1 (tpms_behaviour threes_adapter still_clock []
                     threes_adapter_typed)
              (Some ok_response) (Some ok_response)
              (bytes_response (repeat 3 21))
              [Queried cmd_can_receive_address_7a8 (Returns (Some ok_response))]
              [Queried cmd_can_receive_address_7a8 (Returns (Some ok_response));
               Queried cmd_can_header_7a0 (Returns (Some ok_response))]
              [Queried cmd_can_receive_address_7a8 (Returns (Some ok_response));
               Queried cmd_can_header_7a0 (Returns (Some ok_response));
               Queried cmd_tpms_22c00b (Returns (bytes_response (repeat 3 21)))]
              eq_refl eq_refl eq_refl) as (v & V & R & _).
  injection V as <-.
  rewrite (R ltac:(cbn; lia)). vm_compute. reflexivity.
Defined.

(** X18.  With a typed adapter, the record [query_battery_information]
    returns has the 141 battery fields; it raises only the ValueError of
    a query without valid response, the ValueError of a state of health
    above 100, or IndexError (a payload too short). *)
Theorem battery_group_behaviour
    (connection_query : World -> OBDCommand -> outcome) (clock : World -> Z)
    (w : World) :
  typed connection_query ->
  match fst (query_battery_information connection_query clock w) with
  | Ok d => map fst d = battery_keys
  | Raise e =>
      (exists c, e = ValueError (NoValidResponse c MAX_ATTEMPTS)) \/
      (exists soh, Qle_bool soh 100 = false /\
                   e = ValueError (InconsistentSoh soh)) \/
      e = IndexError
  end.
Proof.
  intros T.
  exact (behaves_result _ _ _
           (query_battery_information_behaves connection_query clock T) w).
Qed.

Lemma battery_group_behaviour_witness :
  typed soh_101_adapter /\
  match fst (query_battery_information soh_101_adapter still_clock []) with
  | Ok d => map fst d = battery_keys
  | Raise e =>
      (exists c, e = ValueError (NoValidResponse c MAX_ATTEMPTS)) \/
      (exists soh, Qle_bool soh 100 = false /\
                   e = ValueError (InconsistentSoh soh)) \/
      e = IndexError
  end.
Proof.
  split; [exact soh_101_adapter_typed | ].
  exact (battery_group_behaviour soh_101_adapter still_clock []
           soh_101_adapter_typed).
Defined.

(** X19.  With a typed adapter, whenever its four queries succeed
    [query_vmcu_information] ends in the world the last query left: when
    the 2101 payload has at least 17 bytes it returns the record of
    "timestamp" (the clock before the queries), "vin" (the 17 characters
    that [extract_vin] reads in the VIN payload, however short this
    payload is), "gear" (the letters that [extract_gear] reads in the
    2101 payload) and "kmh", the binary64 product by 1.60934 of
    (byte 16 * 256 + byte 15) / 100; when the 2101 payload is shorter it
    raises IndexError.  It raises nothing but the ValueError of a query
    without valid response, or IndexError. *)
Theorem vmcu_group_behaviour
    (connection_query : World -> OBDCommand -> outcome) (clock : World -> Z)
    (w : World) :
  typed connection_query ->
  (forall r1 r2 r3 r4 w1 w2 w3 w4,
     query_command connection_query cmd_can_header_7e2 w = (Ok r1, w1) ->
     query_command connection_query cmd_can_receive_address_7ea w1
       = (Ok r2, w2) ->
     query_command connection_query cmd_vin w2 = (Ok r3, w3) ->
     query_command connection_query cmd_vmcu_2101 w3 = (Ok r4, w4) ->
     exists vv v,
       r3 = bytes_response vv /\
       r4 = bytes_response v /\
       ((17 <= List.length v)%nat ->
        exists vin gear,
          extract_vin r3 = Ok vin /\
          String.length vin = 17%nat /\
          extract_gear r4 = Ok gear /\
          query_vmcu_information connection_query clock w =
            (Ok [("timestamp"%string, PInt (clock w));
                 ("vin"%string, PStr vin);
                 ("gear"%string, PStr gear);
                 ("kmh"%string,
                  PFloat (fmul (truediv (of_int (nth 16 v 0 * 256
                                                 + nth 15 v 0)) 100)
                               (160934 # 100000)))],
             w4)) /\
       ((List.length v < 17)%nat ->
        query_vmcu_information connection_query clock w =
          (Raise IndexError, w4))) /\
  (forall e,
     fst (query_vmcu_information connection_query clock w) = Raise e ->
     (exists c, e = ValueError (NoValidResponse c MAX_ATTEMPTS)) \/
     e = IndexError).
Proof.
  intros T. split.
  - intros r1 r2 r3 r4 w1 w2 w3 w4 H1 H2 H3 H4.
    destruct (query_data_result connection_query T cmd_vin w2 w3 r3
                eq_refl H3) as [vv ->].
    destruct (query_data_result connection_query T cmd_vmcu_2101 w3 w4 r4
                eq_refl H4) as [v ->].
    exists vv, v. split; [reflexivity | split; [reflexivity | ]].
    assert (R : query_vmcu_information connection_query clock w =
                (fst (query_vmcu_information connection_query clock w), w4)).
    { unfold query_vmcu_information, bind, now. rewrite H1, H2, H3, H4.
      unfold lift. reflexivity. }
    split; intros L.
    + assert (G : exists gear, extract_gear (bytes_response v) = Ok gear).
      { unfold extract_gear. rewrite value_of_bytes. cbn [rbind].
        rewrite (index_ok v 7 0) by lia. cbn [rbind]. eexists. reflexivity. }
      destruct G as [gear G].
      assert (V : exists vin, extract_vin (bytes_response vv) = Ok vin /\
                              String.length vin = 17%nat).
      { unfold extract_vin. rewrite value_of_bytes. cbn [rbind].
        eexists. split; [reflexivity | ].
        rewrite string_of_list_ascii_length, !length_map, length_seq.
        reflexivity. }
      destruct V as (vin & V & LV).
      exists vin, gear.
      split; [exact V | split; [exact LV | split; [exact G | ]]].
      rewrite R. f_equal.
      unfold query_vmcu_information, bind, now. rewrite H1, H2, H3, H4.
      unfold lift. cbn [fst]. rewrite V, G, value_of_bytes. cbn [rbind].
      rewrite (index_ok v 16 0), (index_ok v 15 0) by lia.
      reflexivity.
    + rewrite R. f_equal.
      unfold query_vmcu_information, bind, now. rewrite H1, H2, H3, H4.
      unfold lift. cbn [fst].
      unfold extract_vin, extract_gear. rewrite !value_of_bytes.
      cbn [rbind].
      destruct (Py.index v 7) as [b7 | e7] eqn:E7; cbn [rbind].
      * destruct (Py.index v 16) as [b16 | e16] eqn:E16; cbn [rbind].
        -- apply index_ok_inv in E16. lia.
        -- destruct (index_cases v 16) as [[a X] | X]; rewrite X in E16;
             [discriminate E16 | ].
           injection E16 as <-. reflexivity.
      * destruct (index_cases v 7) as [[a X] | X]; rewrite X in E7;
          [discriminate E7 | ].
        injection E7 as <-. reflexivity.
  - intros e H.
    pose proof (behaves_result _ _ _
                  (query_vmcu_information_behaves connection_query clock T) w)
      as R.
    rewrite H in R. exact R.
Qed.

Lemma vmcu_group_behaviour_witness :
  typed threes_adapter /\
  query_vmcu_information threes_adapter still_clock [] =
    (Ok [("timestamp"%string, PInt 0);
         ("vin"%string,
          PStr (string_of_list_ascii
                  (repeat (ascii_of_nat 3) 5 ++ repeat (ascii_of_nat 0) 12)));
         ("gear"%string, PStr "PR");
         ("kmh"%string, PFloat (1746272359920277 # 140737488355328))],
     [Queried cmd_can_header_7e2 (Returns (Some ok_response));
      Queried cmd_can_receive_address_7ea (Returns (Some ok_response));
      Queried cmd_vin (Returns (bytes_response (repeat 3 21)));
      Queried cmd_vmcu_2101 (Returns (bytes_response (repeat 3 21)))]).
Proof.
  split; [exact threes_adapter_typed | ].
  destruct (proj1 (vmcu_group_behaviour threes_adapter still_clock []
                     threes_adapter_typed)
              (Some ok_response) (Some ok_response)
              (bytes_response (repeat 3 21)) (bytes_response (repeat 3 21))
              [Queried cmd_can_header_7e2 (Returns (Some ok_response))]
              [Queried cmd_can_header_7e2 (Returns (Some ok_response));
               Queried cmd_can_receive_address_7ea (Returns (Some ok_response))]
              [Queried cmd_can_header_7e2 (Returns (Some ok_response));
               Queried cmd_can_receive_address_7ea (Returns (Some ok_response));
               Queried cmd_vin (Returns (bytes_response (repeat 3 21)))]
              [Queried cmd_can_header_7e2 (Returns (Some ok_response));
               Queried cmd_can_receive_address_7ea (Returns (Some ok_response));
               Queried cmd_vin (Returns (bytes_response (repeat 3 21)));
               Queried cmd_vmcu_2101 (Returns (bytes_response (repeat 3 21)))]
              eq_refl eq_refl eq_refl eq_refl) as (vv & v & V3 & V4 & R & _).
  injection V3 as <-. injection V4 as <-.
  destruct (R ltac:(cbn; lia)) as (vin & gear & EV & _ & EG & Run).
  rewrite Run. vm_compute in EV, EG.
  injection EV as <-. injection EG as <-. vm_compute. reflexivity.
Defined.

(** ** The main script, continued *)

Lemma subsequence_nil {A} (ys : list A) : subsequence [] ys.
Proof. induction ys; constructor; assumption. Qed.

Lemma session_event_quiet (e : event) : session_event e -> quiet e.
Proof. destruct e; cbn; tauto. Qed.

Lemma connect_event_quiet (e : event) : connect_event e -> quiet e.
Proof. destruct e; cbn; tauto. Qed.

Lemma sent_connect_events (evs : list event) :
  Forall connect_event evs -> sent evs = [].
Proof.
  unfold sent. induction 1 as [ | e evs C _ IH]; cbn [flat_map].
  - reflexivity.
  - rewrite IH. destruct e; cbn in C; try contradiction; reflexivity.
Qed.

Section Orchestration.

Variable connection_query : World -> OBDCommand -> outcome.
Variable obd_open : World -> OBDStatus.
Variable clock : World -> Z.
Variable topic_prefix : string.

Lemma run_groups_escape (gs : list group) :
  forall msgs w e,
  snd (fst (run_groups topic_prefix gs msgs w)) = Some e ->
  caught_by_group e = false.
Proof.
  induction gs as [ | g gs IH]; intros msgs w e; cbn [run_groups].
  - discriminate.
  - unfold try_group. destruct (run g w) as [[d | e0] w'].
    + apply IH.
    + destruct (caught_by_group e0) eqn:C.
      * apply IH.
      * cbn [fst snd]. intros H. injection H as <-. exact C.
Qed.

Lemma run_groups_summary (E : exn -> Prop) (gs : list group) :
  Forall (fun g => behaves (run g) (fun _ => True) E) gs ->
  forall msgs w,
  exists evs added,
    snd (run_groups topic_prefix gs msgs w) = w ++ evs /\
    Forall session_event evs /\
    fst (fst (run_groups topic_prefix gs msgs w)) = msgs ++ added /\
    subsequence (map topic added)
                (map (fun g => (topic_prefix ++ suffix g)%string) gs) /\
    (forall e, snd (fst (run_groups topic_prefix gs msgs w)) = Some e -> E e).
Proof.
  induction 1 as [ | g gs B _ IH]; intros msgs w; cbn [run_groups].
  - exists [], []. cbn [fst snd map]. rewrite !app_nil_r.
    repeat split; try constructor. discriminate.
  - unfold try_group. destruct (B w) as (evs1 & W1 & S1 & R1).
    destruct (run g w) as [[d | e0] w']; cbn [fst snd] in W1, R1; subst w'.
    + destruct (IH (msgs ++ [record_msg topic_prefix (suffix g) d])
                   (w ++ evs1)) as (evs2 & added & W2 & S2 & M2 & T2 & X2).
      exists (evs1 ++ evs2), (record_msg topic_prefix (suffix g) d :: added).
      rewrite W2, M2, <- !app_assoc. cbn [app map topic record_msg].
      repeat split; try assumption.
      * apply Forall_app. split; assumption.
      * apply sub_keep. exact T2.
    + destruct (caught_by_group e0) eqn:C.
      * destruct (IH msgs
                     ((w ++ evs1) ++ [Logged WARNING (ErrorQuerying (what g) e0)]))
          as (evs2 & added & W2 & S2 & M2 & T2 & X2).
        exists (evs1 ++ Logged WARNING (ErrorQuerying (what g) e0) :: evs2),
               added.
        rewrite W2, M2, <- !app_assoc. cbn [app].
        repeat split; try assumption.
        -- apply Forall_app. split; [assumption | ].
           constructor; [exact I | assumption].
        -- apply sub_skip. exact T2.
        -- intros e. rewrite app_assoc. apply X2.
      * exists evs1, []. cbn [fst snd map]. rewrite app_nil_r.
        repeat split; try assumption.
        -- apply subsequence_nil.
        -- intros e H. injection H as <-. exact R1.
Qed.

Lemma query_any (c : OBDCommand) :
  behaves (query_command connection_query c) (fun _ => True) (fun _ => True).
Proof.
  apply (behaves_weaken _ _ _ _ _ (query_command_behaves connection_query c));
    intros; exact I.
Qed.

Lemma lift_any {A} (r : result A) :
  behaves (lift r) (fun _ => True) (fun _ => True).
Proof. apply behaves_lift. destruct r; exact I. Qed.

Lemma groups_any :
  Forall (fun g => behaves (run g) (fun _ => True) (fun _ => True))
         (groups connection_query clock).
Proof.
  unfold groups.
  repeat (apply Forall_cons; [cbn [run] | ]); [ | | | | | apply Forall_nil].
  - unfold query_battery_information.
    repeat (apply behaves_bind with (Q := fun _ => True);
            [first [apply query_any | apply behaves_now] | intros ? _]).
    apply lift_any.
  - unfold query_vmcu_information.
    repeat (apply behaves_bind with (Q := fun _ => True);
            [first [apply query_any | apply behaves_now] | intros ? _]).
    apply lift_any.
  - unfold query_odometer.
    repeat (apply behaves_bind with (Q := fun _ => True);
            [first [apply query_any | apply behaves_now] | intros ? _]).
    destruct (has_value _).
    + apply behaves_bind with (Q := fun _ => True);
        [apply behaves_now | intros ? _]. apply lift_any.
    + apply behaves_raise. exact I.
  - unfold query_tpms_information.
    repeat (apply behaves_bind with (Q := fun _ => True);
            [first [apply query_any | apply behaves_now] | intros ? _]).
    destruct (has_value _).
    + apply behaves_bind with (Q := fun _ => True);
        [apply behaves_now | intros ? _]. apply lift_any.
    + apply behaves_raise. exact I.
  - unfold query_external_temperature.
    repeat (apply behaves_bind with (Q := fun _ => True);
            [first [apply query_any | apply behaves_now] | intros ? _]).
    destruct (has_value _).
    + apply lift_any.
    + apply behaves_raise. exact I.
Qed.

Lemma groups_typed :
  typed connection_query ->
  Forall (fun g => behaves (run g) (fun _ => True) decoding_error)
         (groups connection_query clock).
Proof.
  intros T. unfold groups.
  repeat (apply Forall_cons; [cbn [run] | ]); [ | | | | | apply Forall_nil].
  - apply (behaves_weaken _ _ _ _ _
             (query_battery_information_behaves connection_query clock T)).
    + intros; exact I.
    + intros e [[c ->] | [(soh & _ & ->) | ->]];
        [left; eexists; reflexivity | left; eexists; reflexivity
        | right; reflexivity].
  - apply (behaves_weaken _ _ _ _ _
             (query_vmcu_information_behaves connection_query clock T)).
    + intros; exact I.
    + intros e [[c ->] | ->];
        [left; eexists; reflexivity | right; reflexivity].
  - apply (behaves_weaken _ _ _ _ _
             (query_odometer_behaves connection_query clock T)).
    + intros; exact I.
    + intros e [c ->]. left. eexists. reflexivity.
  - apply (behaves_weaken _ _ _ _ _
             (query_tpms_information_behaves connection_query clock T)).
    + intros; exact I.
    + intros e H. exact H.
  - apply (behaves_weaken _ _ _ _ _
             (query_external_temperature_behaves connection_query clock T)).
    + intros; exact I.
    + intros e H. exact H.
Qed.

Lemma connect_loop_events (fuel : nat) :
  forall st w,
  exists evs,
    snd (connect_loop obd_open fuel st w) = w ++ evs /\
    Forall connect_event evs.
Proof.
  induction fuel as [ | fuel IH]; intros st w; cbn [connect_loop].
  - exists []. rewrite app_nil_r. split; [reflexivity | constructor].
  - destruct (negb _ && _).
    + unfold connect_attempt.
      match goal with
      | |- context [connect_loop obd_open fuel ?s ?x] =>
          destruct (IH s x) as (evs & W & C)
      end.
      destruct (negb _ && _).
      * exists ([Opened (obd_open w);
                 Logged WARNING
                   (RetryingConnect (obd_open w) (connection_count st + 1));
                 Slept (connection_count st + 1)] ++ evs).
        rewrite W, <- !app_assoc. split; [reflexivity | ].
        apply Forall_app. split; [repeat constructor | exact C].
      * exists ([Opened (obd_open w)] ++ evs).
        rewrite W, <- !app_assoc. split; [reflexivity | ].
        apply Forall_app. split; [repeat constructor | exact C].
    + exists []. rewrite app_nil_r. split; [reflexivity | constructor].
Qed.

Lemma obd_connect_events (w : World) :
  exists evs,
    snd (obd_connect obd_open w) = w ++ evs /\ Forall connect_event evs /\
    (fst (obd_connect obd_open w) = Ok tt \/
     fst (obd_connect obd_open w) = Raise ConnectionError).
Proof.
  unfold obd_connect.
  destruct (connect_loop_events (Z.to_nat MAX_ATTEMPTS)
              {| connection_count := 0; obd_connection := None |} w)
    as (evs & W & C).
  destruct (connect_loop _ _ _ _) as [st w']. cbn [snd] in W. subst w'.
  exists evs. destruct (car_connected _); cbn [fst snd];
    (split; [reflexivity | split; [exact C | ]]);
    [left | right]; reflexivity.
Qed.

End Orchestration.

(** X20.  An exception that a group's [try] block does not catch (anything
    but ValueError and CanError) ends the session at once: the groups
    after it do not run, whatever they are; the script then logs one
    error, publishes the records gathered before the failure and closes
    the connection. *)
Theorem uncaught_failure_ends_session
    (connection_query : World -> OBDCommand -> outcome)
    (obd_open : World -> OBDStatus) (clock : World -> Z)
    (topic_prefix : string)
    (before : list group) (g : group) (after : list group)
    (msgs msgs1 : list mqtt_msg) (w w1 w2 : World) (e : exn) :
  run_groups topic_prefix before msgs w = ((msgs1, None), w1) ->
  run g w1 = (Raise e, w2) ->
  caught_by_group e = false ->
  run_groups topic_prefix (before ++ g :: after) msgs w =
    ((msgs1, Some e), w2) /\
  (forall w0,
     obd_connect obd_open w0 = (Ok tt, w) ->
     msgs = [state_msg topic_prefix] ->
     before ++ g :: after = groups connection_query clock ->
     main connection_query obd_open clock topic_prefix w0 =
       (msgs1,
        w2 ++ [Logged ERROR (ErrorFound (outer_handler e) e);
               Published msgs1; Closed])).
Proof.
  intros B R C.
  assert (G : run_groups topic_prefix (before ++ g :: after) msgs w =
              ((msgs1, Some e), w2)).
  { rewrite run_groups_app, B. cbn [run_groups]. unfold try_group.
    rewrite R, C. reflexivity. }
  split; [exact G | ].
  intros w0 O -> L. unfold main. rewrite O, <- L, G.
  rewrite <- !app_assoc. reflexivity.
Qed.

Lemma uncaught_failure_ends_session_witness :
  sent (snd (main rejecting_adapter always_connected still_clock car_prefix []))
    = ["ATSH7E4"; "ATCRA7EC"; "2101"; "2102"; "2103"; "2104"; "2105"]%string /\
  main rejecting_adapter always_connected still_clock car_prefix [] =
    ([state_msg car_prefix],
     snd (query_battery_information rejecting_adapter still_clock
            [Opened CAR_CONNECTED]) ++
     [Logged ERROR (ErrorFound "Unexpected error" IndexError);
      Published [state_msg car_prefix]; Closed]).
Proof.
  assert (R : run (mkGroup "battery" "battery information"
                     (query_battery_information rejecting_adapter still_clock))
                  [Opened CAR_CONNECTED] =
              (Raise IndexError,
               snd (query_battery_information rejecting_adapter still_clock
                      [Opened CAR_CONNECTED])))
    by (vm_compute; reflexivity).
  pose proof (proj2 (uncaught_failure_ends_session rejecting_adapter
      always_connected still_clock car_prefix
      [] _ (tl (groups rejecting_adapter still_clock))
      [state_msg car_prefix] [state_msg car_prefix]
      [Opened CAR_CONNECTED] [Opened CAR_CONNECTED] _ IndexError
      eq_refl R eq_refl) [] eq_refl eq_refl eq_refl) as Main.
  split; [vm_compute; reflexivity | exact Main].
Defined.

(** X21.  With a typed adapter, the five groups only query, sleep and
    warn; they add to the list of messages the records of some of the
    topics battery, vmcu, odometer, tpms and ext_temp, in this order,
    each at most once; and the only exception that leaves them is
    IndexError (a payload too short): the handlers of the outer [try]
    for ValueError and CanError are not reached from the groups. *)
Theorem typed_session_summary
    (connection_query : World -> OBDCommand -> outcome) (clock : World -> Z)
    (topic_prefix : string) (msgs : list mqtt_msg) (w : World) :
  typed connection_query ->
  let session :=
    run_groups topic_prefix (groups connection_query clock) msgs w in
  exists evs added,
    snd session = w ++ evs /\
    Forall session_event evs /\
    fst (fst session) = msgs ++ added /\
    subsequence (map topic added) (group_topics topic_prefix) /\
    (forall e, snd (fst session) = Some e -> e = IndexError).
Proof.
  intros T session.
  destruct (run_groups_summary topic_prefix decoding_error
              (groups connection_query clock)
              (groups_typed connection_query clock T) msgs w)
    as (evs & added & W & S & M & P & X).
  exists evs, added. repeat split; try assumption.
  intros e H. pose proof (run_groups_escape _ _ _ _ _ H) as C.
  destruct (X e H) as [[v ->] | ->]; [discriminate C | reflexivity].
Qed.

Lemma typed_session_summary_witness :
  typed soh_101_adapter /\
  exists evs added,
    snd (run_groups car_prefix (groups soh_101_adapter still_clock)
           [state_msg car_prefix] []) = [] ++ evs /\
    Forall session_event evs /\
    fst (fst (run_groups car_prefix (groups soh_101_adapter still_clock)
                [state_msg car_prefix] [])) = [state_msg car_prefix] ++ added /\
    subsequence (map topic added) (group_topics car_prefix) /\
    (forall e,
       snd (fst (run_groups car_prefix (groups soh_101_adapter still_clock)
                   [state_msg car_prefix] [])) = Some e -> e = IndexError).
Proof.
  split; [exact soh_101_adapter_typed | ].
  exact (typed_session_summary soh_101_adapter still_clock car_prefix
           [state_msg car_prefix] [] soh_101_adapter_typed).
Defined.

(** X22.  Whatever the adapter and the port do, the script publishes
    exactly once, after everything else and just before it closes the
    connection; it closes the connection exactly when [obd_connect]
    returned one; the list it publishes starts with the state message
    "ON" and goes on with records of some of the five topics, in the
    order of the script. *)
Theorem main_publishes_once
    (connection_query : World -> OBDCommand -> outcome)
    (obd_open : World -> OBDStatus) (clock : World -> Z)
    (topic_prefix : string) (w : World) :
  let script := main connection_query obd_open clock topic_prefix w in
  exists evs records,
    snd script =
      w ++ evs ++ Published (fst script) ::
        match fst (obd_connect obd_open w) with
        | Ok _ => [Closed]
        | Raise _ => []
        end /\
    Forall quiet evs /\
    fst script = state_msg topic_prefix :: records /\
    subsequence (map topic records) (group_topics topic_prefix).
Proof.
  intros script. unfold script, main.
  destruct (obd_connect_events obd_open w) as (evs0 & W0 & C0 & _).
  destruct (obd_connect obd_open w) as [[[] | e] w0]; cbn [fst snd] in *;
    subst w0.
  - destruct (run_groups_summary topic_prefix (fun _ => True)
                (groups connection_query clock)
                (groups_any connection_query clock)
                [state_msg topic_prefix] (w ++ evs0))
      as (evs & added & W & S & M & P & _).
    destruct (run_groups _ _ _ _) as [[msgs' escaped] w'].
    cbn [fst snd] in W, M. subst w' msgs'.
    destruct escaped as [e | ].
    + exists (evs0 ++ evs ++ [Logged ERROR (ErrorFound (outer_handler e) e)]),
             added.
      cbn [fst snd]. rewrite <- !app_assoc. cbn [app].
      split; [reflexivity | split; [ | split; [reflexivity | exact P]]].
      apply Forall_app. split.
      * eapply Forall_impl; [exact connect_event_quiet | exact C0].
      * apply Forall_app. split; [ | repeat constructor].
        eapply Forall_impl; [exact session_event_quiet | exact S].
    + exists (evs0 ++ evs), added.
      cbn [fst snd]. rewrite <- !app_assoc. cbn [app].
      split; [reflexivity | split; [ | split; [reflexivity | exact P]]].
      apply Forall_app. split.
      * eapply Forall_impl; [exact connect_event_quiet | exact C0].
      * eapply Forall_impl; [exact session_event_quiet | exact S].
  - exists (evs0 ++ [Logged ERROR (ErrorFound (outer_handler e) e)]), [].
    cbn [fst snd]. rewrite <- !app_assoc. cbn [app].
    split; [reflexivity | split; [ | split; [reflexivity | constructor]]].
    + apply Forall_app. split; [ | repeat constructor].
      eapply Forall_impl; [exact connect_event_quiet | exact C0].
    + apply subsequence_nil.
Qed.

(** X23.  When the car is not connected after the attempts of
    [obd_connect], the script sends no command at all: after the
    openings, warnings and sleeps of [obd_connect] it logs "OBDII
    connection error", publishes the state message alone and stops
    without closing anything. *)
Theorem connection_failure_is_fatal
    (connection_query : World -> OBDCommand -> outcome)
    (obd_open : World -> OBDStatus) (clock : World -> Z)
    (topic_prefix : string) (w : World) :
  fst (obd_connect obd_open w) <> Ok tt ->
  let script := main connection_query obd_open clock topic_prefix w in
  script =
    ([state_msg topic_prefix],
     snd (obd_connect obd_open w) ++
       [Logged ERROR (ErrorFound "OBDII connection error" ConnectionError);
        Published [state_msg topic_prefix]]) /\
  sent (snd script) = sent w /\
  exists evs,
    snd (obd_connect obd_open w) = w ++ evs /\ Forall connect_event evs.
Proof.
  intros F script.
  destruct (obd_connect_events obd_open w) as (evs0 & W0 & C0 & [R | R]);
    [contradiction | ].
  assert (S : script =
              ([state_msg topic_prefix],
               snd (obd_connect obd_open w) ++
                 [Logged ERROR
                    (ErrorFound "OBDII connection error" ConnectionError);
                  Published [state_msg topic_prefix]])).
  { unfold script, main.
    destruct (obd_connect obd_open w) as [r w0]. cbn [fst snd] in *. subst r.
    rewrite <- !app_assoc. reflexivity. }
  split; [exact S | ]. rewrite S, W0. cbn [snd]. split.
  - unfold sent. rewrite !flat_map_app. fold (sent evs0).
    rewrite (sent_connect_events evs0 C0). cbn [flat_map app].
    rewrite !app_nil_r. reflexivity.
  - exists evs0. split; [reflexivity | exact C0].
Qed.

Lemma connection_failure_is_fatal_witness :
  fst (obd_connect never_ready []) <> Ok tt /\
  main rejecting_adapter never_ready still_clock car_prefix [] =
    ([state_msg car_prefix],
     [Opened NOT_CONNECTED;
      Logged WARNING (RetryingConnect NOT_CONNECTED 1); Slept 1;
      Opened NOT_CONNECTED;
      Logged WARNING (RetryingConnect NOT_CONNECTED 2); Slept 2;
      Opened NOT_CONNECTED;
      Logged ERROR (ErrorFound "OBDII connection error" ConnectionError);
      Published [state_msg car_prefix]]).
Proof.
  assert (F : fst (obd_connect never_ready []) <> Ok tt) by discriminate.
  split; [exact F | ].
  exact (proj1 (connection_failure_is_fatal rejecting_adapter never_ready
                  still_clock car_prefix [] F)).
Defined.
